(** * PCx86 SerialPort (NS8250A UART) -- a shallow embedding and its properties

    The model follows modules/pcx86/lib/serialport.js function by function.
    JavaScript numbers that the component manipulates are integers; they are
    modelled as [Z], and every bitwise operator goes through [toInt32], the
    32-bit two's-complement conversion JavaScript applies to its operands.
    Object properties can also hold [undefined] or an array (the constructor
    leaves the registers unassigned, and [initState] copies whatever the
    snapshot holds), so register cells are [jsval]s.  Calls that only log
    (printMessageIO, printMessage) are left out. *)

From Stdlib Require Import ZArith List Bool String Ascii Lia.
Import ListNotations.
Local Open Scope Z_scope.

(** ** JavaScript values *)

Inductive jsval : Type :=
| JUndef                  (* undefined *)
| JNum (z : Z)            (* an integral number *)
| JArr (l : list Z).      (* an array of numbers *)

Coercion JNum : Z >-> jsval.

(** ToNumber; [None] stands for NaN.  An array converts through its string
    form: [[]] is "", [[n]] is the numeral of n, anything longer has a comma. *)
Definition toNumber (v : jsval) : option Z :=
  match v with
  | JUndef => None
  | JNum z => Some z
  | JArr [] => Some 0
  | JArr [z] => Some z
  | JArr _ => None
  end.

(** ToInt32 on an integer: reduce modulo 2^32 into [-2^31, 2^31). *)
Definition toInt32 (z : Z) : Z := (z + 2 ^ 31) mod 2 ^ 32 - 2 ^ 31.

(** ToInt32 on a value; NaN converts to 0. *)
Definition int32 (v : jsval) : Z :=
  match toNumber v with
  | Some z => toInt32 z
  | None => 0
  end.

Definition band (a b : jsval) : Z := Z.land (int32 a) (int32 b).
Definition bor (a b : jsval) : Z := Z.lor (int32 a) (int32 b).
Definition bxor (a b : jsval) : Z := Z.lxor (int32 a) (int32 b).
Definition bnot (a : jsval) : Z := Z.lnot (int32 a).
(** [a << n] and [a >> n]: the shift count is taken modulo 32, a left shift
    wraps to 32 bits, a right shift is arithmetic. *)
Definition shl (a : jsval) (n : Z) : Z := toInt32 (Z.shiftl (int32 a) (Z.land n 31)).
Definition sar (a : jsval) (n : Z) : Z := Z.shiftr (int32 a) (Z.land n 31).

Declare Scope js_scope.
Delimit Scope js_scope with js.
Notation "a .& b" := (band a b) (at level 40, left associativity) : js_scope.
Notation "a .| b" := (bor a b) (at level 50, left associativity) : js_scope.
Notation "a .^ b" := (bxor a b) (at level 45, left associativity) : js_scope.
Notation ".~ a" := (bnot a) (at level 35, right associativity) : js_scope.
Local Open Scope js_scope.

(** Truthiness of a number (NaN does not arise: every tested number below is
    the result of a bitwise operator or a configured integer). *)
Definition truthy (z : Z) : bool := negb (z =? 0).

(** [a != n] where [n] is a number: loose inequality. [undefined] equals no
    number; an array is compared through ToNumber; NaN differs from all. *)
Definition loose_neq (a : jsval) (n : Z) : bool :=
  match toNumber a with
  | Some m => negb (m =? n)
  | None => true
  end.

(** Bit [i] of a register cell, as the bitwise operators see it. *)
Definition bit (v : jsval) (i : Z) : bool := Z.testbit (int32 v) i.

(** JavaScript strings that carry transmitted or received data are sequences
    of UTF-16 code units.  Identifiers and messages are ordinary [string]s. *)
Definition jstring : Type := list Z.

(** String.fromCharCode(b): one code unit, ToUint16 of the argument. *)
Definition fromCharCode (b : Z) : jstring := [b mod 2 ^ 16].

(** s.slice(0, -1) *)
Definition slice_0_m1 (s : jstring) : jstring := removelast s.

(** ** Register layout (the SerialPort.* constant tables) *)

Definition DL_DEFAULT : Z := 0x180.

Definition IER_RBR_AVAIL : Z := 0x01.
Definition IER_THR_EMPTY : Z := 0x02.
Definition IER_LSR_DELTA : Z := 0x04.
Definition IER_MSR_DELTA : Z := 0x08.

Definition IIR_NO_INT : Z := 0x01.
Definition IIR_INT_LSR : Z := 0x06.
Definition IIR_INT_RBR : Z := 0x04.
Definition IIR_INT_THR : Z := 0x02.
Definition IIR_INT_MSR : Z := 0x00.
Definition IIR_INT_BITS : Z := 0x06.

Definition LCR_DLAB : Z := 0x80.

Definition MCR_DTR : Z := 0x01.
Definition MCR_RTS : Z := 0x02.
Definition MCR_OUT1 : Z := 0x04.
Definition MCR_OUT2 : Z := 0x08.
Definition MCR_LOOPBACK : Z := 0x10.

Definition LSR_DR : Z := 0x01.
Definition LSR_OE : Z := 0x02.
Definition LSR_PE : Z := 0x04.
Definition LSR_FE : Z := 0x08.
Definition LSR_BI : Z := 0x10.
Definition LSR_THRE : Z := 0x20.
Definition LSR_TSRE : Z := 0x40.

Definition MSR_DCTS : Z := 0x01.
Definition MSR_DDSR : Z := 0x02.
Definition MSR_TERI : Z := 0x04.
Definition MSR_DRLSD : Z := 0x08.
Definition MSR_CTS : Z := 0x10.
Definition MSR_DSR : Z := 0x20.
Definition MSR_RI : Z := 0x40.
Definition MSR_RLSD : Z := 0x80.

(** ** What the component takes from the rest of PCjs

    These live outside the component's own file: the RS232 pin masks and the
    IRQ numbers (defines.js, chipset.js) and three helpers of strlib.js.  They
    are parameters of the model. *)
Record Externs : Type := mkExterns {
  RS232_RTS_MASK : Z;
  RS232_CTS_MASK : Z;
  RS232_DSR_MASK : Z;
  RS232_CD_MASK : Z;
  RS232_DTR_MASK : Z;
  IRQ_COM1 : Z;
  IRQ_COM2 : Z;
  toASCIICode : Z -> jstring;           (* str.toASCIICode(b) *)
  pad : jstring -> Z -> jstring;        (* str.pad(s, cch) *)
  trim : string -> string               (* str.trim(s) *)
}.

(** A function exported by another component.  Only the truthiness of what a
    call returns is ever looked at.  The function's code is the peer's, not
    this file's: a call is recorded as an event with the boolean it returns;
    what it does inside the peer is not modelled, and it is taken not to
    re-enter this port.  (A connection parameter that names the port itself
    makes the port its own peer; its calls would then run its own
    receiveData and receiveStatus.  That wiring is not modelled; the
    statements about a write that reaches a peer call say of the registers
    only what holds whatever the callee did.) *)
Record fnref : Type := mkFn {
  fn_name : string;
  fn_result : Z -> bool
}.

Record Exports : Type := mkExports {
  exp_connect : option fnref;
  exp_receiveData : option fnref;
  exp_receiveStatus : option fnref
}.

(** Another component, as far as this one looks into it. *)
Record Component : Type := mkComponent {
  comp_id : string;
  comp_exports : option Exports
}.

(** The machine around the component: cmp.getMachineParm("connection") and
    Component.getComponentByID. *)
Record World : Type := mkWorld {
  connectionParm : option string;
  getComponentByID : string -> option Component
}.

(** ** The component's state: the properties of [this] *)

Record SerialPort : Type := mkSerialPort {
  idMachine : string;
  idComponent : string;
  iAdapter : Z;
  portBase : Z;
  nIRQ : Z;
  chipset : bool;                       (* is this.chipset a component? *)
  tabSize : option Z;
  charBOL : option Z;
  iLogicalCol : Z;
  bMSRInit : Z;
  fNullModem : bool;
  consoleOutput : option jstring;
  controlIOBuffer : option jstring;     (* the bound control's value *)
  connection : option Component;
  sendData : option fnref;
  updateStatus : option fnref;
  bRBR : jsval;
  bTHR : jsval;
  wDL : jsval;
  bIER : jsval;
  bIIR : jsval;
  bLCR : jsval;
  bMCR : jsval;
  bLSR : jsval;
  bMSR : jsval;
  abReceive : jsval
}.

Definition set_chipset (v : bool) (d : SerialPort) : SerialPort :=
  mkSerialPort (idMachine d) (idComponent d) (iAdapter d) (portBase d) (nIRQ d) v
    (tabSize d) (charBOL d) (iLogicalCol d) (bMSRInit d) (fNullModem d)
    (consoleOutput d) (controlIOBuffer d) (connection d) (sendData d) (updateStatus d)
    (bRBR d) (bTHR d) (wDL d) (bIER d) (bIIR d) (bLCR d) (bMCR d) (bLSR d) (bMSR d)
    (abReceive d).

Definition set_iLogicalCol (v : Z) (d : SerialPort) : SerialPort :=
  mkSerialPort (idMachine d) (idComponent d) (iAdapter d) (portBase d) (nIRQ d)
    (chipset d) (tabSize d) (charBOL d) v (bMSRInit d) (fNullModem d) (consoleOutput d)
    (controlIOBuffer d) (connection d) (sendData d) (updateStatus d) (bRBR d) (bTHR d)
    (wDL d) (bIER d) (bIIR d) (bLCR d) (bMCR d) (bLSR d) (bMSR d) (abReceive d).

Definition set_fNullModem (v : bool) (d : SerialPort) : SerialPort :=
  mkSerialPort (idMachine d) (idComponent d) (iAdapter d) (portBase d) (nIRQ d)
    (chipset d) (tabSize d) (charBOL d) (iLogicalCol d) (bMSRInit d) v (consoleOutput d)
    (controlIOBuffer d) (connection d) (sendData d) (updateStatus d) (bRBR d) (bTHR d)
    (wDL d) (bIER d) (bIIR d) (bLCR d) (bMCR d) (bLSR d) (bMSR d) (abReceive d).

Definition set_consoleOutput (v : option jstring) (d : SerialPort) : SerialPort :=
  mkSerialPort (idMachine d) (idComponent d) (iAdapter d) (portBase d) (nIRQ d)
    (chipset d) (tabSize d) (charBOL d) (iLogicalCol d) (bMSRInit d) (fNullModem d) v
    (controlIOBuffer d) (connection d) (sendData d) (updateStatus d) (bRBR d) (bTHR d)
    (wDL d) (bIER d) (bIIR d) (bLCR d) (bMCR d) (bLSR d) (bMSR d) (abReceive d).

Definition set_controlIOBuffer (v : option jstring) (d : SerialPort) : SerialPort :=
  mkSerialPort (idMachine d) (idComponent d) (iAdapter d) (portBase d) (nIRQ d)
    (chipset d) (tabSize d) (charBOL d) (iLogicalCol d) (bMSRInit d) (fNullModem d)
    (consoleOutput d) v (connection d) (sendData d) (updateStatus d) (bRBR d) (bTHR d)
    (wDL d) (bIER d) (bIIR d) (bLCR d) (bMCR d) (bLSR d) (bMSR d) (abReceive d).

Definition set_connection (v : option Component) (d : SerialPort) : SerialPort :=
  mkSerialPort (idMachine d) (idComponent d) (iAdapter d) (portBase d) (nIRQ d)
    (chipset d) (tabSize d) (charBOL d) (iLogicalCol d) (bMSRInit d) (fNullModem d)
    (consoleOutput d) (controlIOBuffer d) v (sendData d) (updateStatus d) (bRBR d)
    (bTHR d) (wDL d) (bIER d) (bIIR d) (bLCR d) (bMCR d) (bLSR d) (bMSR d) (abReceive d).

Definition set_sendData (v : option fnref) (d : SerialPort) : SerialPort :=
  mkSerialPort (idMachine d) (idComponent d) (iAdapter d) (portBase d) (nIRQ d)
    (chipset d) (tabSize d) (charBOL d) (iLogicalCol d) (bMSRInit d) (fNullModem d)
    (consoleOutput d) (controlIOBuffer d) (connection d) v (updateStatus d) (bRBR d)
    (bTHR d) (wDL d) (bIER d) (bIIR d) (bLCR d) (bMCR d) (bLSR d) (bMSR d) (abReceive d).

Definition set_updateStatus (v : option fnref) (d : SerialPort) : SerialPort :=
  mkSerialPort (idMachine d) (idComponent d) (iAdapter d) (portBase d) (nIRQ d)
    (chipset d) (tabSize d) (charBOL d) (iLogicalCol d) (bMSRInit d) (fNullModem d)
    (consoleOutput d) (controlIOBuffer d) (connection d) (sendData d) v (bRBR d)
    (bTHR d) (wDL d) (bIER d) (bIIR d) (bLCR d) (bMCR d) (bLSR d) (bMSR d) (abReceive d).

Definition set_bRBR (v : jsval) (d : SerialPort) : SerialPort :=
  mkSerialPort (idMachine d) (idComponent d) (iAdapter d) (portBase d) (nIRQ d)
    (chipset d) (tabSize d) (charBOL d) (iLogicalCol d) (bMSRInit d) (fNullModem d)
    (consoleOutput d) (controlIOBuffer d) (connection d) (sendData d) (updateStatus d) v
    (bTHR d) (wDL d) (bIER d) (bIIR d) (bLCR d) (bMCR d) (bLSR d) (bMSR d) (abReceive d).

Definition set_bTHR (v : jsval) (d : SerialPort) : SerialPort :=
  mkSerialPort (idMachine d) (idComponent d) (iAdapter d) (portBase d) (nIRQ d)
    (chipset d) (tabSize d) (charBOL d) (iLogicalCol d) (bMSRInit d) (fNullModem d)
    (consoleOutput d) (controlIOBuffer d) (connection d) (sendData d) (updateStatus d)
    (bRBR d) v (wDL d) (bIER d) (bIIR d) (bLCR d) (bMCR d) (bLSR d) (bMSR d)
    (abReceive d).

Definition set_wDL (v : jsval) (d : SerialPort) : SerialPort :=
  mkSerialPort (idMachine d) (idComponent d) (iAdapter d) (portBase d) (nIRQ d)
    (chipset d) (tabSize d) (charBOL d) (iLogicalCol d) (bMSRInit d) (fNullModem d)
    (consoleOutput d) (controlIOBuffer d) (connection d) (sendData d) (updateStatus d)
    (bRBR d) (bTHR d) v (bIER d) (bIIR d) (bLCR d) (bMCR d) (bLSR d) (bMSR d)
    (abReceive d).

Definition set_bIER (v : jsval) (d : SerialPort) : SerialPort :=
  mkSerialPort (idMachine d) (idComponent d) (iAdapter d) (portBase d) (nIRQ d)
    (chipset d) (tabSize d) (charBOL d) (iLogicalCol d) (bMSRInit d) (fNullModem d)
    (consoleOutput d) (controlIOBuffer d) (connection d) (sendData d) (updateStatus d)
    (bRBR d) (bTHR d) (wDL d) v (bIIR d) (bLCR d) (bMCR d) (bLSR d) (bMSR d)
    (abReceive d).

Definition set_bIIR (v : jsval) (d : SerialPort) : SerialPort :=
  mkSerialPort (idMachine d) (idComponent d) (iAdapter d) (portBase d) (nIRQ d)
    (chipset d) (tabSize d) (charBOL d) (iLogicalCol d) (bMSRInit d) (fNullModem d)
    (consoleOutput d) (controlIOBuffer d) (connection d) (sendData d) (updateStatus d)
    (bRBR d) (bTHR d) (wDL d) (bIER d) v (bLCR d) (bMCR d) (bLSR d) (bMSR d)
    (abReceive d).

Definition set_bLCR (v : jsval) (d : SerialPort) : SerialPort :=
  mkSerialPort (idMachine d) (idComponent d) (iAdapter d) (portBase d) (nIRQ d)
    (chipset d) (tabSize d) (charBOL d) (iLogicalCol d) (bMSRInit d) (fNullModem d)
    (consoleOutput d) (controlIOBuffer d) (connection d) (sendData d) (updateStatus d)
    (bRBR d) (bTHR d) (wDL d) (bIER d) (bIIR d) v (bMCR d) (bLSR d) (bMSR d)
    (abReceive d).

Definition set_bMCR (v : jsval) (d : SerialPort) : SerialPort :=
  mkSerialPort (idMachine d) (idComponent d) (iAdapter d) (portBase d) (nIRQ d)
    (chipset d) (tabSize d) (charBOL d) (iLogicalCol d) (bMSRInit d) (fNullModem d)
    (consoleOutput d) (controlIOBuffer d) (connection d) (sendData d) (updateStatus d)
    (bRBR d) (bTHR d) (wDL d) (bIER d) (bIIR d) (bLCR d) v (bLSR d) (bMSR d)
    (abReceive d).

Definition set_bLSR (v : jsval) (d : SerialPort) : SerialPort :=
  mkSerialPort (idMachine d) (idComponent d) (iAdapter d) (portBase d) (nIRQ d)
    (chipset d) (tabSize d) (charBOL d) (iLogicalCol d) (bMSRInit d) (fNullModem d)
    (consoleOutput d) (controlIOBuffer d) (connection d) (sendData d) (updateStatus d)
    (bRBR d) (bTHR d) (wDL d) (bIER d) (bIIR d) (bLCR d) (bMCR d) v (bMSR d)
    (abReceive d).

Definition set_bMSR (v : jsval) (d : SerialPort) : SerialPort :=
  mkSerialPort (idMachine d) (idComponent d) (iAdapter d) (portBase d) (nIRQ d)
    (chipset d) (tabSize d) (charBOL d) (iLogicalCol d) (bMSRInit d) (fNullModem d)
    (consoleOutput d) (controlIOBuffer d) (connection d) (sendData d) (updateStatus d)
    (bRBR d) (bTHR d) (wDL d) (bIER d) (bIIR d) (bLCR d) (bMCR d) (bLSR d) v
    (abReceive d).

Definition set_abReceive (v : jsval) (d : SerialPort) : SerialPort :=
  mkSerialPort (idMachine d) (idComponent d) (iAdapter d) (portBase d) (nIRQ d)
    (chipset d) (tabSize d) (charBOL d) (iLogicalCol d) (bMSRInit d) (fNullModem d)
    (consoleOutput d) (controlIOBuffer d) (connection d) (sendData d) (updateStatus d)
    (bRBR d) (bTHR d) (wDL d) (bIER d) (bIIR d) (bLCR d) (bMCR d) (bLSR d) (bMSR d) v.


(** ** Effects

    Calls that leave the component (interrupt controller, peer, console log,
    status line) are recorded as events, in call order.  Reading [length] of
    [undefined] or calling a method a value does not have raises a TypeError,
    which escapes every function of this file: [Throw].  What the state is
    after a TypeError is not tracked; none arises once the port has been
    powered up (see [reachable_never_throws]). *)

Inductive event : Type :=
| EvSetIRR (irq delay : Z)                                  (* chipset.setIRR *)
| EvClearIRR (irq : Z)                                      (* chipset.clearIRR *)
| EvSendData (fn : fnref) (peer : option Component) (b : Z) (* sendData.call *)
| EvUpdateStatus (fn : fnref) (peer : option Component) (pins : Z)
| EvConnect (fn : fnref) (peer : Component) (fNull : bool)  (* fnConnect.call *)
| EvPrintln (s : jstring)
| EvStatus (s : string).

Inductive outcome (A : Type) : Type :=
| Throw
| Ok (a : A) (d : SerialPort) (evs : list event).
Arguments Throw {A}.
Arguments Ok {A} a d evs.

Definition M (A : Type) : Type := SerialPort -> outcome A.

Definition ret {A} (a : A) : M A := fun d => Ok a d [].

Definition bind {A B} (m : M A) (k : A -> M B) : M B :=
  fun d =>
    match m d with
    | Throw => Throw
    | Ok a d1 e1 =>
        match k a d1 with
        | Throw => Throw
        | Ok b d2 e2 => Ok b d2 (e1 ++ e2)
        end
    end.

Definition get : M SerialPort := fun d => Ok d d [].
Definition modify (f : SerialPort -> SerialPort) : M unit := fun d => Ok tt (f d) [].
Definition emit (e : event) : M unit := fun d => Ok tt d [e].
Definition throw {A} : M A := fun _ => Throw.
Definition when (c : bool) (m : M unit) : M unit := if c then m else ret tt.

Notation "x <- m ;; k" := (bind m (fun x => k))
  (at level 61, m at next level, right associativity).
Notation "m ;; k" := (bind m (fun _ => k))
  (at level 61, right associativity).

Definition state_of {A} (o : outcome A) (dflt : SerialPort) : SerialPort :=
  match o with Ok _ d _ => d | Throw => dflt end.
Definition events_of {A} (o : outcome A) : list event :=
  match o with Ok _ _ evs => evs | Throw => [] end.
Definition result_of {A} (o : outcome A) : option A :=
  match o with Ok a _ _ => Some a | Throw => None end.

(** sConnection.split('->') *)
Fixpoint split_arrow_from (skip : bool) (cur s : string) : list string :=
  match s with
  | EmptyString => [cur]
  | String c rest =>
      if skip then split_arrow_from false cur rest
      else if prefix "->" s then cur :: split_arrow_from true EmptyString rest
      else split_arrow_from false (cur ++ String c EmptyString) rest
  end.
Definition split_arrow (s : string) : list string := split_arrow_from false EmptyString s.

(** What receiveData accepts: a number, a string or an array. *)
Inductive rxdata : Type :=
| RxNumber (n : Z)
| RxString (s : jstring)
| RxArray (l : list Z).

(** The constructor's parmsSerial (with the id the Component base class keeps). *)
Record Parms : Type := mkParms {
  p_id : string;
  p_idMachine : string;
  p_adapter : Z;
  p_binding : option string;
  p_tabSize : option Z;
  p_charBOL : option Z
}.

Definition sIOBuffer : string := "buffer".

(** The constructor past its adapter switch: no register is assigned yet,
    no chipset is known, nothing is connected. *)
Definition constructed (p : Parms) (base irq : Z) : SerialPort :=
  mkSerialPort (p_idMachine p) (p_id p) (p_adapter p) base irq false
    (p_tabSize p) (p_charBOL p) 0 (MSR_CTS .| MSR_DSR) true
    (match p_binding p with
     | Some b => if String.eqb b "console" then Some [] else None
     | None => None
     end)
    None None None None
    JUndef JUndef JUndef JUndef JUndef JUndef JUndef JUndef JUndef JUndef.

Section Model.

Variable X : Externs.

(** new SerialPort(parmsSerial): an unrecognized adapter number leaves the
    object without ports ([None]); otherwise [constructed] is what the rest of
    the constructor sets up.  A control found by bindExternalControl reaches
    the component through setBinding. *)
Definition SerialPort_new (p : Parms) : option SerialPort :=
  if p_adapter p =? 1 then Some (constructed p 0x3F8 (IRQ_COM1 X))
  else if p_adapter p =? 2 then Some (constructed p 0x2F8 (IRQ_COM2 X))
  else None.

(** attachMouse(id, mouse, fnUpdate); the result says whether [this] was returned. *)
Definition attachMouse (id : string) (mouse : Component) (fnUpdate : fnref) : M bool :=
  d <- get ;;
  match connection d with
  | None =>
      if String.eqb id (idComponent d) then
        modify (set_connection (Some mouse)) ;;
        modify (set_updateStatus (Some fnUpdate)) ;;
        modify (set_fNullModem false) ;;
        ret true
      else ret false
  | Some _ => ret false
  end.

(** setBinding(sHTMLType, sBinding, control, sValue); the key handlers it
    installs call receiveData. *)
Definition setBinding (sBinding : string) (control : jstring) : M bool :=
  if String.eqb sBinding sIOBuffer then
    modify (set_controlIOBuffer (Some control)) ;; ret true
  else ret false.

(** initBus(cmp, bus, cpu, dbg): [chip] says whether the machine has a ChipSet. *)
Definition initBus (chip : bool) : M unit := modify (set_chipset chip).

Definition status_unable (sConnection : string) : M unit :=
  emit (EvStatus ("Unable to establish connection: " ++ sConnection)).

(** initConnection(fNullModem) *)
Definition initConnection (w : World) (fNull : bool) : M unit :=
  d <- get ;;
  match connection d with
  | Some _ => ret tt
  | None =>
      match connectionParm w with
      | None => ret tt
      | Some EmptyString => ret tt
      | Some sConnection =>
          match split_arrow sConnection with
          | [p0; p1] =>
              let sSourceID := trim X p0 in
              if negb (String.eqb sSourceID (idComponent d)) then ret tt
              else
                let sTargetID := trim X p1 in
                modify (set_connection (getComponentByID w sTargetID)) ;;
                match getComponentByID w sTargetID with
                | Some target =>
                    match comp_exports target with
                    | Some exports =>
                        match exp_connect exports with
                        | Some fnConnect => emit (EvConnect fnConnect target (fNullModem d))
                        | None => ret tt
                        end ;;
                        modify (set_sendData (exp_receiveData exports)) ;;
                        match exp_receiveData exports with
                        | Some _ =>
                            modify (set_fNullModem fNull) ;;
                            modify (set_updateStatus (exp_receiveStatus exports)) ;;
                            emit (EvStatus (idMachine d ++ "." ++ sSourceID
                                            ++ " connected to " ++ sTargetID))
                        | None => status_unable sConnection
                        end
                    | None => status_unable sConnection
                    end
                | None => status_unable sConnection
                end
          | _ => status_unable sConnection
          end
      end
  end.

(** data[i] of a JavaScript array: [undefined] past the end. *)
Definition js_index (data : list jsval) (i : nat) : jsval := nth i data JUndef.

(** initState(data) *)
Definition initState (data : option (list jsval)) : M bool :=
  d <- get ;;
  let data :=
    match data with
    | Some data => data
    | None =>
        [ JNum 0; JNum 0; JNum DL_DEFAULT; JNum 0; JNum IIR_NO_INT; JNum 0; JNum 0;
          JNum (LSR_THRE .| LSR_TSRE); JNum (bMSRInit d); JArr [] ]
    end in
  modify (set_bRBR (js_index data 0)) ;;
  modify (set_bTHR (js_index data 1)) ;;
  modify (set_wDL (js_index data 2)) ;;
  modify (set_bIER (js_index data 3)) ;;
  modify (set_bIIR (js_index data 4)) ;;
  modify (set_bLCR (js_index data 5)) ;;
  modify (set_bMCR (js_index data 6)) ;;
  modify (set_bLSR (js_index data 7)) ;;
  modify (set_bMSR (js_index data 8)) ;;
  modify (set_abReceive (js_index data 9)) ;;
  ret true.

(** reset() *)
Definition reset : M unit := initState None ;; ret tt.

(** saveRegisters() *)
Definition saveRegisters (d : SerialPort) : list jsval :=
  [ bRBR d; bTHR d; wDL d; bIER d; bIIR d; bLCR d; bMCR d; bLSR d; bMSR d; abReceive d ].

(** Modelled from the spec: the State container (state.js) is not part of
    this file; the snapshot it carries is the ordered register sequence, kept
    here at index 0, where restore reads it back. *)
Definition save (d : SerialPort) : list (list jsval) := [ saveRegisters d ].

(** restore(data): initState(data[0]); a missing data[0] is [undefined]. *)
Definition restore (data : list (list jsval)) : M bool := initState (nth_error data 0).

(** powerUp(data, fRepower) *)
Definition powerUp (w : World) (data : option (list (list jsval))) (fRepower : bool)
  : M bool :=
  if negb fRepower then
    d <- get ;;
    initConnection w (fNullModem d) ;;
    match data with
    | None => reset ;; ret true
    | Some data =>
        ok <- restore data ;;
        if negb ok then ret false else ret true
    end
  else ret true.

(** powerDown(fSave, fShutdown): the saved state, if any was asked for. *)
Definition powerDown (fSave : bool) (d : SerialPort) : option (list (list jsval)) :=
  if fSave then Some (save d) else None.

(** updateIRR() *)
Definition updateIRR : M unit :=
  d <- get ;;
  let code :=
    if truthy (bLSR d .& LSR_DR) && truthy (bIER d .& IER_RBR_AVAIL) then IIR_INT_RBR
    else if truthy (bMSR d .& (MSR_DCTS .| MSR_DDSR)) && truthy (bIER d .& IER_MSR_DELTA)
         then IIR_INT_MSR
    else -1 in
  if code >=? 0 then
    modify (fun d => set_bIIR (bIIR d .& .~ (IIR_NO_INT .| IIR_INT_BITS)) d) ;;
    modify (fun d => set_bIIR (bIIR d .| code) d) ;;
    when (chipset d && truthy (nIRQ d)) (emit (EvSetIRR (nIRQ d) 100))
  else
    modify (fun d => set_bIIR (bIIR d .| IIR_NO_INT) d) ;;
    when (chipset d && truthy (nIRQ d)) (emit (EvClearIRR (nIRQ d))).

(** this.abReceive.length > 0 *)
Definition abReceive_nonempty : M bool :=
  d <- get ;;
  match abReceive d with
  | JUndef => throw
  | JNum _ => ret false
  | JArr q => ret (Z.of_nat (List.length q) >? 0)
  end.

(** this.bRBR = this.abReceive.shift() *)
Definition shift_into_RBR : M unit :=
  d <- get ;;
  match abReceive d with
  | JArr (b :: rest) => modify (set_bRBR (JNum b)) ;; modify (set_abReceive (JArr rest))
  | JArr [] => modify (set_bRBR JUndef)
  | _ => throw
  end.

(** advanceRBR() *)
Definition advanceRBR : M unit :=
  nonempty <- abReceive_nonempty ;;
  d <- get ;;
  when (nonempty && negb (truthy (bLSR d .& LSR_DR)))
    (shift_into_RBR ;;
     modify (fun d => set_bLSR (bLSR d .| LSR_DR) d)) ;;
  updateIRR.

(** this.abReceive.push(n) *)
Definition push (n : Z) : M unit :=
  d <- get ;;
  match abReceive d with
  | JArr q => modify (set_abReceive (JArr (q ++ [n])))
  | _ => throw
  end.

Fixpoint push_all (s : list Z) : M unit :=
  match s with
  | [] => ret tt
  | c :: rest => push c ;; push_all rest
  end.

(** receiveData(data) *)
Definition receiveData (data : rxdata) : M bool :=
  match data with
  | RxNumber n => push n
  | RxString s => push_all s
  | RxArray l =>
      d <- get ;;
      match abReceive d with
      | JArr q => modify (set_abReceive (JArr (q ++ l)))
      | _ => throw
      end
  end ;;
  advanceRBR ;;
  ret true.

(** receiveStatus(pins) *)
Definition receiveStatus (pins : Z) : M unit :=
  d <- get ;;
  let bMSROld := bMSR d in
  let m0 := bMSROld .& .~ (MSR_CTS .| MSR_DSR) in
  let m1 := if truthy (pins .& RS232_CTS_MASK X) then m0 .| (MSR_CTS .| MSR_DCTS) else m0 in
  let m2 := if truthy (pins .& RS232_DSR_MASK X) then m1 .| (MSR_DSR .| MSR_DDSR) else m1 in
  modify (set_bMSR m2) ;;
  when (loose_neq bMSROld m2) updateIRR.

(** inRBR(port, addrFrom) *)
Definition inRBR : M jsval :=
  d <- get ;;
  let b := if truthy (bLCR d .& LCR_DLAB) then JNum (wDL d .& 0xff) else bRBR d in
  modify (fun d => set_bLSR (bLSR d .& .~ LSR_DR) d) ;;
  advanceRBR ;;
  ret b.

(** inIER(port, addrFrom) *)
Definition inIER : M jsval :=
  d <- get ;;
  ret (if truthy (bLCR d .& LCR_DLAB) then JNum (sar (wDL d) 8) else bIER d).

Definition inIIR : M jsval := d <- get ;; ret (bIIR d).
Definition inLCR : M jsval := d <- get ;; ret (bLCR d).
Definition inMCR : M jsval := d <- get ;; ret (bMCR d).
Definition inLSR : M jsval := d <- get ;; ret (bLSR d).

(** inMSR(port, addrFrom) *)
Definition inMSR : M jsval :=
  d <- get ;;
  let b := bMSR d in
  modify (set_bMSR (bMSR d .& .~ (MSR_DCTS .| MSR_DDSR))) ;;
  ret b.

(** transmitByte(b); sendData.call(this.connection, b) is the event
    [EvSendData] and the callee's answer [fn_result]. *)
Definition transmitByte (b : Z) : M bool :=
  d <- get ;;
  fSent <- match sendData d with
           | Some fn => emit (EvSendData fn (connection d) b) ;; ret (fn_result fn b)
           | None => ret false
           end ;;
  match controlIOBuffer d with
  | Some value =>
      (if b =? 0x0D then modify (set_iLogicalCol 0)
       else if b =? 0x08 then
         modify (set_controlIOBuffer (Some (slice_0_m1 value))) ;;
         when (iLogicalCol d >? 0) (modify (set_iLogicalCol (iLogicalCol d - 1)))
       else
         let s := toASCIICode X b in
         let nChars := Z.of_nat (List.length s) in
         let nChars := if (b <? 0x20) && (nChars =? 1) then 0 else nChars in
         let tab := match tabSize d with
                    | Some 0 => 8
                    | Some t => t
                    | None => 8
                    end in
         let nChars := if b =? 0x09 then tab - Z.rem (iLogicalCol d) tab else nChars in
         let s := if b =? 0x09
                  then match tabSize d with
                       | Some 0 => s
                       | Some _ => pad X [] nChars
                       | None => s
                       end
                  else s in
         let s := match charBOL d with
                  | Some 0 => s
                  | Some c => if (iLogicalCol d =? 0) && truthy nChars
                              then fromCharCode c ++ s else s
                  | None => s
                  end in
         modify (set_controlIOBuffer (Some (value ++ s))) ;;
         modify (set_iLogicalCol (iLogicalCol d + nChars))) ;;
      ret true
  | None =>
      match consoleOutput d with
      | Some out =>
          let flush := (b =? 0x0A) || (Z.of_nat (List.length out) >=? 1024) in
          when flush (emit (EvPrintln out)) ;;
          let out := if flush then [] else out in
          modify (set_consoleOutput
                    (Some (if negb (b =? 0x0A) then out ++ fromCharCode b else out))) ;;
          ret true
      | None => ret fSent
      end
  end.

(** outTHR(port, bOut, addrFrom) *)
Definition outTHR (bOut : Z) : M unit :=
  d <- get ;;
  if truthy (bLCR d .& LCR_DLAB) then
    modify (set_wDL ((wDL d .& .~ 0xff) .| bOut))
  else
    modify (set_bTHR bOut) ;;
    modify (set_bLSR (bLSR d .& .~ (LSR_THRE .| LSR_TSRE))) ;;
    ok <- transmitByte bOut ;;
    when ok (modify (fun d => set_bLSR (bLSR d .| (LSR_THRE .| LSR_TSRE)) d)).

(** outIER(port, bOut, addrFrom) *)
Definition outIER (bOut : Z) : M unit :=
  d <- get ;;
  if truthy (bLCR d .& LCR_DLAB) then
    modify (set_wDL ((wDL d .& 0xff) .| shl bOut 8))
  else
    modify (set_bIER bOut).

(** outLCR(port, bOut, addrFrom) *)
Definition outLCR (bOut : Z) : M unit := modify (set_bLCR bOut).

(** outMCR(port, bOut, addrFrom); updateStatus.call(this.connection, pins)
    is the event [EvUpdateStatus]. *)
Definition outMCR (bOut : Z) : M unit :=
  d <- get ;;
  let delta := bOut .^ bMCR d in
  modify (set_bMCR bOut) ;;
  when (truthy (delta .& (MCR_DTR .| MCR_RTS)))
    match updateStatus d with
    | Some fn =>
        let pins := 0 in
        let pins :=
          if fNullModem d then
            let pins := pins .| (if truthy (bOut .& MCR_RTS) then RS232_CTS_MASK X else 0) in
            pins .| (if truthy (bOut .& MCR_DTR)
                     then RS232_DSR_MASK X .| RS232_CD_MASK X else 0)
          else
            let pins := pins .| (if truthy (bOut .& MCR_RTS) then RS232_RTS_MASK X else 0) in
            pins .| (if truthy (bOut .& MCR_DTR) then RS232_DTR_MASK X else 0) in
        emit (EvUpdateStatus fn (connection d) pins)
    | None => ret tt
    end.

(** SerialPort.aPortInput and SerialPort.aPortOutput, keyed by port offset *)
Definition aPortInput (off : Z) : option (M jsval) :=
  match off with
  | 0 => Some inRBR
  | 1 => Some inIER
  | 2 => Some inIIR
  | 3 => Some inLCR
  | 4 => Some inMCR
  | 5 => Some inLSR
  | 6 => Some inMSR
  | _ => None
  end.

Definition aPortOutput (off : Z) : option (Z -> M unit) :=
  match off with
  | 0 => Some outTHR
  | 1 => Some outIER
  | 3 => Some outLCR
  | 4 => Some outMCR
  | _ => None
  end.

(** The bus: a read or write of [portBase + off]; a port without a handler is
    not this component's. *)
Definition portIn (off : Z) : M unit :=
  match aPortInput off with
  | Some h => h ;; ret tt
  | None => ret tt
  end.

Definition portOut (off bOut : Z) : M unit :=
  match aPortOutput off with
  | Some h => h bOut
  | None => ret tt
  end.

(** One step of the component's life after power-up: what the bus, a peer,
    the bound control or the machine can ask of it. *)
Inductive op : Type :=
| OpIn (off : Z)
| OpOut (off bOut : Z)
| OpReceiveData (data : rxdata)
| OpReceiveStatus (pins : Z)
| OpInitConnection (w : World) (fNull : bool)
| OpAttachMouse (id : string) (mouse : Component) (fnUpdate : fnref)
| OpSetBinding (sBinding : string) (control : jstring)
| OpInitBus (chip : bool)
| OpPowerUp (w : World) (fRepower : bool)   (* no snapshot at hand *)
| OpReset.

Definition exec (o : op) : M unit :=
  match o with
  | OpIn off => portIn off
  | OpOut off bOut => portOut off bOut
  | OpReceiveData data => receiveData data ;; ret tt
  | OpReceiveStatus pins => receiveStatus pins
  | OpInitConnection w fNull => initConnection w fNull
  | OpAttachMouse id mouse fnUpdate => attachMouse id mouse fnUpdate ;; ret tt
  | OpSetBinding sBinding control => setBinding sBinding control ;; ret tt
  | OpInitBus chip => initBus chip
  | OpPowerUp w fRepower => powerUp w None fRepower ;; ret tt
  | OpReset => reset
  end.

(** A run of writes to one port offset, and a run of (offset, value) writes. *)
Fixpoint write_all (off : Z) (ws : list Z) : M unit :=
  match ws with
  | [] => ret tt
  | b :: rest => portOut off b ;; write_all off rest
  end.

Fixpoint port_writes (ws : list (Z * Z)) : M unit :=
  match ws with
  | [] => ret tt
  | (off, b) :: rest => portOut off b ;; port_writes rest
  end.

(** A run of deliveries to receiveData. *)
Fixpoint receive_all (ds : list rxdata) : M unit :=
  match ds with
  | [] => ret tt
  | data :: rest => receiveData data ;; receive_all rest
  end.

(** States the component can be in after a power-up that found no snapshot. *)
Inductive reachable : SerialPort -> Prop :=
| reach_powerUp (p : Parms) (d0 d : SerialPort) (w : World) (evs : list event) :
    SerialPort_new p = Some d0 ->
    powerUp w None false d0 = Ok true d evs ->
    reachable d
| reach_step (o : op) (d d' : SerialPort) (evs : list event) :
    reachable d ->
    exec o d = Ok tt d' evs ->
    reachable d'.

End Model.


(** ** Vocabulary of the statements below *)

(** The bytes a delivery appends to the receive queue. *)
Definition rx_bytes (data : rxdata) : list Z :=
  match data with
  | RxNumber n => [n]
  | RxString s => s
  | RxArray l => l
  end.

(** What advanceRBR does to the holding register, before it re-arbitrates. *)
Definition staged (d : SerialPort) : SerialPort :=
  match abReceive d with
  | JArr (b :: rest) =>
      if bit (bLSR d) 0 then d
      else set_bLSR (JNum (bLSR d .| LSR_DR)) (set_abReceive (JArr rest) (set_bRBR (JNum b) d))
  | _ => d
  end.

(** The receive queue is an array. *)
Definition has_queue (d : SerialPort) : Prop := exists q, abReceive d = JArr q.

(** The two conditions updateIRR tests, read off the register bits. *)
Definition rbr_pending (d : SerialPort) : bool :=
  bit (bLSR d) 0 && bit (bIER d) 0.

Definition msr_pending (d : SerialPort) : bool :=
  (bit (bMSR d) 0 || bit (bMSR d) 1) && bit (bIER d) 3.

(** The pin masks are small non-negative constants. *)
Definition masks_ok (X : Externs) : Prop :=
  0 <= RS232_RTS_MASK X < 2 ^ 31 /\ 0 <= RS232_CTS_MASK X < 2 ^ 31 /\
  0 <= RS232_DSR_MASK X < 2 ^ 31 /\ 0 <= RS232_CD_MASK X < 2 ^ 31 /\
  0 <= RS232_DTR_MASK X < 2 ^ 31.

(** The connection rules in their own words: in null-modem mode local RTS
    shows as the peer's CTS and local DTR as the peer's DSR with CD; otherwise
    RTS and DTR go through unchanged.  A write tells the peer only when DTR or
    RTS differs from the previous MCR value. *)
Definition crossover_pins (X : Externs) (mcr : Z) : Z :=
  Z.lor (if Z.testbit mcr 1 then RS232_CTS_MASK X else 0)
        (if Z.testbit mcr 0 then Z.lor (RS232_DSR_MASK X) (RS232_CD_MASK X) else 0).

Definition straight_pins (X : Externs) (mcr : Z) : Z :=
  Z.lor (if Z.testbit mcr 1 then RS232_RTS_MASK X else 0)
        (if Z.testbit mcr 0 then RS232_DTR_MASK X else 0).

Definition lines_changed (old : jsval) (new : Z) : bool :=
  xorb (Z.testbit new 0) (bit old 0) || xorb (Z.testbit new 1) (bit old 1).

Fixpoint peer_observes (X : Externs) (nullModem : bool) (old : jsval) (ws : list Z)
  : list Z :=
  match ws with
  | [] => []
  | b :: rest =>
      (if lines_changed old b
       then [if nullModem then crossover_pins X b else straight_pins X b]
       else [])
      ++ peer_observes X nullModem (JNum b) rest
  end.

(** The steps that hand the MSR to software or reinitialise every register. *)
Definition is_msr_read (o : op) : bool :=
  match o with
  | OpIn 6 => true
  | _ => false
  end.

Definition reinitialises (o : op) : bool :=
  match o with
  | OpReset => true
  | OpPowerUp _ fRepower => negb fRepower
  | _ => false
  end.

(** A computation that leaves the property [f] of the state as it found it. *)
Definition keeps {A T : Type} (f : SerialPort -> T) (m : M A) : Prop :=
  forall d a d' evs, m d = Ok a d' evs -> f d' = f d.

(** The cells only the status and queue paths write: the modem status
    register, the value a reset gives it, and the receive queue. *)
Definition fixed_cells (d : SerialPort) : jsval * Z * jsval :=
  (bMSR d, bMSRInit d, abReceive d).

Definition msr_cells (d : SerialPort) : jsval * Z := (bMSR d, bMSRInit d).

Definition msr_invariant (d : SerialPort) : Prop :=
  bMSRInit d = MSR_CTS .| MSR_DSR /\
  bit (bMSR d) 2 = false /\ bit (bMSR d) 3 = false.
(** ** Sample surroundings, for closed examples

    Values for the parameters: the pin masks and IRQ numbers PCjs uses, a
    [toASCIICode] that brackets the mnemonic of a control code other than CR
    and LF, a [pad] that fills from a 40-space reserve, a [trim] of blanks. *)

Definition sample_toASCIICode (b : Z) : jstring :=
  if b =? 0x09 then [0x3C; 0x48; 0x54; 0x3E]          (* "<HT>" *)
  else if b =? 0x07 then [0x3C; 0x42; 0x45; 0x4C; 0x3E]  (* "<BEL>" *)
  else fromCharCode b.

Definition sample_pad (s : jstring) (cch : Z) : jstring :=
  firstn (Z.to_nat cch) (s ++ repeat 0x20 40).

Fixpoint trim_left (s : string) : string :=
  match s with
  | String " " rest => trim_left rest
  | _ => s
  end.

Fixpoint trim_right (s : string) : string :=
  match s with
  | EmptyString => EmptyString
  | String c rest =>
      match trim_right rest with
      | EmptyString => if Ascii.eqb c " " then EmptyString else String c EmptyString
      | r => String c r
      end
  end.

Definition sample_externs : Externs :=
  mkExterns 0x10 0x20 0x40 0x100 0x100000 4 3
            sample_toASCIICode sample_pad (fun s => trim_right (trim_left s)).

Definition sample_parms : Parms :=
  mkParms "com1" "ibm5150" 1 None None None.

Definition sample_world : World := mkWorld None (fun _ => None).

(** A COM1 adapter as constructed, and just after a power-up without
    snapshot with the chipset attached. *)
Definition sample_new : SerialPort := constructed sample_parms 0x3F8 4.

Definition sample_powered : SerialPort :=
  state_of (powerUp sample_externs sample_world None false sample_new) sample_new.

Definition sample_port : SerialPort := state_of (initBus true sample_powered) sample_powered.

Definition sample_peer_fn (name : string) : fnref := mkFn name (fun _ => true).

Definition sample_peer : Component :=
  mkComponent "pdp11.dl11"
    (Some (mkExports (Some (sample_peer_fn "connect"))
                     (Some (sample_peer_fn "receiveData"))
                     (Some (sample_peer_fn "receiveStatus")))).

(** A world whose connection parameter wires com1 to the sample peer. *)
Definition sample_wired_world : World :=
  mkWorld (Some "com1->pdp11.dl11"%string)
          (fun id => if String.eqb id "pdp11.dl11" then Some sample_peer else None).

(** The sample port after a power-up in the wired world. *)
Definition sample_wired_port : SerialPort :=
  state_of (initConnection sample_externs sample_wired_world true sample_port) sample_port.


(** A port of a machine without chipset, receive interrupts enabled, one
    byte staged. *)
Definition detached_ready_port : SerialPort :=
  state_of ((portOut sample_externs 1 IER_RBR_AVAIL ;; receiveData (RxNumber 0x10))
              sample_powered)
           sample_powered.

(** The sample port with one byte staged and nothing queued. *)
Definition ready_port : SerialPort :=
  state_of (receiveData (RxNumber 0x10) sample_port) sample_port.

(** A restored port whose MSR carries TERI, with modem-status interrupts enabled. *)
Definition teri_port : SerialPort :=
  state_of (restore [[JNum 0; JNum 0; JNum 0x180; JNum IER_MSR_DELTA; JNum 1; JNum 0;
                      JNum 0; JNum 0x60; JNum (0x30 + MSR_TERI); JArr []]] sample_port)
           sample_port.

(** A restored port whose MSR has all four delta bits set. *)
Definition all_deltas_port : SerialPort :=
  state_of (restore [[JNum 0; JNum 0; JNum 0x180; JNum 0; JNum 1; JNum 0;
                      JNum 0; JNum 0x60; JNum 0x3F; JArr []]] sample_port)
           sample_port.

(** An echo surface with an empty control, no tab width, and '>' as the
    beginning-of-line character. *)
Definition bol_echo_port : SerialPort :=
  state_of ((powerUp sample_externs sample_world None false ;; setBinding sIOBuffer [])
              (constructed (mkParms "com1" "ibm5150" 1 None None (Some 0x3E)) 0x3F8 4))
           sample_new.

(** An echo surface with no tab width and no beginning-of-line character. *)
Definition plain_echo_port : SerialPort :=
  state_of (setBinding sIOBuffer [] sample_port) sample_port.

(** An echo surface with a tab width of 8 after "ABC" was sent to it. *)
Definition tab8_echo_port : SerialPort :=
  state_of ((powerUp sample_externs sample_world None false ;;
             setBinding sIOBuffer [] ;;
             transmitByte sample_externs 0x41 ;;
             transmitByte sample_externs 0x42 ;;
             transmitByte sample_externs 0x43)
              (constructed (mkParms "com1" "ibm5150" 1 None (Some 8) None) 0x3F8 4))
           sample_new.

(** A console-bound port (line-buffered log) and one with receive interrupts
    enabled. *)
Definition console_port : SerialPort :=
  state_of ((powerUp sample_externs sample_world None false)
              (constructed (mkParms "com1" "ibm5150" 1 (Some "console"%string) None None)
                           0x3F8 4))
           sample_new.

Definition rx_irq_port : SerialPort :=
  state_of (portOut sample_externs 1 IER_RBR_AVAIL sample_port) sample_port.

(** The sample port after its peer raised CTS and DSR, and after software
    then read the MSR. *)
Definition status_port : SerialPort :=
  state_of (receiveStatus sample_externs 0x60 sample_port) sample_port.

Definition busy_port : SerialPort := state_of (portIn 6 status_port) status_port.

(** ** Further vocabulary *)

(** ** More vocabulary: the receive path as software sees it *)

(** Software reading offset 0 [n] times in a row; the values read, in order. *)
Fixpoint read_RBR (n : nat) : M (list jsval) :=
  match n with
  | O => ret []
  | S k => b <- inRBR ;; bs <- read_RBR k ;; ret (b :: bs)
  end.

(** The bytes waiting for software are [P]: the staged byte, when DR is set,
    followed by the queue; with DR clear nothing is staged and nothing queued. *)
Definition pending (d : SerialPort) (P : list Z) : Prop :=
  exists q, abReceive d = JArr q /\
    ((bit (bLSR d) 0 = true /\ exists b, bRBR d = JNum b /\ P = b :: q) \/
     (bit (bLSR d) 0 = false /\ q = [] /\ P = [])).

(** What updateIRR tells the interrupt controller. *)
Definition irq_call (d : SerialPort) : list event :=
  if chipset d && truthy (nIRQ d)
  then [if rbr_pending d || msr_pending d
        then EvSetIRR (nIRQ d) 100 else EvClearIRR (nIRQ d)]
  else [].

(** The sample port with 0x10 staged, 0x20 queued and DLAB set. *)
Definition dlab_ready_port : SerialPort :=
  state_of ((receiveData (RxArray [0x10; 0x20]) ;; portOut sample_externs 3 0x80) sample_port)
           sample_port.

(** ** More vocabulary: register values after a power-up *)

(** The values IIR takes: a pending code (4 receive, 0 modem status) or the
    same with the no-interrupt bit on top. *)
Definition iir_ok (v : jsval) : Prop :=
  v = JNum 0 \/ v = JNum 1 \/ v = JNum 4 \/ v = JNum 5.

(** The values LSR takes: DR alone or with THRE and TSRE together. *)
Definition lsr_ok (v : jsval) : Prop :=
  v = JNum 0x00 \/ v = JNum 0x01 \/ v = JNum 0x60 \/ v = JNum 0x61.

Definition tidy (d : SerialPort) : Prop := iir_ok (bIIR d) /\ lsr_ok (bLSR d).

Definition irq_cells (d : SerialPort) : jsval * jsval := (bIIR d, bLSR d).

(** The rx_irq_port after one byte came in, and after it was read again. *)
Definition filled_port : SerialPort :=
  state_of (receiveData (RxNumber 0x41) rx_irq_port) rx_irq_port.

Definition drained_port : SerialPort := state_of (portIn 0 filled_port) filled_port.

(** Calls to the interrupt controller among the events. *)
Definition is_irq_call (e : event) : bool :=
  match e with
  | EvSetIRR _ _ | EvClearIRR _ => true
  | _ => false
  end.

(** A computation whose events all satisfy [P]. *)
Definition emits_only {A : Type} (P : event -> bool) (m : M A) : Prop :=
  forall d a d' evs, m d = Ok a d' evs -> forallb P evs = true.

(** ** More vocabulary: the transmit sinks *)

(** A run of bytes handed to transmitByte one after the other. *)
Fixpoint transmit_all (X : Externs) (bs : list Z) : M unit :=
  match bs with
  | [] => ret tt
  | b :: rest => transmitByte X b ;; transmit_all X rest
  end.

(** The lines given to println, in order. *)
Fixpoint printed (evs : list event) : list jstring :=
  match evs with
  | [] => []
  | EvPrintln s :: rest => s :: printed rest
  | _ :: rest => printed rest
  end.

(** The tab width transmitByte works with: this.tabSize || 8. *)
Definition tab_width (d : SerialPort) : Z :=
  match tabSize d with
  | Some 0 => 8
  | Some t => t
  | None => 8
  end.

(** The configuration transmitByte reads and never writes. *)
Definition echo_config (d : SerialPort) : option Z * option Z := (tabSize d, charBOL d).

(** What the bus and a peer do to a running port: port reads and writes,
    data and status deliveries. *)
Definition is_traffic (o : op) : bool :=
  match o with
  | OpIn _ | OpOut _ _ | OpReceiveData _ | OpReceiveStatus _ => true
  | _ => false
  end.

(** A run of steps. *)
Fixpoint exec_all (X : Externs) (os : list op) : M unit :=
  match os with
  | [] => ret tt
  | o :: rest => exec X o ;; exec_all X rest
  end.

(** The three places a transmitted byte can go. *)
Definition sink_cells (d : SerialPort)
  : option fnref * option jstring * option jstring :=
  (sendData d, controlIOBuffer d, consoleOutput d).

Definition no_sink (d : SerialPort) : Prop := sink_cells d = (None, None, None).

(** THRE and TSRE, the two "transmitter empty" bits of the LSR. *)
Definition ready_bits (d : SerialPort) : bool * bool := (bit (bLSR d) 5, bit (bLSR d) 6).

Definition stalled (d : SerialPort) : Prop := ready_bits d = (false, false).

(** The peer and the two functions it exported (or, for a mouse, the update
    function it passed). *)
Definition link_cells (d : SerialPort)
  : option Component * option fnref * option fnref :=
  (connection d, sendData d, updateStatus d).

(** A port holds a function of its peer only while it holds the peer. *)
Definition linked (d : SerialPort) : Prop :=
  connection d = None -> sendData d = None /\ updateStatus d = None.

(** The [this] of every call made to a peer function, in call order. *)
Fixpoint peer_calls (evs : list event) : list (option Component) :=
  match evs with
  | [] => []
  | EvSendData _ p _ :: rest => p :: peer_calls rest
  | EvUpdateStatus _ p _ :: rest => p :: peer_calls rest
  | _ :: rest => peer_calls rest
  end.

Definition is_peer_call (e : event) : bool :=
  match e with
  | EvSendData _ _ _ | EvUpdateStatus _ _ _ => true
  | _ => false
  end.

(** The steps that can change the connection. *)
Definition rewires (o : op) : bool :=
  match o with
  | OpInitConnection _ _ | OpAttachMouse _ _ _ => true
  | OpPowerUp _ fRepower => negb fRepower
  | _ => false
  end.

(** A peer that is registered but exports nothing yet. *)
Definition sample_laggard : Component := mkComponent "pdp11.dl11" None.

Definition sample_laggard_world : World :=
  mkWorld (Some "com1->pdp11.dl11"%string)
          (fun id => if String.eqb id "pdp11.dl11" then Some sample_laggard else None).

Definition sample_mouse : Component := mkComponent "mouse" None.

(** * Properties *)

(** ** Checks of the model on small inputs *)

Example split_arrow_two : split_arrow "com1->pdp11.dl11" = ["com1"; "pdp11.dl11"]%string.
Proof. reflexivity. Qed.

Example split_arrow_none : split_arrow "com1" = ["com1"]%string.
Proof. reflexivity. Qed.

Example split_arrow_three : split_arrow "a->b->c" = ["a"; "b"; "c"]%string.
Proof. reflexivity. Qed.

Example toInt32_wraps : toInt32 (2 ^ 31) = - 2 ^ 31 /\ toInt32 (2 ^ 32 + 5) = 5.
Proof. split; reflexivity. Qed.

Example sample_new_constructed : SerialPort_new sample_externs sample_parms = Some sample_new.
Proof. reflexivity. Qed.

Example sample_port_registers :
  saveRegisters sample_port =
  [JNum 0; JNum 0; JNum 0x180; JNum 0; JNum 1; JNum 0; JNum 0; JNum 0x60; JNum 0x30; JArr []].
Proof. reflexivity. Qed.

Example sample_wired_connected :
  connection sample_wired_port = Some sample_peer /\
  updateStatus sample_wired_port = Some (sample_peer_fn "receiveStatus") /\
  fNullModem sample_wired_port = true.
Proof. repeat split. Qed.

(** 0x41 to a console-bound port is buffered; 0x42 and a linefeed flush "AB". *)
Example console_line_buffering :
  let after_A := state_of (portOut sample_externs 0 0x41 console_port) console_port in
  consoleOutput after_A = Some [0x41] /\
  events_of (portOut sample_externs 0 0x41 console_port) = [] /\
  events_of ((portOut sample_externs 0 0x42 ;; portOut sample_externs 0 0x0A) after_A)
    = [EvPrintln [0x41; 0x42]] /\
  consoleOutput
    (state_of ((portOut sample_externs 0 0x42 ;; portOut sample_externs 0 0x0A) after_A)
              after_A) = Some [].
Proof. repeat split. Qed.

(** Two bytes pushed with receive interrupts enabled: the first is staged and
    the IRQ raised; reading it stages the second. *)
Example receive_two_bytes :
  let pushed := receiveData (RxArray [0x10; 0x20]) rx_irq_port in
  let d1 := state_of pushed rx_irq_port in
  events_of pushed = [EvSetIRR 4 100] /\
  saveRegisters d1 =
    [JNum 0x10; JNum 0; JNum 0x180; JNum 1; JNum 4; JNum 0; JNum 0; JNum 0x61; JNum 0x30;
     JArr [0x20]] /\
  inRBR d1 =
    Ok (JNum 0x10)
       (set_abReceive (JArr []) (set_bRBR (JNum 0x20) d1))
       [EvSetIRR 4 100].
Proof. repeat split. Qed.

(** With DLAB set the divisor latch is written through offsets 0 and 1; with
    DLAB clear again offset 0 reads rbr. *)
Example divisor_latch_aliasing :
  let prog := port_writes sample_externs [(3, 0x80); (0, 0x60); (1, 0x00); (3, 0x00); (0, 0x58)] in
  let d := state_of (prog sample_port) sample_port in
  wDL d = JNum 0x60 /\ bTHR d = JNum 0x58 /\ result_of (inRBR d) = Some (bRBR d).
Proof. repeat split. Qed.

(** A tab sent to an echo surface without tab width shows as toASCIICode has it. *)
Example tab_without_width :
  controlIOBuffer (state_of (transmitByte sample_externs 9 plain_echo_port) plain_echo_port)
    = Some [0x3C; 0x48; 0x54; 0x3E] /\
  iLogicalCol (state_of (transmitByte sample_externs 9 plain_echo_port) plain_echo_port) = 8.
Proof. split; reflexivity. Qed.

Arguments bit : simpl never.
Arguments band : simpl never.
Arguments bor : simpl never.
Arguments bxor : simpl never.
Arguments bnot : simpl never.
Arguments shl : simpl never.
Arguments sar : simpl never.
Arguments truthy : simpl never.
Arguments int32 : simpl never.
Arguments toInt32 : simpl never.
Arguments loose_neq : simpl never.
Arguments staged : simpl never.
Arguments Z.testbit : simpl never.

(** Run the monad's plumbing in the goal. *)
Ltac run_m := unfold bind, get, modify, emit, ret, when, throw; cbn.

(** ** The 32-bit operators, bit by bit *)

Lemma toInt32_testbit (z i : Z) : 0 <= i < 32 -> Z.testbit (toInt32 z) i = Z.testbit z i.
Proof.
  intros Hi. unfold toInt32.
  rewrite <- (Z.mod_pow2_bits_low ((z + 2 ^ 31) mod 2 ^ 32 - 2 ^ 31) 32 i) by lia.
  rewrite <- (Z.mod_pow2_bits_low z 32 i) by lia.
  f_equal. rewrite Zminus_mod_idemp_l. f_equal. lia.
Qed.

Lemma toInt32_range (z : Z) : - 2 ^ 31 <= toInt32 z < 2 ^ 31.
Proof. unfold toInt32. pose proof (Z.mod_pos_bound (z + 2 ^ 31) (2 ^ 32)). lia. Qed.

Lemma toInt32_small (z : Z) : - 2 ^ 31 <= z < 2 ^ 31 -> toInt32 z = z.
Proof. intros H. unfold toInt32. rewrite Z.mod_small; lia. Qed.

Lemma bit_JNum (z i : Z) : 0 <= i < 32 -> bit (JNum z) i = Z.testbit z i.
Proof. intros Hi. unfold bit, int32; simpl. now apply toInt32_testbit. Qed.

Lemma testbit_band (a b : jsval) (i : Z) : Z.testbit (a .& b) i = bit a i && bit b i.
Proof. unfold band, bit. apply Z.land_spec. Qed.

Lemma testbit_bor (a b : jsval) (i : Z) : Z.testbit (a .| b) i = bit a i || bit b i.
Proof. unfold bor, bit. apply Z.lor_spec. Qed.

Lemma testbit_bxor (a b : jsval) (i : Z) : Z.testbit (a .^ b) i = xorb (bit a i) (bit b i).
Proof. unfold bxor, bit. apply Z.lxor_spec. Qed.

Lemma testbit_bnot (a : jsval) (i : Z) : 0 <= i -> Z.testbit (.~ a) i = negb (bit a i).
Proof. intros Hi. unfold bnot, bit. now apply Z.lnot_spec. Qed.

Lemma bit_band (a b : jsval) (i : Z) :
  0 <= i < 32 -> bit (JNum (a .& b)) i = bit a i && bit b i.
Proof. intros Hi. rewrite bit_JNum by lia. apply testbit_band. Qed.

Lemma bit_bor (a b : jsval) (i : Z) :
  0 <= i < 32 -> bit (JNum (a .| b)) i = bit a i || bit b i.
Proof. intros Hi. rewrite bit_JNum by lia. apply testbit_bor. Qed.

Lemma bit_bxor (a b : jsval) (i : Z) :
  0 <= i < 32 -> bit (JNum (a .^ b)) i = xorb (bit a i) (bit b i).
Proof. intros Hi. rewrite bit_JNum by lia. apply testbit_bxor. Qed.

Lemma bit_bnot (a : jsval) (i : Z) :
  0 <= i < 32 -> bit (JNum (.~ a)) i = negb (bit a i).
Proof. intros Hi. rewrite bit_JNum by lia. apply testbit_bnot. lia. Qed.

(** Evaluate [bit] on closed constants. *)
Ltac bit_consts :=
  repeat match goal with
  | |- context [bit (JNum ?c) ?i] =>
      let v := eval vm_compute in (bit (JNum c) i) in
      match v with
      | true => change (bit (JNum c) i) with true
      | false => change (bit (JNum c) i) with false
      end
  end.

(** Push [bit] through the operators at a concrete position below 32. *)
Ltac bits :=
  repeat first
    [ rewrite bit_band by lia | rewrite bit_bor by lia
    | rewrite bit_bxor by lia | rewrite bit_bnot by lia ];
  bit_consts;
  repeat first
    [ rewrite andb_true_r | rewrite andb_false_r | rewrite orb_true_r
    | rewrite orb_false_r | rewrite andb_true_l | rewrite andb_false_l
    | rewrite orb_true_l | rewrite orb_false_l ].

Lemma land_pow2 (x k : Z) :
  0 <= k -> Z.land x (2 ^ k) = if Z.testbit x k then 2 ^ k else 0.
Proof.
  intros Hk. apply Z.bits_inj'. intros n Hn.
  rewrite Z.land_spec, Z.pow2_bits_eqb by lia.
  destruct (Z.eqb_spec k n) as [->|Hne].
  - destruct (Z.testbit x n); simpl.
    + now rewrite Z.pow2_bits_true.
    + now rewrite Z.bits_0.
  - rewrite andb_false_r. destruct (Z.testbit x k).
    + symmetry. apply Z.pow2_bits_false. lia.
    + now rewrite Z.bits_0.
Qed.

Lemma truthy_land_pow2 (x k : Z) : 0 <= k -> truthy (Z.land x (2 ^ k)) = Z.testbit x k.
Proof.
  intros Hk. rewrite land_pow2 by lia. unfold truthy.
  destruct (Z.testbit x k); [|reflexivity].
  assert (0 < 2 ^ k) by (apply Z.pow_pos_nonneg; lia).
  destruct (Z.eqb_spec (2 ^ k) 0); [lia|reflexivity].
Qed.

(** [v & mask] for a one-bit mask tests that bit of [v]. *)
Lemma truthy_band_bit (v : jsval) (k : Z) :
  0 <= k < 31 -> truthy (v .& JNum (2 ^ k)) = bit v k.
Proof.
  intros Hk. unfold band, bit.
  assert (E : int32 (JNum (2 ^ k)) = 2 ^ k).
  { unfold int32; simpl. apply toInt32_small. split.
    - pose proof (Z.pow_pos_nonneg 2 k). lia.
    - apply Z.pow_lt_mono_r; lia. }
  rewrite E. apply truthy_land_pow2. lia.
Qed.

Lemma truthy_land_3 (x : Z) : truthy (Z.land x 3) = Z.testbit x 0 || Z.testbit x 1.
Proof.
  assert (E : Z.land x 3 = Z.b2z (Z.testbit x 0) + 2 * Z.b2z (Z.testbit x 1)).
  { apply Z.bits_inj'. intros n Hn. rewrite Z.land_spec.
    destruct (Z.eq_dec n 0) as [->|H0].
    - destruct (Z.testbit x 0), (Z.testbit x 1); reflexivity.
    - destruct (Z.eq_dec n 1) as [->|H1].
      + destruct (Z.testbit x 0), (Z.testbit x 1); reflexivity.
      + assert (H3 : Z.testbit 3 n = false).
        { change 3 with (Z.ones 2). apply Z.ones_spec_high. lia. }
        rewrite H3, andb_false_r.
        assert (Hs : forall c, 0 <= c < 4 -> Z.testbit c n = false).
        { intros c Hc. destruct (Z.eq_dec c 0) as [->|Hc0]; [apply Z.bits_0|].
          apply Z.bits_above_log2; [lia|].
          assert (Z.log2 c < 2) by (apply Z.log2_lt_pow2; lia). lia. }
        symmetry. apply Hs.
        destruct (Z.testbit x 0), (Z.testbit x 1); simpl; lia. }
  rewrite E. unfold truthy.
  destruct (Z.testbit x 0), (Z.testbit x 1); reflexivity.
Qed.

Lemma truthy_band_3 (v : jsval) : truthy (v .& JNum 3) = bit v 0 || bit v 1.
Proof. unfold band, bit. change (int32 (JNum 3)) with 3. apply truthy_land_3. Qed.

Lemma truthy_DR (v : jsval) : truthy (v .& LSR_DR) = bit v 0.
Proof. exact (truthy_band_bit v 0 ltac:(lia)). Qed.

Lemma truthy_RBR_AVAIL (v : jsval) : truthy (v .& IER_RBR_AVAIL) = bit v 0.
Proof. exact (truthy_band_bit v 0 ltac:(lia)). Qed.

Lemma truthy_MSR_DELTA (v : jsval) : truthy (v .& IER_MSR_DELTA) = bit v 3.
Proof. exact (truthy_band_bit v 3 ltac:(lia)). Qed.

Lemma truthy_DLAB (v : jsval) : truthy (v .& LCR_DLAB) = bit v 7.
Proof. exact (truthy_band_bit v 7 ltac:(lia)). Qed.

Lemma truthy_MCR_RTS (v : jsval) : truthy (v .& MCR_RTS) = bit v 1.
Proof. exact (truthy_band_bit v 1 ltac:(lia)). Qed.

Lemma truthy_MCR_DTR (v : jsval) : truthy (v .& MCR_DTR) = bit v 0.
Proof. exact (truthy_band_bit v 0 ltac:(lia)). Qed.

Lemma truthy_delta_bits (v : jsval) :
  truthy (v .& (MSR_DCTS .| MSR_DDSR)) = bit v 0 || bit v 1.
Proof. exact (truthy_band_3 v). Qed.

Lemma truthy_DTR_RTS (v : jsval) :
  truthy (v .& (MCR_DTR .| MCR_RTS)) = bit v 0 || bit v 1.
Proof. exact (truthy_band_3 v). Qed.

(** The low three bits of a number, from its bits. *)
Lemma land_7_bits (x c : Z) :
  0 <= c < 8 ->
  (forall i, 0 <= i < 3 -> Z.testbit x i = Z.testbit c i) ->
  Z.land x 7 = c.
Proof.
  intros Hc H. apply Z.bits_inj'. intros n Hn. rewrite Z.land_spec.
  destruct (Z_lt_dec n 3) as [Hlt|Hge].
  - rewrite H by lia. change 7 with (Z.ones 3).
    rewrite Z.ones_spec_low by lia. apply andb_true_r.
  - change 7 with (Z.ones 3). rewrite Z.ones_spec_high by lia.
    rewrite andb_false_r. symmetry.
    destruct (Z.eq_dec c 0) as [->|Hc0]; [apply Z.bits_0|].
    apply Z.bits_above_log2; [lia|].
    assert (Z.log2 c < 3) by (apply Z.log2_lt_pow2; lia). lia.
Qed.

(** ** The monad: inversion and frame rules *)

Lemma bind_Ok_inv {A B} (m : M A) (k : A -> M B) (d d' : SerialPort) (b : B)
  (evs : list event) :
  bind m k d = Ok b d' evs ->
  exists a d1 e1 e2, m d = Ok a d1 e1 /\ k a d1 = Ok b d' e2 /\ evs = e1 ++ e2.
Proof.
  unfold bind. intros H.
  destruct (m d) as [|a d1 e1]; [discriminate|].
  destruct (k a d1) as [|b' d2 e2] eqn:E; [discriminate|].
  inversion H; subst. exists a, d1, e1, e2. auto.
Qed.

Section Keeps.

Context {T : Type} (f : SerialPort -> T).

Lemma keeps_ret {A} (a : A) : keeps f (ret a).
Proof. intros d a' d' evs H. inversion H. reflexivity. Qed.

Lemma keeps_get : keeps f get.
Proof. intros d a' d' evs H. inversion H. reflexivity. Qed.

Lemma keeps_emit (e : event) : keeps f (emit e).
Proof. intros d a' d' evs H. inversion H. reflexivity. Qed.

Lemma keeps_throw {A} : keeps f (@throw A).
Proof. intros d a' d' evs H. discriminate H. Qed.

Lemma keeps_modify (g : SerialPort -> SerialPort) :
  (forall d, f (g d) = f d) -> keeps f (modify g).
Proof. intros Hg d a' d' evs H. inversion H. apply Hg. Qed.

Lemma keeps_bind {A B} (m : M A) (k : A -> M B) :
  keeps f m -> (forall a, keeps f (k a)) -> keeps f (bind m k).
Proof.
  intros Hm Hk d b d' evs H.
  apply bind_Ok_inv in H. destruct H as (a & d1 & e1 & e2 & E1 & E2 & _).
  rewrite (Hk _ _ _ _ _ E2). exact (Hm _ _ _ _ E1).
Qed.

Lemma keeps_when (c : bool) (m : M unit) : keeps f m -> keeps f (when c m).
Proof. intros Hm. destruct c; [exact Hm | apply keeps_ret]. Qed.

Lemma keeps_map {A U} (h : T -> U) (m : M A) :
  keeps f m -> keeps (fun d => h (f d)) m.
Proof. intros Hm d a d' evs H. now rewrite (Hm _ _ _ _ H). Qed.

End Keeps.

Create HintDb keeps.

Ltac keeps_step :=
  first
    [ solve [auto with keeps nocore]
    | progress cbv zeta
    | apply keeps_ret | apply keeps_get | apply keeps_emit | apply keeps_throw
    | apply keeps_modify; intros; reflexivity
    | apply keeps_when
    | apply keeps_bind; [|intros ?]
    | match goal with
      | |- keeps _ (if ?c then _ else _) => destruct c
      | |- keeps _ (match ?x with _ => _ end) => destruct x
      end ].

Ltac keeps_auto := repeat keeps_step.

Lemma updateIRR_keeps_cells : keeps fixed_cells updateIRR.
Proof. unfold updateIRR. keeps_auto. Qed.

Lemma updateIRR_keeps_msr : keeps msr_cells updateIRR.
Proof. exact (keeps_map fixed_cells fst updateIRR updateIRR_keeps_cells). Qed.
#[local] Hint Resolve updateIRR_keeps_cells updateIRR_keeps_msr : keeps.

Lemma advanceRBR_keeps_msr : keeps msr_cells advanceRBR.
Proof. unfold advanceRBR, abReceive_nonempty, shift_into_RBR. keeps_auto. Qed.
#[local] Hint Resolve advanceRBR_keeps_msr : keeps.

Lemma push_all_keeps_msr (s : list Z) : keeps msr_cells (push_all s).
Proof. induction s; cbn [push_all]; unfold push; keeps_auto. Qed.
#[local] Hint Resolve push_all_keeps_msr : keeps.

Lemma receiveData_keeps_msr (data : rxdata) : keeps msr_cells (receiveData data).
Proof. unfold receiveData, push. keeps_auto. Qed.

Lemma transmitByte_keeps_cells (X : Externs) (b : Z) : keeps fixed_cells (transmitByte X b).
Proof. unfold transmitByte. keeps_auto. Qed.
#[local] Hint Resolve receiveData_keeps_msr transmitByte_keeps_cells : keeps.

Lemma outTHR_keeps_cells (X : Externs) (b : Z) : keeps fixed_cells (outTHR X b).
Proof. unfold outTHR. keeps_auto. Qed.

Lemma outIER_keeps_cells (b : Z) : keeps fixed_cells (outIER b).
Proof. unfold outIER. keeps_auto. Qed.

Lemma outLCR_keeps_cells (b : Z) : keeps fixed_cells (outLCR b).
Proof. unfold outLCR. keeps_auto. Qed.

Lemma outMCR_keeps_cells (X : Externs) (b : Z) : keeps fixed_cells (outMCR X b).
Proof. unfold outMCR. keeps_auto. Qed.

Lemma portOut_keeps_cells (X : Externs) (off b : Z) : keeps fixed_cells (portOut X off b).
Proof.
  unfold portOut, aPortOutput.
  destruct off as [|[[|[]|]|[[]|[]|]|]|]; try apply keeps_ret;
    first [ apply outTHR_keeps_cells | apply outIER_keeps_cells
          | apply outLCR_keeps_cells | apply outMCR_keeps_cells ].
Qed.

Lemma initConnection_keeps_cells (X : Externs) (w : World) (fNull : bool) :
  keeps fixed_cells (initConnection X w fNull).
Proof. unfold initConnection, status_unable. keeps_auto. Qed.
#[local] Hint Resolve portOut_keeps_cells initConnection_keeps_cells : keeps.

Lemma inRBR_keeps_msr : keeps msr_cells inRBR.
Proof. unfold inRBR. keeps_auto. Qed.

Lemma portIn_keeps_msr (off : Z) : off <> 6 -> keeps msr_cells (portIn off).
Proof.
  intros Hoff. unfold portIn, aPortInput.
  destruct off as [|[[|[]|]|[[]|[]|]|]|]; try apply keeps_ret; try lia.
  apply keeps_bind; [apply inRBR_keeps_msr | intros; apply keeps_ret].
Qed.

(** ** Interrupt arbitration *)

Ltac low3 :=
  apply land_7_bits; [unfold IIR_INT_RBR, IIR_INT_MSR; lia|];
  let i := fresh "i" in let Hi := fresh "Hi" in
  intros i Hi;
  assert (i = 0 \/ i = 1 \/ i = 2) as [-> | [-> | ->]] by lia;
  rewrite ?testbit_bor, ?testbit_band; bits; reflexivity.

(** C1 (as amended): updateIRR never fails and changes only [bIIR].  The
    receive-data condition wins; after it comes the modem-status condition,
    which looks at the delta-CTS and delta-DSR bits only.  A matched condition
    asserts the IRQ with delay 100 and no match clears it, in both cases only
    when a chipset is attached and the IRQ number is nonzero. *)
Theorem updateIRR_arbitration (d : SerialPort) :
  exists iir : Z,
    updateIRR d =
      Ok tt (set_bIIR (JNum iir) d)
         (if chipset d && truthy (nIRQ d)
          then [if rbr_pending d || msr_pending d
                then EvSetIRR (nIRQ d) 100 else EvClearIRR (nIRQ d)]
          else []) /\
    (if rbr_pending d then Z.land iir 7 = IIR_INT_RBR
     else if msr_pending d then Z.land iir 7 = IIR_INT_MSR
     else bit (JNum iir) 0 = true).
Proof.
  unfold updateIRR, rbr_pending, msr_pending. run_m.
  rewrite truthy_DR, truthy_RBR_AVAIL, truthy_delta_bits, truthy_MSR_DELTA.
  destruct (bit (bLSR d) 0 && bit (bIER d) 0) eqn:Hr; cbn.
  - change (IIR_INT_RBR >=? 0) with true. cbn.
    eexists. split.
    + destruct (chipset d && truthy (nIRQ d)); reflexivity.
    + low3.
  - destruct ((bit (bMSR d) 0 || bit (bMSR d) 1) && bit (bIER d) 3) eqn:Hm; cbn.
    + change (IIR_INT_MSR >=? 0) with true. cbn.
      eexists. split.
      * destruct (chipset d && truthy (nIRQ d)); reflexivity.
      * low3.
    + eexists. split.
      * destruct (chipset d && truthy (nIRQ d)); reflexivity.
      * bits. reflexivity.
Qed.

(** C1, as stated, fails twice.  With only TERI set in MSR and modem-status
    interrupts enabled, updateIRR reports no interrupt and clears the IRQ;
    and on a machine without chipset a pending receive byte asserts nothing. *)
Lemma updateIRR_ignores_TERI :
  ~ (forall d d' evs,
       updateIRR d = Ok tt d' evs ->
       rbr_pending d = false ->
       bit (bMSR d) 0 || bit (bMSR d) 1 || bit (bMSR d) 2 || bit (bMSR d) 3 = true ->
       bit (bIER d) 3 = true ->
       Z.land (int32 (bIIR d')) 7 = IIR_INT_MSR /\ evs = [EvSetIRR (nIRQ d) 100]) /\
  ~ (forall d d' evs,
       updateIRR d = Ok tt d' evs ->
       rbr_pending d = true ->
       evs = [EvSetIRR (nIRQ d) 100]).
Proof.
  split; intros H.
  - destruct (H teri_port (set_bIIR (JNum 1) teri_port) [EvClearIRR 4]) as [E _];
      try reflexivity.
    discriminate E.
  - specialize (H detached_ready_port detached_ready_port [] eq_refl eq_refl).
    discriminate H.
Qed.

(** ** The receive path *)

Lemma updateIRR_sets_bIIR (d : SerialPort) :
  exists iir evs, updateIRR d = Ok tt (set_bIIR (JNum iir) d) evs.
Proof.
  unfold updateIRR. run_m.
  destruct (truthy (bLSR d .& LSR_DR) && truthy (bIER d .& IER_RBR_AVAIL)); cbn.
  - change (IIR_INT_RBR >=? 0) with true. cbn.
    destruct (chipset d && truthy (nIRQ d)); do 2 eexists; reflexivity.
  - destruct (truthy (bMSR d .& (MSR_DCTS .| MSR_DDSR)) && truthy (bIER d .& IER_MSR_DELTA)); cbn.
    + change (IIR_INT_MSR >=? 0) with true. cbn.
      destruct (chipset d && truthy (nIRQ d)); do 2 eexists; reflexivity.
    + destruct (chipset d && truthy (nIRQ d)); do 2 eexists; reflexivity.
Qed.

Opaque updateIRR.

Lemma advanceRBR_staged (d : SerialPort) (q : list Z) :
  abReceive d = JArr q -> advanceRBR d = updateIRR (staged d).
Proof.
  intros Hq. unfold advanceRBR, abReceive_nonempty, shift_into_RBR, staged. run_m.
  rewrite Hq. cbn. rewrite truthy_DR.
  destruct q as [|b rest]; cbn.
  - destruct (updateIRR d); reflexivity.
  - destruct (bit (bLSR d) 0); cbn.
    + destruct (updateIRR d); reflexivity.
    + rewrite Hq. cbn.
      destruct (updateIRR _); reflexivity.
Qed.

Lemma push_all_appends (s : list Z) (d : SerialPort) (q : list Z) :
  abReceive d = JArr q ->
  push_all s d = Ok tt (set_abReceive (JArr (q ++ s)) d) [].
Proof.
  revert d q. induction s as [|c rest IH]; intros d q Hq.
  - cbn. rewrite app_nil_r, <- Hq. destruct d; reflexivity.
  - cbn. unfold push at 1. run_m. rewrite Hq. cbn.
    rewrite (IH _ (q ++ [c])) by reflexivity.
    cbn. rewrite <- app_assoc. reflexivity.
Qed.

Opaque advanceRBR.

Lemma receiveData_appends (data : rxdata) (d : SerialPort) (q : list Z) :
  abReceive d = JArr q ->
  receiveData data d =
    match advanceRBR (set_abReceive (JArr (q ++ rx_bytes data)) d) with
    | Throw => Throw
    | Ok _ d' evs => Ok true d' evs
    end.
Proof.
  intros Hq. unfold receiveData. destruct data as [n|s|l]; cbn.
  - unfold push. run_m. rewrite Hq. cbn.
    destruct (advanceRBR _); cbn; [reflexivity|]. now rewrite app_nil_r.
  - unfold bind at 1 2. rewrite (push_all_appends s d q Hq). unfold ret.
    destruct (advanceRBR _); cbn; [reflexivity|]. now rewrite app_nil_r.
  - run_m. rewrite Hq. cbn.
    destruct (advanceRBR _); cbn; [reflexivity|]. now rewrite app_nil_r.
Qed.


(** While DR is set a delivery only lengthens the queue (and re-arbitrates). *)
Lemma receiveData_while_ready (data : rxdata) (d : SerialPort) (q : list Z) :
  abReceive d = JArr q ->
  bit (bLSR d) 0 = true ->
  exists iir evs,
    receiveData data d =
      Ok true (set_bIIR (JNum iir) (set_abReceive (JArr (q ++ rx_bytes data)) d)) evs.
Proof.
  intros Hq Hdr. rewrite (receiveData_appends data d q Hq).
  rewrite (advanceRBR_staged _ (q ++ rx_bytes data)) by reflexivity.
  unfold staged. cbn. rewrite Hdr.
  destruct (updateIRR_sets_bIIR (set_abReceive (JArr (q ++ rx_bytes data)) d))
    as (iir & evs & E).
  exists iir, evs.
  destruct (q ++ rx_bytes data); rewrite E; reflexivity.
Qed.

Lemma receive_all_while_ready (ds : list rxdata) (d : SerialPort) (q : list Z) :
  abReceive d = JArr q ->
  bit (bLSR d) 0 = true ->
  exists v evs,
    receive_all ds d =
      Ok tt (set_bIIR v (set_abReceive (JArr (q ++ List.concat (map rx_bytes ds))) d)) evs.
Proof.
  revert d q. induction ds as [|data rest IH]; intros d q Hq Hdr.
  - exists (bIIR d), []. cbn. rewrite app_nil_r, <- Hq. destruct d; reflexivity.
  - destruct (receiveData_while_ready data d q Hq Hdr) as (iir & evs & E).
    cbn [receive_all]. unfold bind at 1. rewrite E.
    destruct (IH (set_bIIR (JNum iir) (set_abReceive (JArr (q ++ rx_bytes data)) d))
                 (q ++ rx_bytes data) eq_refl Hdr) as (v & evs' & E').
    rewrite E'. exists v, (evs ++ evs'). cbn. rewrite <- app_assoc. reflexivity.
Qed.

(** A read of offset 0 clears DR first and only then lets advanceRBR stage. *)
Lemma inRBR_clears_then_stages (d : SerialPort) :
  let cleared := set_bLSR (JNum (bLSR d .& .~ LSR_DR)) d in
  bit (bLSR cleared) 0 = false /\
  inRBR d =
    match advanceRBR cleared with
    | Throw => Throw
    | Ok _ d' evs =>
        Ok (if bit (bLCR d) 7 then JNum (wDL d .& 0xff) else bRBR d) d' evs
    end.
Proof.
  cbv zeta. split; [cbn; bits; reflexivity|].
  unfold inRBR. run_m. rewrite truthy_DLAB.
  destruct (advanceRBR _); [reflexivity|]. now rewrite app_nil_r.
Qed.

(** C2: staging happens only while DR is clear and sets DR; a read of offset
    0 clears DR before anything is staged anew.  Deliveries made while DR is
    set leave rbr alone and queue every byte; the next read hands out what was
    staged and stages exactly the head of the backlog, which shrinks by that
    one byte (with nothing queued, the read just leaves DR clear). *)
Theorem holding_register_one_deep (d : SerialPort) (q : list Z) (ds : list rxdata) :
  abReceive d = JArr q ->
  bit (bLSR d) 0 = true ->
  (forall d0,
     let cleared := set_bLSR (JNum (bLSR d0 .& .~ LSR_DR)) d0 in
     bit (bLSR cleared) 0 = false /\
     inRBR d0 =
       match advanceRBR cleared with
       | Throw => Throw
       | Ok _ d' evs =>
           Ok (if bit (bLCR d0) 7 then JNum (wDL d0 .& 0xff) else bRBR d0) d' evs
       end) /\
  (forall d0 q0, abReceive d0 = JArr q0 ->
     exists iir evs, advanceRBR d0 = Ok tt (set_bIIR (JNum iir) (staged d0)) evs /\
       match q0 with
       | b :: rest =>
           if bit (bLSR d0) 0 then staged d0 = d0
           else bRBR (staged d0) = JNum b /\ abReceive (staged d0) = JArr rest /\
                bit (bLSR (staged d0)) 0 = true
       | [] => staged d0 = d0
       end) /\
  exists d1 evs1,
    receive_all ds d = Ok tt d1 evs1 /\
    bRBR d1 = bRBR d /\ bLSR d1 = bLSR d /\
    abReceive d1 = JArr (q ++ List.concat (map rx_bytes ds)) /\
    exists d2 evs2,
      inRBR d1 = Ok (if bit (bLCR d) 7 then JNum (wDL d .& 0xff) else bRBR d) d2 evs2 /\
      match q ++ List.concat (map rx_bytes ds) with
      | b :: rest =>
          bRBR d2 = JNum b /\ abReceive d2 = JArr rest /\ bit (bLSR d2) 0 = true /\
          S (List.length rest) = List.length (q ++ List.concat (map rx_bytes ds))
      | [] =>
          bRBR d2 = bRBR d /\ abReceive d2 = JArr [] /\ bit (bLSR d2) 0 = false
      end.
Proof.
  intros Hq Hdr. split; [exact inRBR_clears_then_stages|]. split.
  - intros d0 q0 Hq0. rewrite (advanceRBR_staged d0 q0 Hq0).
    destruct (updateIRR_sets_bIIR (staged d0)) as (iir & evs & E).
    exists iir, evs. split; [exact E|].
    unfold staged. rewrite Hq0. destruct q0 as [|b rest]; [reflexivity|].
    destruct (bit (bLSR d0) 0) eqn:Hb; [reflexivity|].
    cbn. repeat split. bits. reflexivity.
  - destruct (receive_all_while_ready ds d q Hq Hdr) as (v & evs1 & E1).
    do 2 eexists. split; [exact E1|]. cbn. repeat split.
    set (backlog := q ++ List.concat (map rx_bytes ds)).
    set (d1 := set_bIIR v (set_abReceive (JArr backlog) d)).
    set (d1' := set_bLSR (JNum (bLSR d1 .& .~ LSR_DR)) d1).
    assert (Hclr : bit (bLSR d1') 0 = false) by (cbn; bits; reflexivity).
    destruct (updateIRR_sets_bIIR (staged d1')) as (iir & evs2 & E2).
    assert (Hin : inRBR d1 =
                  Ok (if bit (bLCR d) 7 then JNum (wDL d .& 0xff) else bRBR d)
                     (set_bIIR (JNum iir) (staged d1')) evs2).
    { unfold inRBR. run_m.
      change (set_bLSR (JNum (bLSR d .& .~ LSR_DR)) d1) with d1'.
      rewrite (advanceRBR_staged d1' backlog) by reflexivity.
      rewrite E2. rewrite truthy_DLAB, app_nil_r. reflexivity. }
    do 2 eexists. split; [exact Hin|].
    unfold staged. cbn [abReceive d1' d1 set_bLSR set_bIIR set_abReceive].
    destruct backlog as [|b rest]; cbn.
    + repeat split. bits. reflexivity.
    + change (bit (JNum (bLSR d .& .~ LSR_DR)) 0) with (bit (bLSR d1') 0).
      rewrite Hclr. cbn. repeat split. bits. reflexivity.
Qed.

Lemma holding_register_one_deep_witness :
  abReceive ready_port = JArr [] /\
  bit (bLSR ready_port) 0 = true /\
  exists d1 evs1,
    receive_all [RxNumber 0x20; RxString [0x30; 0x31]] ready_port = Ok tt d1 evs1 /\
    bRBR d1 = JNum 0x10 /\
    abReceive d1 = JArr [0x20; 0x30; 0x31] /\
    exists d2 evs2,
      inRBR d1 = Ok (JNum 0x10) d2 evs2 /\
      bRBR d2 = JNum 0x20 /\ abReceive d2 = JArr [0x30; 0x31].
Proof.
  split; [reflexivity|]. split; [reflexivity|].
  destruct (holding_register_one_deep ready_port []
              [RxNumber 0x20; RxString [0x30; 0x31]] eq_refl eq_refl)
    as (_ & _ & d1 & evs1 & E1 & Hr & _ & Hq & d2 & evs2 & E2 & Hb & Hq2 & _).
  exists d1, evs1. split; [exact E1|]. split; [exact Hr|]. split; [exact Hq|].
  exists d2, evs2. split; [exact E2|]. split; [exact Hb|exact Hq2].
Defined.

(** ** Modem control and the peer's control lines *)

Lemma lor_bound (a b n : Z) :
  0 < n -> 0 <= a < 2 ^ n -> 0 <= b < 2 ^ n -> 0 <= Z.lor a b < 2 ^ n.
Proof.
  intros Hn Ha Hb.
  assert (H0 : 0 <= Z.lor a b) by (apply Z.lor_nonneg; lia).
  split; [exact H0|].
  destruct (Z.eq_dec (Z.lor a b) 0) as [E|E].
  - rewrite E. apply Z.pow_pos_nonneg; lia.
  - apply Z.log2_lt_pow2; [lia|].
    rewrite Z.log2_lor by lia.
    assert (La : Z.log2 a < n).
    { destruct (Z.eq_dec a 0) as [->|]; [cbn; lia|]. apply Z.log2_lt_pow2; lia. }
    assert (Lb : Z.log2 b < n).
    { destruct (Z.eq_dec b 0) as [->|]; [cbn; lia|]. apply Z.log2_lt_pow2; lia. }
    lia.
Qed.

Lemma int32_small (z : Z) : 0 <= z < 2 ^ 31 -> int32 (JNum z) = z.
Proof. intros H. unfold int32; cbn. apply toInt32_small. lia. Qed.

Lemma bor_small (a b : Z) :
  0 <= a < 2 ^ 31 -> 0 <= b < 2 ^ 31 -> JNum a .| JNum b = Z.lor a b.
Proof. intros Ha Hb. unfold bor. now rewrite !int32_small. Qed.

Lemma pins_small (a b : Z) :
  0 <= a < 2 ^ 31 -> 0 <= b < 2 ^ 31 -> JNum (JNum 0 .| JNum a) .| JNum b = Z.lor a b.
Proof.
  intros Ha Hb. rewrite (bor_small 0 a) by lia. rewrite Z.lor_0_l. now apply bor_small.
Qed.

Lemma outMCR_notifies (X : Externs) (d : SerialPort) (fn : fnref) (b : Z) :
  masks_ok X ->
  updateStatus d = Some fn ->
  outMCR X b d =
    Ok tt (set_bMCR (JNum b) d)
       (map (EvUpdateStatus fn (connection d))
            (if lines_changed (bMCR d) b
             then [if fNullModem d then crossover_pins X b else straight_pins X b]
             else [])).
Proof.
  intros (Hrts & Hcts & Hdsr & Hcd & Hdtr) Hfn.
  assert (Hdc := lor_bound _ _ 31 ltac:(lia) Hdsr Hcd).
  unfold outMCR, lines_changed. run_m.
  rewrite truthy_DTR_RTS, !bit_bxor, !bit_JNum by lia.
  destruct (xorb (Z.testbit b 0) (bit (bMCR d) 0) || xorb (Z.testbit b 1) (bit (bMCR d) 1));
    cbn; [|reflexivity].
  rewrite Hfn. cbn. rewrite truthy_MCR_RTS, truthy_MCR_DTR, !bit_JNum by lia.
  do 3 f_equal. unfold crossover_pins, straight_pins.
  rewrite (bor_small (RS232_DSR_MASK X) (RS232_CD_MASK X)) by lia.
  destruct (fNullModem d), (Z.testbit b 1), (Z.testbit b 0); apply pins_small; lia.
Qed.

(** C3: over any run of MCR writes with an updateStatus capability at hand,
    the peer is called exactly at the writes that change DTR or RTS, with the
    crossover pins in null-modem mode and the straight-through pins otherwise. *)
Theorem mcr_writes_notify_peer
  (X : Externs) (d : SerialPort) (peer : Component) (fn : fnref) (ws : list Z) :
  masks_ok X ->
  connection d = Some peer ->
  updateStatus d = Some fn ->
  exists d',
    write_all X 4 ws d =
      Ok tt d' (map (EvUpdateStatus fn (Some peer))
                    (peer_observes X (fNullModem d) (bMCR d) ws)) /\
    connection d' = Some peer /\ updateStatus d' = Some fn /\
    fNullModem d' = fNullModem d.
Proof.
  intros HX. revert d. induction ws as [|b rest IH]; intros d Hc Hfn.
  - exists d. cbn. auto.
  - destruct (IH (set_bMCR (JNum b) d) Hc Hfn) as (d' & E & Hc' & Hfn' & Hnm).
    exists d'. cbn [write_all peer_observes]. unfold bind, portOut. cbn [aPortOutput].
    rewrite (outMCR_notifies X d fn b HX Hfn), E, Hc.
    cbn [fNullModem bMCR set_bMCR]. rewrite map_app.
    repeat split; auto.
Qed.

Lemma mcr_writes_notify_peer_witness :
  masks_ok sample_externs /\
  connection sample_wired_port = Some sample_peer /\
  updateStatus sample_wired_port = Some (sample_peer_fn "receiveStatus") /\
  exists d',
    write_all sample_externs 4 [0x03; 0x03; 0x01; 0x00] sample_wired_port =
      Ok tt d' (map (EvUpdateStatus (sample_peer_fn "receiveStatus") (Some sample_peer))
                    [0x160; 0x140; 0x000]).
Proof.
  assert (Hm : masks_ok sample_externs) by (unfold masks_ok; cbn; lia).
  split; [exact Hm|]. split; [reflexivity|]. split; [reflexivity|].
  destruct (mcr_writes_notify_peer sample_externs sample_wired_port sample_peer
              (sample_peer_fn "receiveStatus") [0x03; 0x03; 0x01; 0x00]
              Hm eq_refl eq_refl) as (d' & E & _).
  exists d'. exact E.
Defined.

(** ** Transmission *)

(** transmitByte never fails and leaves every register and the queue alone. *)
Lemma transmitByte_runs (X : Externs) (b : Z) (d : SerialPort) :
  exists ok d2 evs,
    transmitByte X b d = Ok ok d2 evs /\ saveRegisters d2 = saveRegisters d.
Proof.
  unfold transmitByte. run_m.
  destruct (sendData d) as [fn|]; cbn;
    (destruct (controlIOBuffer d) as [value|]; cbn;
     [ destruct (b =? 13); cbn; [do 3 eexists; split; reflexivity|];
       destruct (b =? 8); cbn;
       [ destruct (iLogicalCol d >? 0); cbn; do 3 eexists; split; reflexivity
       | do 3 eexists; split; reflexivity ]
     | destruct (consoleOutput d) as [out|]; cbn;
       [ destruct ((b =? 10) || (Z.of_nat (Datatypes.length out) >=? 1024)); cbn;
         do 3 eexists; split; reflexivity
       | do 3 eexists; split; reflexivity ] ]).
Qed.

Opaque transmitByte.

Lemma testbit_255 (i : Z) : 0 <= i -> Z.testbit 255 i = (i <? 8).
Proof.
  intros Hi. change 255 with (Z.ones 8).
  destruct (Z.ltb_spec i 8).
  - apply Z.ones_spec_low. lia.
  - apply Z.ones_spec_high. lia.
Qed.

Lemma testbit_byte_high (b i : Z) : 0 <= b < 256 -> 8 <= i -> Z.testbit b i = false.
Proof.
  intros Hb Hi. destruct (Z.eq_dec b 0) as [->|Hb0]; [apply Z.bits_0|].
  apply Z.bits_above_log2; [lia|].
  assert (Z.log2 b < 8) by (apply Z.log2_lt_pow2; lia). lia.
Qed.

(** C4: a write to offset 0. With DLAB set only the divisor latch changes,
    its low byte becoming the written byte; with DLAB clear the byte goes
    into thr, THRE and TSRE are cleared, transmitByte runs on the byte, and
    THRE and TSRE end up set exactly when transmitByte reported the byte as
    transmitted; the other LSR bits are as transmitByte left them. *)
Theorem outTHR_write (X : Externs) (d : SerialPort) (b : Z) :
  0 <= b < 256 ->
  if bit (bLCR d) 7 then
    exists v,
      outTHR X b d = Ok tt (set_wDL (JNum v) d) [] /\
      Z.land v 0xff = b /\
      (forall i, 8 <= i < 32 -> bit (JNum v) i = bit (wDL d) i)
  else
    exists ok d2 evs lsr',
      transmitByte X b (set_bLSR (JNum (bLSR d .& .~ (LSR_THRE .| LSR_TSRE)))
                                 (set_bTHR (JNum b) d)) = Ok ok d2 evs /\
      outTHR X b d = Ok tt (set_bLSR (JNum lsr') d2) evs /\
      bTHR d2 = JNum b /\
      bit (JNum lsr') 5 = ok /\ bit (JNum lsr') 6 = ok /\
      (forall i, 0 <= i < 32 -> i <> 5 -> i <> 6 -> bit (JNum lsr') i = bit (bLSR d2) i).
Proof.
  intros Hb. unfold outTHR. run_m. rewrite truthy_DLAB.
  destruct (bit (bLCR d) 7); cbn.
  - eexists. split; [reflexivity|]. split.
    + apply Z.bits_inj'. intros i Hi.
      rewrite Z.land_spec, testbit_255, testbit_bor by lia.
      destruct (Z.ltb_spec i 8).
      * rewrite bit_band, bit_bnot, !bit_JNum, testbit_255 by lia.
        destruct (Z.ltb_spec i 8); [|lia].
        now rewrite andb_false_r, andb_true_r.
      * rewrite andb_false_r. symmetry. now apply testbit_byte_high.
    + intros i Hi.
      rewrite bit_bor, bit_band, bit_bnot, !bit_JNum, testbit_255 by lia.
      destruct (Z.ltb_spec i 8); [lia|].
      rewrite testbit_byte_high by lia. cbn.
      now rewrite andb_true_r, orb_false_r.
  - set (d1 := set_bLSR _ _).
    destruct (transmitByte_runs X b d1) as (ok & d2 & evs & E & Hregs).
    injection Hregs as _ Hthr _ _ _ _ _ Hlsr _ _.
    rewrite E. destruct ok; cbn.
    + do 4 eexists. split; [reflexivity|]. split; [rewrite app_nil_r; reflexivity|].
      split; [exact Hthr|].
      split; [bits; reflexivity|]. split; [bits; reflexivity|].
      intros i Hi H5 H6.
      assert (Hc : bit (JNum (LSR_THRE .| LSR_TSRE)) i = false).
      { rewrite bit_JNum by lia. change (LSR_THRE .| LSR_TSRE) with 96.
        assert (i = 0 \/ i = 1 \/ i = 2 \/ i = 3 \/ i = 4 \/ 7 <= i) as Hcase by lia.
        destruct Hcase as [-> | [-> | [-> | [-> | [-> | Hge]]]]]; try reflexivity.
        apply Z.bits_above_log2; [lia|]. change (Z.log2 96) with 6. lia. }
      rewrite bit_bor, Hc by lia. now rewrite orb_false_r.
    + exists false, d2, evs, (bLSR d .& .~ (LSR_THRE .| LSR_TSRE)).
      split; [reflexivity|]. split.
      { rewrite app_nil_r. rewrite <- Hlsr. destruct d2; reflexivity. }
      split; [exact Hthr|]. split; [bits; reflexivity|]. split; [bits; reflexivity|].
      intros i Hi H5 H6. rewrite Hlsr. reflexivity.
Qed.

Lemma outTHR_write_witness :
  0 <= 0x41 < 256 /\
  exists ok d2 evs lsr',
    outTHR sample_externs 0x41 sample_wired_port = Ok tt (set_bLSR (JNum lsr') d2) evs /\
    bTHR d2 = JNum 0x41 /\
    bit (JNum lsr') 5 = ok /\ bit (JNum lsr') 6 = ok.
Proof.
  assert (Hb : 0 <= 0x41 < 256) by lia.
  split; [exact Hb|].
  pose proof (outTHR_write sample_externs sample_wired_port 0x41 Hb) as H.
  change (bit (bLCR sample_wired_port) 7) with false in H. cbv iota in H.
  destruct H as (ok & d2 & evs & lsr' & _ & E & Ht & H5 & H6 & _).
  exists ok, d2, evs, lsr'. auto.
Defined.

(** ** The echo surface *)

Transparent transmitByte.

(** C8 (as amended): a tab sent to the bound control advances the column by
    n = tab - column % tab, where tab is the configured width or 8; with a
    nonzero width configured the control receives str.pad("", n), otherwise
    it receives str.toASCIICode(9) as any other byte would; either is
    preceded by the beginning-of-line character when one is configured, the
    column is 0 and n is not. *)
Theorem tab_on_echo_surface (X : Externs) (d : SerialPort) (value : jstring) :
  controlIOBuffer d = Some value ->
  let tab := match tabSize d with Some 0 => 8 | Some t => t | None => 8 end in
  let n := tab - Z.rem (iLogicalCol d) tab in
  let text := match tabSize d with
              | Some 0 => toASCIICode X 9
              | Some _ => pad X [] n
              | None => toASCIICode X 9
              end in
  let bol := match charBOL d with
             | Some 0 => []
             | Some c => if (iLogicalCol d =? 0) && negb (n =? 0) then fromCharCode c else []
             | None => []
             end in
  exists d' evs,
    transmitByte X 9 d = Ok true d' evs /\
    controlIOBuffer d' = Some (value ++ bol ++ text) /\
    iLogicalCol d' = iLogicalCol d + n.
Proof.
  intros Hv. cbv zeta. unfold transmitByte. run_m. rewrite Hv.
  destruct (sendData d) as [fn|]; cbn;
    (do 2 eexists; split; [reflexivity|]; cbn; split; [|reflexivity];
     destruct (charBOL d) as [[|c|c]|]; unfold truthy;
     destruct (tabSize d) as [[|t|t]|]; cbn;
     try destruct (_ && _); rewrite ?app_nil_r; reflexivity).
Qed.

(** C8, as stated, fails: with no tab width configured the tab is not
    dropped.  Here the control, empty before, shows the beginning-of-line
    character and the text toASCIICode gives for the tab. *)
Lemma tab_without_width_is_shown :
  ~ (forall X d value,
       controlIOBuffer d = Some value ->
       tabSize d = None ->
       controlIOBuffer (state_of (transmitByte X 9 d) d) = Some value).
Proof.
  intros H.
  specialize (H sample_externs bol_echo_port [] eq_refl eq_refl).
  vm_compute in H. discriminate H.
Qed.

Lemma tab_on_echo_surface_witness :
  controlIOBuffer tab8_echo_port = Some [0x41; 0x42; 0x43] /\
  exists d' evs,
    transmitByte sample_externs 9 tab8_echo_port = Ok true d' evs /\
    controlIOBuffer d' = Some [0x41; 0x42; 0x43; 0x20; 0x20; 0x20; 0x20; 0x20] /\
    iLogicalCol d' = 8.
Proof.
  split; [reflexivity|].
  exact (tab_on_echo_surface sample_externs tab8_echo_port [0x41; 0x42; 0x43] eq_refl).
Defined.

(** ** Which steps touch the modem status register *)

Transparent updateIRR advanceRBR transmitByte.

(** The MSR value receiveStatus computes from the old one and the pins. *)
Lemma receiveStatus_bMSR (X : Externs) (pins : Z) (d d' : SerialPort) (evs : list event) :
  receiveStatus X pins d = Ok tt d' evs ->
  let m0 := bMSR d .& .~ (MSR_CTS .| MSR_DSR) in
  let m1 := if truthy (pins .& RS232_CTS_MASK X) then m0 .| (MSR_CTS .| MSR_DCTS) else m0 in
  let m2 := if truthy (pins .& RS232_DSR_MASK X) then m1 .| (MSR_DSR .| MSR_DDSR) else m1 in
  bMSR d' = JNum m2.
Proof.
  intros H. cbv zeta.
  set (m0 := bMSR d .& .~ (MSR_CTS .| MSR_DSR)).
  set (m1 := if truthy (pins .& RS232_CTS_MASK X) then m0 .| (MSR_CTS .| MSR_DCTS) else m0).
  set (m2 := if truthy (pins .& RS232_DSR_MASK X) then m1 .| (MSR_DSR .| MSR_DDSR) else m1).
  unfold receiveStatus in H.
  apply bind_Ok_inv in H. destruct H as (d0 & d1 & e1 & e2 & Hget & H & _).
  unfold get in Hget. inversion Hget; subst d0 d1. clear Hget.
  cbv zeta in H. fold m0 m1 m2 in H.
  apply bind_Ok_inv in H. destruct H as (u & d1 & e3 & e4 & Hmod & H & _).
  unfold modify in Hmod. inversion Hmod; subst d1.
  assert (K : keeps msr_cells (when (loose_neq (bMSR d) m2) updateIRR))
    by (apply keeps_when, updateIRR_keeps_msr).
  exact (f_equal fst (K _ _ _ _ H)).
Qed.

Lemma receiveStatus_keeps_bMSRInit (X : Externs) (pins : Z) :
  keeps bMSRInit (receiveStatus X pins).
Proof. unfold receiveStatus. keeps_auto. Qed.

(** receiveStatus may set delta bits and never clears one. *)
Lemma receiveStatus_delta_monotone (X : Externs) (pins : Z) (d d' : SerialPort)
  (evs : list event) (i : Z) :
  receiveStatus X pins d = Ok tt d' evs ->
  0 <= i < 4 ->
  bit (bMSR d) i = true -> bit (bMSR d') i = true.
Proof.
  intros H Hi Hb. rewrite (receiveStatus_bMSR X pins d d' evs H). cbv zeta.
  set (m0 := bMSR d .& .~ (MSR_CTS .| MSR_DSR)).
  assert (H0 : bit (JNum m0) i = true).
  { unfold m0. assert (i = 0 \/ i = 1 \/ i = 2 \/ i = 3) as [-> | [-> | [-> | ->]]] by lia;
      bits; exact Hb. }
  set (m1 := if truthy (pins .& RS232_CTS_MASK X) then m0 .| (MSR_CTS .| MSR_DCTS) else m0).
  assert (H1 : bit (JNum m1) i = true).
  { unfold m1. destruct (truthy (pins .& RS232_CTS_MASK X)); [|exact H0].
    rewrite bit_bor by lia. rewrite H0. reflexivity. }
  destruct (truthy (pins .& RS232_DSR_MASK X)); [|exact H1].
  rewrite bit_bor by lia. rewrite H1. reflexivity.
Qed.

(** Every step but an MSR read, a status delivery and a reinitialisation
    leaves the MSR and its reset value alone. *)
Lemma exec_keeps_msr (X : Externs) (o : op) (d d' : SerialPort) (evs : list event) :
  exec X o d = Ok tt d' evs ->
  is_msr_read o = false ->
  reinitialises o = false ->
  (forall pins, o <> OpReceiveStatus pins) ->
  msr_cells d' = msr_cells d.
Proof.
  intros H Hr Hi Hs. destruct o; cbn in *.
  - apply (portIn_keeps_msr off) in H; [exact H|].
    intros ->. discriminate Hr.
  - exact (f_equal fst (portOut_keeps_cells X off bOut _ _ _ _ H)).
  - revert H. apply (keeps_bind msr_cells); [apply receiveData_keeps_msr|intros; apply keeps_ret].
  - exfalso. exact (Hs pins eq_refl).
  - exact (f_equal fst (initConnection_keeps_cells X w fNull _ _ _ _ H)).
  - revert H. unfold attachMouse. keeps_auto.
  - revert H. unfold setBinding. keeps_auto.
  - revert H. unfold initBus. keeps_auto.
  - destruct fRepower; [|discriminate]. inversion H. reflexivity.
  - discriminate.
Qed.

(** C5 (as amended): a read of offset 6 returns the MSR as it was and clears
    its delta-CTS and delta-DSR bits, nothing else; and short of a reset or a
    power-up, no other step clears a delta bit that is set. *)
Theorem inMSR_clears_cts_dsr_deltas (X : Externs) (d : SerialPort) :
  (exists m,
     inMSR d = Ok (bMSR d) (set_bMSR (JNum m) d) [] /\
     bit (JNum m) 0 = false /\ bit (JNum m) 1 = false /\
     forall i, 2 <= i < 32 -> bit (JNum m) i = bit (bMSR d) i) /\
  (forall o d' evs i,
     exec X o d = Ok tt d' evs ->
     is_msr_read o = false ->
     reinitialises o = false ->
     0 <= i < 4 ->
     bit (bMSR d) i = true -> bit (bMSR d') i = true).
Proof.
  split.
  - eexists. split; [reflexivity|]. split; [bits; reflexivity|]. split; [bits; reflexivity|].
    intros i Hi. rewrite bit_band, bit_bnot by lia.
    assert (Hc : bit (JNum (MSR_DCTS .| MSR_DDSR)) i = false).
    { rewrite bit_JNum by lia. change (MSR_DCTS .| MSR_DDSR) with (Z.ones 2).
      apply Z.ones_spec_high. lia. }
    rewrite Hc. apply andb_true_r.
  - intros o d' evs i H Hr Hi Hrange Hb.
    destruct o;
      try (assert (E : bMSR d' = bMSR d)
             by exact (f_equal fst (exec_keeps_msr X _ d d' evs H Hr Hi ltac:(discriminate)));
           rewrite E; exact Hb).
    exact (receiveStatus_delta_monotone X pins d d' evs i H Hrange Hb).
Qed.

Lemma inMSR_clears_cts_dsr_deltas_witness :
  exec sample_externs (OpOut 4 0x03) all_deltas_port
    = Ok tt (set_bMCR (JNum 0x03) all_deltas_port) [] /\
  bit (bMSR all_deltas_port) 3 = true /\
  bit (bMSR (set_bMCR (JNum 0x03) all_deltas_port)) 3 = true /\
  inMSR all_deltas_port = Ok (JNum 0x3F) (set_bMSR (JNum 0x3C) all_deltas_port) [].
Proof.
  destruct (inMSR_clears_cts_dsr_deltas sample_externs all_deltas_port) as [(m & E & _) Hk].
  split; [reflexivity|]. split; [reflexivity|]. split.
  - exact (Hk (OpOut 4 0x03) (set_bMCR (JNum 0x03) all_deltas_port) [] 3
              eq_refl eq_refl eq_refl ltac:(lia) eq_refl).
  - reflexivity.
Defined.

(** C5, as stated, fails: the read leaves TERI and DRLSD set. *)
Lemma inMSR_keeps_TERI_DRLSD :
  ~ (forall d b d' evs,
       inMSR d = Ok b d' evs ->
       bit (bMSR d') 0 = false /\ bit (bMSR d') 1 = false /\
       bit (bMSR d') 2 = false /\ bit (bMSR d') 3 = false).
Proof.
  intros H.
  destruct (H all_deltas_port (JNum 0x3F) (set_bMSR (JNum 0x3C) all_deltas_port) [] eq_refl)
    as (_ & _ & H2 & _).
  discriminate H2.
Qed.

(** ** Snapshots *)

Lemma outTHR_runs (X : Externs) (b : Z) (d : SerialPort) :
  exists d' evs, outTHR X b d = Ok tt d' evs.
Proof.
  unfold outTHR. unfold bind at 1. unfold get.
  destruct (truthy _); [do 2 eexists; reflexivity|].
  unfold bind, modify.
  destruct (transmitByte_runs X b
              (set_bLSR (JNum (bLSR d .& .~ (LSR_THRE .| LSR_TSRE))) (set_bTHR (JNum b) d)))
    as (ok & d2 & evs & E & _).
  rewrite E. destruct ok; cbn; do 2 eexists; reflexivity.
Qed.

Lemma outIER_runs (b : Z) (d : SerialPort) : exists d' evs, outIER b d = Ok tt d' evs.
Proof. unfold outIER. run_m. destruct (truthy _); do 2 eexists; reflexivity. Qed.

Lemma outMCR_runs (X : Externs) (b : Z) (d : SerialPort) :
  exists d' evs, outMCR X b d = Ok tt d' evs.
Proof.
  unfold outMCR. run_m.
  destruct (truthy _); cbn; [|do 2 eexists; reflexivity].
  destruct (updateStatus d); cbn; do 2 eexists; reflexivity.
Qed.

Lemma portOut_runs (X : Externs) (off b : Z) (d : SerialPort) :
  exists d' evs, portOut X off b d = Ok tt d' evs.
Proof.
  unfold portOut, aPortOutput.
  destruct off as [|[[|[]|]|[[]|[]|]|]|]; try (do 2 eexists; reflexivity);
    first [apply outTHR_runs | apply outIER_runs | apply outMCR_runs].
Qed.

Lemma port_writes_run (X : Externs) (ws : list (Z * Z)) (d : SerialPort) :
  exists d' evs, port_writes X ws d = Ok tt d' evs.
Proof.
  revert d. induction ws as [|[off b] rest IH]; intros d.
  - do 2 eexists. reflexivity.
  - destruct (portOut_runs X off b d) as (d1 & e1 & E1).
    destruct (IH d1) as (d2 & e2 & E2).
    exists d2, (e1 ++ e2). cbn [port_writes]. unfold bind. now rewrite E1, E2.
Qed.

(** C6: whatever was written to the ports of a device, saving its registers,
    restoring that snapshot into any other device and saving again gives the
    same snapshot, rbr first and the pending receive queue last; likewise
    through save and restore. *)
Theorem snapshot_round_trip (X : Externs) (d0 fresh : SerialPort) (ws : list (Z * Z)) :
  exists d evs,
    port_writes X ws d0 = Ok tt d evs /\
    saveRegisters d =
      [bRBR d; bTHR d; wDL d; bIER d; bIIR d; bLCR d; bMCR d; bLSR d; bMSR d; abReceive d] /\
    (exists d2,
       initState (Some (saveRegisters d)) fresh = Ok true d2 [] /\
       saveRegisters d2 = saveRegisters d) /\
    (exists d2,
       restore (save d) fresh = Ok true d2 [] /\
       save d2 = save d).
Proof.
  destruct (port_writes_run X ws d0) as (d & evs & E).
  exists d, evs. split; [exact E|]. split; [reflexivity|].
  split; eexists; split; reflexivity.
Qed.

(** restore succeeds on any input: initState takes the registers by position
    and never looks at the length. *)
Lemma initState_runs (data : option (list jsval)) (d : SerialPort) :
  exists d2,
    initState data d = Ok true d2 [] /\
    saveRegisters d2 =
      match data with
      | Some snap => map (js_index snap) (seq 0 10)
      | None => [JNum 0; JNum 0; JNum DL_DEFAULT; JNum 0; JNum IIR_NO_INT; JNum 0; JNum 0;
                 JNum (LSR_THRE .| LSR_TSRE); JNum (bMSRInit d); JArr []]
      end.
Proof. eexists. split; [reflexivity|]. destruct data; reflexivity. Qed.

Lemma initConnection_runs (X : Externs) (w : World) (fNull : bool) (d : SerialPort) :
  exists d' evs, initConnection X w fNull d = Ok tt d' evs.
Proof.
  unfold initConnection, status_unable. run_m.
  destruct (connection d); [do 2 eexists; reflexivity|].
  destruct (connectionParm w) as [[|c s]|]; try (do 2 eexists; reflexivity).
  destruct (split_arrow (String c s)) as [|p0 [|p1 [|p2 r]]]; try (do 2 eexists; reflexivity).
  destruct (negb _); [do 2 eexists; reflexivity|]. cbn.
  destruct (getComponentByID w (trim X p1)) as [target|]; [|do 2 eexists; reflexivity].
  destruct (comp_exports target) as [ex|]; [|do 2 eexists; reflexivity].
  destruct (exp_connect ex); cbn; destruct (exp_receiveData ex); cbn;
    do 2 eexists; reflexivity.
Qed.

(** C7 (as amended): restore reports success on every input; a register the
    buffer has no entry for is left undefined, and with no buffer at all the
    reset values are taken.  powerUp therefore never reports failure. *)
Theorem restore_always_succeeds (X : Externs) (w : World) (d : SerialPort)
  (data : list (list jsval)) :
  (exists d2,
     restore data d = Ok true d2 [] /\
     saveRegisters d2 =
       match nth_error data 0 with
       | Some snap => map (js_index snap) (seq 0 10)
       | None => [JNum 0; JNum 0; JNum DL_DEFAULT; JNum 0; JNum IIR_NO_INT; JNum 0; JNum 0;
                  JNum (LSR_THRE .| LSR_TSRE); JNum (bMSRInit d); JArr []]
       end) /\
  (forall fRepower, result_of (powerUp X w (Some data) fRepower d) = Some true).
Proof.
  split.
  - exact (initState_runs (nth_error data 0) d).
  - intros [|]; [reflexivity|]. unfold powerUp. cbn [negb]. unfold bind at 1, get.
    unfold bind at 1.
    destruct (initConnection_runs X w (fNullModem d) d) as (d1 & e1 & E1). rewrite E1.
    reflexivity.
Qed.

(** C7, as stated, fails: a three-entry buffer is restored with success. *)
Lemma restore_accepts_short_buffer :
  ~ (forall d data snap,
       nth_error data 0 = Some snap ->
       List.length snap <> 10%nat ->
       result_of (restore data d) <> Some true).
Proof.
  intros H.
  assert (Hlen : List.length [JNum 1; JNum 2; JNum 3] <> 10%nat) by discriminate.
  exact (H sample_port [[JNum 1; JNum 2; JNum 3]] [JNum 1; JNum 2; JNum 3]
           eq_refl Hlen eq_refl).
Qed.

(** ** Connection resolution *)

(** C9: with a connection in place, initConnection does nothing at all. *)
Theorem initConnection_idempotent
  (X : Externs) (w : World) (fNull : bool) (d : SerialPort) (peer : Component) :
  connection d = Some peer ->
  initConnection X w fNull d = Ok tt d [].
Proof. intros H. unfold initConnection. run_m. now rewrite H. Qed.

Lemma initConnection_idempotent_witness :
  connection sample_wired_port = Some sample_peer /\
  initConnection sample_externs sample_wired_world false sample_wired_port
    = Ok tt sample_wired_port [].
Proof.
  split; [reflexivity|].
  exact (initConnection_idempotent sample_externs sample_wired_world false
           sample_wired_port sample_peer eq_refl).
Defined.

(** ** The delta bits nobody sets *)

Lemma SerialPort_new_bMSRInit (X : Externs) (p : Parms) (d0 : SerialPort) :
  SerialPort_new X p = Some d0 -> bMSRInit d0 = MSR_CTS .| MSR_DSR.
Proof.
  unfold SerialPort_new. intros H.
  destruct (p_adapter p =? 1); [inversion H; reflexivity|].
  destruct (p_adapter p =? 2); [inversion H; reflexivity|discriminate].
Qed.

(** After reset, or a power-up without snapshot, MSR holds bMSRInit and the
    queue is empty. *)
Lemma reset_cells (d d' : SerialPort) (evs : list event) :
  reset d = Ok tt d' evs -> fixed_cells d' = (JNum (bMSRInit d), bMSRInit d, JArr []).
Proof. intros H. inversion H. reflexivity. Qed.

Lemma powerUp_cells (X : Externs) (w : World) (d d' : SerialPort) (r : bool)
  (evs : list event) :
  powerUp X w None false d = Ok r d' evs ->
  fixed_cells d' = (JNum (bMSRInit d), bMSRInit d, JArr []).
Proof.
  unfold powerUp. cbn [negb]. intros H.
  apply bind_Ok_inv in H. destruct H as (d0 & d1 & e1 & e2 & Hget & H & _).
  inversion Hget; subst d0 d1. clear Hget.
  apply bind_Ok_inv in H. destruct H as (u & d1 & e3 & e4 & Hc & H & _).
  apply initConnection_keeps_cells in Hc. injection Hc as _ Hi _.
  inversion H; subst. unfold fixed_cells. cbn. now rewrite Hi.
Qed.

Lemma exec_msr_invariant (X : Externs) (o : op) (d d' : SerialPort) (evs : list event) :
  exec X o d = Ok tt d' evs -> msr_invariant d -> msr_invariant d'.
Proof.
  intros H (Hinit & H2 & H3).
  destruct (is_msr_read o) eqn:Hr.
  { destruct o as [off| | | | | | | | |]; try discriminate Hr.
    assert (off = 6) as ->
      by (destruct off as [|[[|[]|]|[[]|[]|]|]|]; try discriminate Hr; reflexivity).
    cbn in H. inversion H. unfold msr_invariant. cbn.
    split; [exact Hinit|]. split; bits; assumption. }
  destruct (reinitialises o) eqn:Hi.
  { assert (Hk : fixed_cells d' = (JNum (bMSRInit d), bMSRInit d, JArr [])).
    { destruct o; try discriminate Hi.
      - destruct fRepower; [discriminate Hi|]. cbn in H.
        apply bind_Ok_inv in H. destruct H as (r & d1 & e1 & e2 & Hp & Hret & _).
        inversion Hret; subst. exact (powerUp_cells X w d d' r e1 Hp).
      - exact (reset_cells d d' evs H). }
    injection Hk as Hm Hi' _. unfold msr_invariant. rewrite Hm, Hi', Hinit.
    repeat split. }
  destruct o;
    try (pose proof (exec_keeps_msr X _ d d' evs H Hr Hi ltac:(discriminate)) as E;
         injection E as Em Ei; unfold msr_invariant; rewrite Em, Ei; auto).
  cbn in H. pose proof (receiveStatus_bMSR X pins d d' evs H) as Em. cbv zeta in Em.
  pose proof (receiveStatus_keeps_bMSRInit X pins _ _ _ _ H) as Ei.
  unfold msr_invariant. rewrite Em, Ei. split; [exact Hinit|].
  destruct (truthy (pins .& RS232_DSR_MASK X)), (truthy (pins .& RS232_CTS_MASK X));
    split; bits; assumption.
Qed.

(** C10: however the port is driven after a power-up without snapshot, the
    TERI and DRLSD bits of MSR stay clear. *)
Theorem TERI_DRLSD_never_set (X : Externs) (d : SerialPort) :
  reachable X d ->
  bit (bMSR d) 2 = false /\ bit (bMSR d) 3 = false.
Proof.
  intros H. cut (msr_invariant d); [intros (_ & H2 & H3); auto|].
  induction H as [p d0 d w evs Hnew Hp | o d d' evs Hr IH Hstep].
  - pose proof (powerUp_cells X w d0 d true evs Hp) as Hc.
    injection Hc as Hm Hi _.
    rewrite (SerialPort_new_bMSRInit X p d0 Hnew) in Hm, Hi.
    unfold msr_invariant. rewrite Hm, Hi. repeat split.
  - exact (exec_msr_invariant X o d d' evs Hstep IH).
Qed.

Lemma busy_port_reachable : reachable sample_externs busy_port.
Proof.
  apply (reach_step sample_externs (OpIn 6) status_port busy_port []); [|reflexivity].
  apply (reach_step sample_externs (OpReceiveStatus 0x60) sample_port status_port
           [EvClearIRR 4]); [|reflexivity].
  apply (reach_step sample_externs (OpInitBus true) sample_powered sample_port []);
    [|reflexivity].
  apply (reach_powerUp sample_externs sample_parms sample_new sample_powered sample_world []);
    reflexivity.
Defined.

Lemma TERI_DRLSD_never_set_witness :
  reachable sample_externs busy_port /\
  bMSR busy_port = JNum 0x30 /\
  bit (bMSR busy_port) 2 = false /\ bit (bMSR busy_port) 3 = false.
Proof.
  split; [exact busy_port_reachable|]. split; [reflexivity|].
  exact (TERI_DRLSD_never_set sample_externs busy_port busy_port_reachable).
Defined.

(** ** After a power-up no step fails *)

Opaque updateIRR.

Lemma staged_has_queue (d : SerialPort) : has_queue d -> has_queue (staged d).
Proof.
  intros [q Hq]. unfold staged. rewrite Hq.
  destruct q as [|b rest]; [exists []; exact Hq|].
  destruct (bit (bLSR d) 0); [exists (b :: rest); exact Hq|].
  exists rest. reflexivity.
Qed.

Lemma advanceRBR_runs (d : SerialPort) :
  has_queue d ->
  exists d' evs, advanceRBR d = Ok tt d' evs /\ has_queue d'.
Proof.
  intros Hq. pose proof (staged_has_queue d Hq) as Hs. destruct Hq as [q Hq].
  rewrite (advanceRBR_staged d q Hq).
  destruct (updateIRR_sets_bIIR (staged d)) as (iir & evs & E).
  rewrite E. do 2 eexists. split; [reflexivity|]. exact Hs.
Qed.

Opaque advanceRBR.

Lemma inRBR_runs (d : SerialPort) :
  has_queue d ->
  exists b d' evs, inRBR d = Ok b d' evs /\ has_queue d'.
Proof.
  intros Hq. destruct (inRBR_clears_then_stages d) as [_ E]. rewrite E.
  destruct (advanceRBR_runs (set_bLSR (JNum (bLSR d .& .~ LSR_DR)) d) Hq)
    as (d' & evs & E' & Hq').
  rewrite E'. do 3 eexists. split; [reflexivity|exact Hq'].
Qed.

Lemma receiveData_runs (data : rxdata) (d : SerialPort) :
  has_queue d ->
  exists d' evs, receiveData data d = Ok true d' evs /\ has_queue d'.
Proof.
  intros [q Hq]. rewrite (receiveData_appends data d q Hq).
  destruct (advanceRBR_runs (set_abReceive (JArr (q ++ rx_bytes data)) d))
    as (d' & evs & E' & Hq'); [eexists; reflexivity|].
  rewrite E'. do 2 eexists. split; [reflexivity|exact Hq'].
Qed.

Lemma receiveStatus_runs (X : Externs) (pins : Z) (d : SerialPort) :
  has_queue d ->
  exists d' evs, receiveStatus X pins d = Ok tt d' evs /\ has_queue d'.
Proof.
  intros Hq. unfold receiveStatus. run_m.
  destruct (loose_neq _ _); cbn.
  - match goal with |- context [updateIRR ?s] =>
      destruct (updateIRR_sets_bIIR s) as (iir & evs & E); rewrite E end.
    do 2 eexists. split; [reflexivity|exact Hq].
  - do 2 eexists. split; [reflexivity|exact Hq].
Qed.

Transparent updateIRR advanceRBR.

Lemma portIn_runs (off : Z) (d : SerialPort) :
  has_queue d ->
  exists d' evs, portIn off d = Ok tt d' evs /\ has_queue d'.
Proof.
  intros Hq. unfold portIn, aPortInput.
  destruct off as [|[[|[]|]|[[]|[]|]|]|];
    try (do 2 eexists; split; [reflexivity|exact Hq]).
  destruct (inRBR_runs d Hq) as (b & d' & evs & E & Hq').
  unfold bind. rewrite E. do 2 eexists. split; [reflexivity|exact Hq'].
Qed.

Lemma has_queue_cells (d d' : SerialPort) :
  fixed_cells d' = fixed_cells d -> has_queue d -> has_queue d'.
Proof. intros E [q Hq]. injection E as _ _ Ea. exists q. now rewrite Ea. Qed.

(** Once the queue exists every step runs to completion and keeps it. *)
Lemma exec_runs (X : Externs) (o : op) (d : SerialPort) :
  has_queue d ->
  exists d' evs, exec X o d = Ok tt d' evs /\ has_queue d'.
Proof.
  intros Hq. destruct o; cbn [exec].
  - exact (portIn_runs off d Hq).
  - destruct (portOut_runs X off bOut d) as (d' & evs & E).
    exists d', evs. split; [exact E|].
    exact (has_queue_cells d d' (portOut_keeps_cells X off bOut _ _ _ _ E) Hq).
  - destruct (receiveData_runs data d Hq) as (d' & evs & E & Hq').
    unfold bind. rewrite E. do 2 eexists. split; [reflexivity|exact Hq'].
  - exact (receiveStatus_runs X pins d Hq).
  - destruct (initConnection_runs X w fNull d) as (d' & evs & E).
    exists d', evs. split; [exact E|].
    exact (has_queue_cells d d' (initConnection_keeps_cells X w fNull _ _ _ _ E) Hq).
  - unfold attachMouse. run_m. destruct (connection d); cbn;
      [|destruct (String.eqb id (idComponent d)); cbn];
      do 2 eexists; (split; [reflexivity|exact Hq]).
  - unfold setBinding. run_m. destruct (String.eqb sBinding sIOBuffer); cbn;
      do 2 eexists; (split; [reflexivity|exact Hq]).
  - do 2 eexists. split; [reflexivity|exact Hq].
  - destruct fRepower; [do 2 eexists; split; [reflexivity|exact Hq]|].
    unfold powerUp. cbn [negb]. unfold bind at 1 2, get. unfold bind at 1.
    destruct (initConnection_runs X w (fNullModem d) d) as (d' & evs & E). rewrite E.
    do 2 eexists. split; [reflexivity|]. exists []. reflexivity.
  - do 2 eexists. split; [reflexivity|]. exists []. reflexivity.
Qed.

Lemma reachable_has_queue (X : Externs) (d : SerialPort) : reachable X d -> has_queue d.
Proof.
  induction 1 as [p d0 d w evs Hnew Hp | o d d' evs Hr IH Hstep].
  - pose proof (powerUp_cells X w d0 d true evs Hp) as Hc.
    injection Hc as _ _ Ha. exists []. exact Ha.
  - destruct (exec_runs X o d IH) as (d2 & e2 & E & Hq).
    rewrite E in Hstep. inversion Hstep; subst. exact Hq.
Qed.

(** No TypeError arises in a reachable state, whatever is asked next. *)
Lemma reachable_never_throws (X : Externs) (o : op) (d : SerialPort) :
  reachable X d -> exists d' evs, exec X o d = Ok tt d' evs /\ reachable X d'.
Proof.
  intros Hr. destruct (exec_runs X o d (reachable_has_queue X d Hr)) as (d' & evs & E & _).
  exists d', evs. split; [exact E|]. exact (reach_step X o d d' evs Hr E).
Qed.

(** * Further properties *)

(** ** Delivery and reading, end to end *)

Lemma updateIRR_calls (d : SerialPort) :
  exists iir, updateIRR d = Ok tt (set_bIIR (JNum iir) d) (irq_call d).
Proof.
  unfold updateIRR, irq_call, rbr_pending, msr_pending. run_m.
  rewrite truthy_DR, truthy_RBR_AVAIL, truthy_delta_bits, truthy_MSR_DELTA.
  destruct (bit (bLSR d) 0 && bit (bIER d) 0); cbn.
  - change (IIR_INT_RBR >=? 0) with true. cbn.
    destruct (chipset d && truthy (nIRQ d)); eexists; reflexivity.
  - destruct ((bit (bMSR d) 0 || bit (bMSR d) 1) && bit (bIER d) 3); cbn.
    + change (IIR_INT_MSR >=? 0) with true. cbn.
      destruct (chipset d && truthy (nIRQ d)); eexists; reflexivity.
    + destruct (chipset d && truthy (nIRQ d)); eexists; reflexivity.
Qed.

Lemma advanceRBR_calls (d : SerialPort) (q : list Z) :
  abReceive d = JArr q ->
  exists iir, advanceRBR d = Ok tt (set_bIIR (JNum iir) (staged d)) (irq_call (staged d)).
Proof.
  intros Hq. rewrite (advanceRBR_staged d q Hq). apply updateIRR_calls.
Qed.

Lemma pending_set_bIIR (v : jsval) (d : SerialPort) (P : list Z) :
  pending d P -> pending (set_bIIR v d) P.
Proof. intros H. exact H. Qed.

(** Staging on a state whose DR is clear and whose queue is [q]. *)
Lemma staged_pending (d : SerialPort) (q : list Z) :
  abReceive d = JArr q -> bit (bLSR d) 0 = false -> pending (staged d) q.
Proof.
  intros Hq Hdr. unfold staged. rewrite Hq. destruct q as [|b rest].
  - exists []. split; [exact Hq|]. right. auto.
  - rewrite Hdr. exists rest. split; [reflexivity|]. left. split.
    + cbn. bits. reflexivity.
    + exists b. split; reflexivity.
Qed.

Lemma receiveData_pending (data : rxdata) (d : SerialPort) (P : list Z) :
  pending d P ->
  exists d',
    receiveData data d = Ok true d' (irq_call d') /\ pending d' (P ++ rx_bytes data) /\
    bIER d' = bIER d /\ bMSR d' = bMSR d /\ chipset d' = chipset d /\ nIRQ d' = nIRQ d.
Proof.
  intros (q & Hq & HP).
  rewrite (receiveData_appends data d q Hq).
  set (d0 := set_abReceive (JArr (q ++ rx_bytes data)) d).
  destruct (advanceRBR_calls d0 (q ++ rx_bytes data) eq_refl) as (iir & E).
  rewrite E. exists (set_bIIR (JNum iir) (staged d0)). split; [reflexivity|].
  assert (Hk : bIER (staged d0) = bIER d /\ bMSR (staged d0) = bMSR d /\
               chipset (staged d0) = chipset d /\ nIRQ (staged d0) = nIRQ d).
  { unfold staged. destruct (abReceive d0) as [| |[|b rest]]; try (repeat split; reflexivity).
    destruct (bit (bLSR d0) 0); repeat split; reflexivity. }
  split; [|exact Hk]. apply pending_set_bIIR.
  destruct HP as [(Hdr & b & Hb & ->) | (Hdr & -> & ->)].
  - assert (Hs : staged d0 = d0).
    { unfold staged. cbn [abReceive d0 set_abReceive].
      destruct (q ++ rx_bytes data); [reflexivity|].
      change (bLSR d0) with (bLSR d). now rewrite Hdr. }
    rewrite Hs. exists (q ++ rx_bytes data). split; [reflexivity|]. left.
    split; [exact Hdr|]. exists b. split; [exact Hb|reflexivity].
  - cbn [app]. apply staged_pending; [reflexivity|exact Hdr].
Qed.

Lemma receive_all_pending (ds : list rxdata) (d : SerialPort) (P : list Z) :
  pending d P ->
  exists d' evs,
    receive_all ds d = Ok tt d' evs /\ pending d' (P ++ List.concat (map rx_bytes ds)).
Proof.
  revert d P. induction ds as [|data rest IH]; intros d P HP.
  - exists d, []. split; [reflexivity|]. cbn. now rewrite app_nil_r.
  - destruct (receiveData_pending data d P HP) as (d1 & E1 & H1 & _).
    destruct (IH d1 _ H1) as (d2 & e2 & E2 & H2).
    exists d2, (irq_call d1 ++ e2). cbn [receive_all]. unfold bind. rewrite E1, E2.
    split; [reflexivity|]. cbn. now rewrite app_assoc.
Qed.

(** One read of offset 0: what is handed out, what is left, and what the
    interrupt controller is told. *)
Lemma inRBR_pending (d : SerialPort) (P : list Z) :
  pending d P ->
  exists d',
    inRBR d = Ok (if bit (bLCR d) 7 then JNum (wDL d .& 0xff) else bRBR d) d'
                 (irq_call d') /\
    pending d' (tl P) /\
    bLCR d' = bLCR d /\ bIER d' = bIER d /\ bMSR d' = bMSR d /\
    chipset d' = chipset d /\ nIRQ d' = nIRQ d.
Proof.
  intros (q & Hq & HP).
  destruct (inRBR_clears_then_stages d) as [Hclr E]. cbv zeta in Hclr, E. rewrite E.
  set (d0 := set_bLSR (JNum (bLSR d .& .~ LSR_DR)) d) in *.
  destruct (advanceRBR_calls d0 q Hq) as (iir & E'). rewrite E'.
  exists (set_bIIR (JNum iir) (staged d0)). split; [reflexivity|].
  assert (Hp : pending (staged d0) q) by (apply staged_pending; assumption).
  assert (Hk : bLCR (staged d0) = bLCR d /\ bIER (staged d0) = bIER d /\
               bMSR (staged d0) = bMSR d /\ chipset (staged d0) = chipset d /\
               nIRQ (staged d0) = nIRQ d).
  { unfold staged. destruct (abReceive d0) as [| |[|b rest]]; try (repeat split; reflexivity).
    destruct (bit (bLSR d0) 0); repeat split; reflexivity. }
  split; [|exact Hk].
  apply pending_set_bIIR.
  destruct HP as [(_ & b & _ & ->) | (_ & -> & ->)]; exact Hp.
Qed.

Lemma receive_all_keeps_bLCR (ds : list rxdata) : keeps bLCR (receive_all ds).
Proof.
  induction ds as [|data rest IH]; cbn [receive_all]; [apply keeps_ret|].
  apply keeps_bind; [|intros; exact IH].
  unfold receiveData, advanceRBR, abReceive_nonempty, shift_into_RBR, updateIRR.
  keeps_auto. induction s; cbn [push_all]; unfold push; keeps_auto.
Qed.

Lemma read_RBR_pending (P : list Z) (d : SerialPort) :
  pending d P ->
  bit (bLCR d) 7 = false ->
  exists d' evs,
    read_RBR (List.length P) d = Ok (map JNum P) d' evs /\ pending d' [].
Proof.
  revert d. induction P as [|b P' IH]; intros d HP Hdlab.
  - exists d, []. split; [reflexivity|exact HP].
  - destruct (inRBR_pending d (b :: P') HP) as (d1 & E1 & H1 & Hlcr & _).
    rewrite Hdlab in E1.
    assert (Hb : bRBR d = JNum b).
    { destruct HP as (q & _ & [(_ & b' & Hb' & Heq) | (_ & _ & Heq)]); [|discriminate].
      injection Heq as -> _. exact Hb'. }
    rewrite Hb in E1.
    destruct (IH d1 H1) as (d2 & e2 & E2 & H2); [now rewrite Hlcr|].
    exists d2, (irq_call d1 ++ e2).
    cbn [read_RBR List.length map]. unfold bind, ret. rewrite E1, E2.
    split; [|exact H2]. now rewrite app_nil_r.
Qed.

(** X1: bytes delivered to receiveData, in whatever portions and while
    whatever is still waiting, are handed to software by reads of offset 0
    (DLAB clear) in the order of arrival, none lost and none repeated; after
    that nothing is staged or queued. *)
Theorem received_bytes_read_in_order (d : SerialPort) (P : list Z) (ds : list rxdata) :
  pending d P ->
  bit (bLCR d) 7 = false ->
  exists d1 evs1 d2 evs2,
    receive_all ds d = Ok tt d1 evs1 /\
    read_RBR (List.length (P ++ List.concat (map rx_bytes ds))) d1 =
      Ok (map JNum (P ++ List.concat (map rx_bytes ds))) d2 evs2 /\
    pending d2 [].
Proof.
  intros HP Hdlab.
  destruct (receive_all_pending ds d P HP) as (d1 & e1 & E1 & H1).
  assert (Hl : bLCR d1 = bLCR d) by exact (receive_all_keeps_bLCR ds _ _ _ _ E1).
  destruct (read_RBR_pending _ d1 H1) as (d2 & e2 & E2 & H2); [now rewrite Hl|].
  exists d1, e1, d2, e2. auto.
Qed.

Lemma received_bytes_read_in_order_witness :
  pending sample_port [] /\
  bit (bLCR sample_port) 7 = false /\
  exists d1 evs1 d2 evs2,
    receive_all [RxString [0x48; 0x69]; RxNumber 0x21; RxArray [0x0D; 0x0A]] sample_port
      = Ok tt d1 evs1 /\
    read_RBR 5 d1 = Ok [JNum 0x48; JNum 0x69; JNum 0x21; JNum 0x0D; JNum 0x0A] d2 evs2 /\
    pending d2 [].
Proof.
  assert (Hp : pending sample_port []).
  { exists []. split; [reflexivity|]. right. repeat split. }
  split; [exact Hp|]. split; [reflexivity|].
  exact (received_bytes_read_in_order sample_port []
           [RxString [0x48; 0x69]; RxNumber 0x21; RxArray [0x0D; 0x0A]] Hp eq_refl).
Defined.

(** X2: a read of offset 0 while DLAB is set returns the divisor latch's low
    byte and still consumes the staged byte: that byte is gone, and what is
    left waiting is what was queued behind it. *)
Theorem DLAB_read_drops_staged_byte (d : SerialPort) (b : Z) (P : list Z) :
  pending d (b :: P) ->
  bit (bLCR d) 7 = true ->
  exists d' evs,
    inRBR d = Ok (JNum (wDL d .& 0xff)) d' evs /\
    pending d' P.
Proof.
  intros HP Hdlab.
  destruct (inRBR_pending d (b :: P) HP) as (d1 & E1 & H1 & _).
  rewrite Hdlab in E1. exists d1, (irq_call d1). split; [exact E1|exact H1].
Qed.

Lemma DLAB_read_drops_staged_byte_witness :
  pending dlab_ready_port [0x10; 0x20] /\
  bit (bLCR dlab_ready_port) 7 = true /\
  exists d' evs,
    inRBR dlab_ready_port = Ok (JNum 0x80) d' evs /\ pending d' [0x20].
Proof.
  assert (Hp : pending dlab_ready_port [0x10; 0x20]).
  { exists [0x20]. split; [reflexivity|]. left. split; [reflexivity|].
    exists 0x10. split; reflexivity. }
  split; [exact Hp|]. split; [reflexivity|].
  exact (DLAB_read_drops_staged_byte dlab_ready_port 0x10 [0x20] Hp eq_refl).
Defined.

Lemma irq_call_pending (d : SerialPort) (P : list Z) :
  pending d P ->
  chipset d = true -> truthy (nIRQ d) = true ->
  bit (bIER d) 0 = true -> msr_pending d = false ->
  irq_call d = [match P with [] => EvClearIRR (nIRQ d) | _ => EvSetIRR (nIRQ d) 100 end].
Proof.
  intros (q & _ & HP) Hc Hn Hi Hm. unfold irq_call, rbr_pending.
  rewrite Hc, Hn, Hi, Hm. cbn.
  destruct HP as [(Hdr & b & _ & ->) | (Hdr & _ & ->)]; rewrite Hdr; reflexivity.
Qed.

(** X3: with receive interrupts enabled (and no modem-status interrupt
    pending) the IRQ follows the data: every delivery and every read of
    offset 0 ends with the IRQ asserted if a byte is then waiting, and with
    the IRQ cleared if none is. *)
Theorem irq_follows_data (d : SerialPort) (P : list Z) :
  pending d P ->
  chipset d = true -> truthy (nIRQ d) = true ->
  bit (bIER d) 0 = true -> msr_pending d = false ->
  (forall data, exists d',
     receiveData data d =
       Ok true d' [match P ++ rx_bytes data with
                   | [] => EvClearIRR (nIRQ d)
                   | _ => EvSetIRR (nIRQ d) 100
                   end] /\
     pending d' (P ++ rx_bytes data)) /\
  (exists b d',
     inRBR d = Ok b d' [match tl P with
                        | [] => EvClearIRR (nIRQ d)
                        | _ => EvSetIRR (nIRQ d) 100
                        end] /\
     pending d' (tl P)).
Proof.
  intros HP Hc Hn Hi Hm. split.
  - intros data.
    destruct (receiveData_pending data d P HP) as (d' & E & H' & Hier & Hmsr & Hch & Hirq).
    exists d'. split; [|exact H'].
    rewrite E. f_equal.
    rewrite (irq_call_pending d' _ H'), Hirq; try reflexivity.
    + now rewrite Hch.
    + now rewrite Hirq.
    + now rewrite Hier.
    + unfold msr_pending in *. now rewrite Hmsr, Hier.
  - destruct (inRBR_pending d P HP) as (d' & E & H' & _ & Hier & Hmsr & Hch & Hirq).
    do 2 eexists. split; [|exact H'].
    rewrite E. f_equal.
    rewrite (irq_call_pending d' _ H'), Hirq; try reflexivity.
    + now rewrite Hch.
    + now rewrite Hirq.
    + now rewrite Hier.
    + unfold msr_pending in *. now rewrite Hmsr, Hier.
Qed.

Lemma irq_follows_data_witness :
  pending rx_irq_port [] /\
  (exists d', receiveData (RxNumber 0x41) rx_irq_port = Ok true d' [EvSetIRR 4 100] /\
              pending d' [0x41]) /\
  (exists b d', inRBR rx_irq_port = Ok b d' [EvClearIRR 4] /\ pending d' []).
Proof.
  assert (Hp : pending rx_irq_port []).
  { exists []. split; [reflexivity|]. right. repeat split. }
  split; [exact Hp|].
  destruct (irq_follows_data rx_irq_port [] Hp eq_refl eq_refl eq_refl eq_refl) as [Hr Hi].
  split; [exact (Hr (RxNumber 0x41))|exact Hi].
Defined.

(** ** Register values after a power-up *)

Lemma updateIRR_tidy (d d' : SerialPort) (evs : list event) :
  updateIRR d = Ok tt d' evs -> tidy d -> tidy d'.
Proof.
  unfold updateIRR. run_m. intros H [Hi Hl].
  destruct (truthy (bLSR d .& LSR_DR) && truthy (bIER d .& IER_RBR_AVAIL)); cbn in H.
  - change (IIR_INT_RBR >=? 0) with true in H. cbn in H.
    destruct (chipset d && truthy (nIRQ d)); inversion H; subst; (split; [|exact Hl]);
      cbn; destruct Hi as [-> | [-> | [-> | ->]]]; vm_compute; auto.
  - destruct (truthy (bMSR d .& (MSR_DCTS .| MSR_DDSR)) && truthy (bIER d .& IER_MSR_DELTA));
      cbn in H.
    + change (IIR_INT_MSR >=? 0) with true in H. cbn in H.
      destruct (chipset d && truthy (nIRQ d)); inversion H; subst; (split; [|exact Hl]);
        cbn; destruct Hi as [-> | [-> | [-> | ->]]]; vm_compute; auto.
    + destruct (chipset d && truthy (nIRQ d)); inversion H; subst; (split; [|exact Hl]);
        cbn; destruct Hi as [-> | [-> | [-> | ->]]]; vm_compute; auto.
Qed.

Lemma staged_tidy (d : SerialPort) : tidy d -> tidy (staged d).
Proof.
  intros [Hi Hl]. unfold staged.
  destruct (abReceive d) as [| |[|b rest]]; try (split; assumption).
  destruct (bit (bLSR d) 0); [split; assumption|].
  split; [exact Hi|]. cbn.
  destruct Hl as [-> | [-> | [-> | ->]]]; vm_compute; auto.
Qed.

Lemma advanceRBR_tidy (d d' : SerialPort) (evs : list event) :
  has_queue d -> advanceRBR d = Ok tt d' evs -> tidy d -> tidy d'.
Proof.
  intros [q Hq] H Ht. rewrite (advanceRBR_staged d q Hq) in H.
  exact (updateIRR_tidy _ _ _ H (staged_tidy d Ht)).
Qed.

Lemma inRBR_tidy (d d' : SerialPort) (b : jsval) (evs : list event) :
  has_queue d -> inRBR d = Ok b d' evs -> tidy d -> tidy d'.
Proof.
  intros Hq H [Hi Hl]. destruct (inRBR_clears_then_stages d) as [_ E]. cbv zeta in E.
  rewrite E in H.
  destruct (advanceRBR _) as [|u d1 e1] eqn:Ea; [discriminate|].
  inversion H; subst. destruct u.
  refine (advanceRBR_tidy _ _ _ _ Ea _); [exact Hq|].
  split; [exact Hi|]. cbn.
  destruct Hl as [-> | [-> | [-> | ->]]]; vm_compute; auto.
Qed.

Lemma receiveData_tidy (data : rxdata) (d d' : SerialPort) (r : bool) (evs : list event) :
  has_queue d -> receiveData data d = Ok r d' evs -> tidy d -> tidy d'.
Proof.
  intros [q Hq] H Ht. rewrite (receiveData_appends data d q Hq) in H.
  destruct (advanceRBR _) as [|u d1 e1] eqn:Ea; [discriminate|].
  inversion H; subst. destruct u.
  refine (advanceRBR_tidy _ _ _ _ Ea Ht). eexists. reflexivity.
Qed.

Lemma receiveStatus_tidy (X : Externs) (pins : Z) (d d' : SerialPort) (evs : list event) :
  receiveStatus X pins d = Ok tt d' evs -> tidy d -> tidy d'.
Proof.
  unfold receiveStatus. intros H Ht.
  apply bind_Ok_inv in H. destruct H as (d0 & d1 & e1 & e2 & Hget & H & _).
  inversion Hget; subst d0 d1. clear Hget. cbv zeta in H.
  apply bind_Ok_inv in H. destruct H as (u & d1 & e3 & e4 & Hmod & H & _).
  inversion Hmod; subst d1.
  destruct (loose_neq _ _); cbn [when] in H.
  - exact (updateIRR_tidy _ _ _ H Ht).
  - inversion H; subst. exact Ht.
Qed.

Lemma transmitByte_keeps_irq_cells (X : Externs) (b : Z) : keeps irq_cells (transmitByte X b).
Proof. unfold transmitByte. keeps_auto. Qed.

Lemma outTHR_tidy (X : Externs) (b : Z) (d d' : SerialPort) (evs : list event) :
  outTHR X b d = Ok tt d' evs -> tidy d -> tidy d'.
Proof.
  unfold outTHR. intros H [Hi Hl].
  apply bind_Ok_inv in H. destruct H as (d0 & d1 & e1 & e2 & Hget & H & _).
  inversion Hget; subst d0 d1. clear Hget.
  destruct (truthy (bLCR d .& LCR_DLAB)).
  - inversion H; subst. split; assumption.
  - apply bind_Ok_inv in H. destruct H as (u & d1 & e3 & e4 & Hmod & H & _).
    inversion Hmod; subst d1. clear Hmod.
    apply bind_Ok_inv in H. destruct H as (u' & d1 & e5 & e6 & Hmod & H & _).
    inversion Hmod; subst d1. clear Hmod.
    apply bind_Ok_inv in H. destruct H as (ok & d2 & e7 & e8 & Htx & H & _).
    apply transmitByte_keeps_irq_cells in Htx. injection Htx as Hi2 Hl2.
    cbn in Hi2, Hl2.
    destruct ok; cbn [when] in H; inversion H; subst; split; cbn; rewrite ?Hi2, ?Hl2;
      try exact Hi; destruct Hl as [-> | [-> | [-> | ->]]]; vm_compute; auto.
Qed.

Lemma portOut_tidy (X : Externs) (off b : Z) (d d' : SerialPort) (evs : list event) :
  portOut X off b d = Ok tt d' evs -> tidy d -> tidy d'.
Proof.
  unfold portOut, aPortOutput. intros H Ht.
  destruct off as [|[[|[]|]|[[]|[]|]|]|];
    try (inversion H; subst; exact Ht);
    try exact (outTHR_tidy X b d d' evs H Ht).
  - assert (K : keeps irq_cells (outMCR X b)) by (unfold outMCR; keeps_auto).
    apply K in H. injection H as Hi Hl. unfold tidy. rewrite Hi, Hl. exact Ht.
  - assert (K : keeps irq_cells (outIER b)) by (unfold outIER; keeps_auto).
    apply K in H. injection H as Hi Hl. unfold tidy. rewrite Hi, Hl. exact Ht.
Qed.

Lemma reset_tidy (d d' : SerialPort) (evs : list event) :
  reset d = Ok tt d' evs -> tidy d'.
Proof. intros H. inversion H. split; vm_compute; auto. Qed.

Lemma powerUp_tidy (X : Externs) (w : World) (d d' : SerialPort) (r : bool)
  (evs : list event) :
  powerUp X w None false d = Ok r d' evs -> tidy d'.
Proof.
  unfold powerUp. cbn [negb]. intros H.
  apply bind_Ok_inv in H. destruct H as (d0 & d1 & e1 & e2 & Hget & H & _).
  inversion Hget; subst d0 d1. clear Hget.
  apply bind_Ok_inv in H. destruct H as (u & d1 & e3 & e4 & _ & H & _).
  inversion H; subst. split; vm_compute; auto.
Qed.

Lemma exec_tidy (X : Externs) (o : op) (d d' : SerialPort) (evs : list event) :
  has_queue d -> exec X o d = Ok tt d' evs -> tidy d -> tidy d'.
Proof.
  intros Hq H Ht. destruct o; cbn [exec] in H.
  - unfold portIn, aPortInput in H.
    destruct off as [|[[|[]|]|[[]|[]|]|]|]; try (inversion H; subst; exact Ht).
    apply bind_Ok_inv in H. destruct H as (b & d1 & e1 & e2 & Hin & H & _).
    inversion H; subst. exact (inRBR_tidy _ _ _ _ Hq Hin Ht).
  - exact (portOut_tidy X off bOut d d' evs H Ht).
  - apply bind_Ok_inv in H. destruct H as (b & d1 & e1 & e2 & Hin & H & _).
    inversion H; subst. exact (receiveData_tidy _ _ _ _ _ Hq Hin Ht).
  - exact (receiveStatus_tidy X pins d d' evs H Ht).
  - assert (K : keeps irq_cells (initConnection X w fNull))
      by (unfold initConnection, status_unable; keeps_auto).
    apply K in H. injection H as Hi Hl. unfold tidy. rewrite Hi, Hl. exact Ht.
  - assert (K : keeps irq_cells (attachMouse id mouse fnUpdate ;; ret tt))
      by (unfold attachMouse; keeps_auto).
    apply K in H. injection H as Hi Hl. unfold tidy. rewrite Hi, Hl. exact Ht.
  - assert (K : keeps irq_cells (setBinding sBinding control ;; ret tt))
      by (unfold setBinding; keeps_auto).
    apply K in H. injection H as Hi Hl. unfold tidy. rewrite Hi, Hl. exact Ht.
  - inversion H; subst. exact Ht.
  - destruct fRepower; [inversion H; subst; exact Ht|].
    apply bind_Ok_inv in H. destruct H as (r & d1 & e1 & e2 & Hp & H & _).
    inversion H; subst. exact (powerUp_tidy X w d d' r e1 Hp).
  - exact (reset_tidy d d' evs H).
Qed.

Lemma reachable_tidy (X : Externs) (d : SerialPort) : reachable X d -> tidy d.
Proof.
  induction 1 as [p d0 d w evs Hnew Hp | o d d' evs Hr IH Hstep].
  - exact (powerUp_tidy X w d0 d true evs Hp).
  - exact (exec_tidy X o d d' evs (reachable_has_queue X d Hr) Hstep IH).
Qed.

(** X4: after a power-up IIR only ever reads 0 (modem status pending),
    4 (receive data pending), 1 or 5 (nothing pending; 5 keeps the code bits
    of the receive interrupt that went away): its bits 3 to 7 are never set,
    and neither is the line-status code 6 or the transmitter code 2. *)
Theorem IIR_values (X : Externs) (d : SerialPort) :
  reachable X d ->
  bIIR d = JNum 0 \/ bIIR d = JNum 1 \/ bIIR d = JNum 4 \/ bIIR d = JNum 5.
Proof. intros H. exact (proj1 (reachable_tidy X d H)). Qed.

(** X5: after a power-up LSR only ever reads 0x00, 0x01, 0x60 or 0x61: the
    overrun, parity, framing and break bits are never set, and THRE and TSRE
    are always set or clear together. *)
Theorem LSR_values (X : Externs) (d : SerialPort) :
  reachable X d ->
  bLSR d = JNum 0x00 \/ bLSR d = JNum 0x01 \/ bLSR d = JNum 0x60 \/ bLSR d = JNum 0x61.
Proof. intros H. exact (proj2 (reachable_tidy X d H)). Qed.

Lemma drained_port_reachable : reachable sample_externs drained_port.
Proof.
  apply (reach_step sample_externs (OpIn 0) filled_port drained_port [EvClearIRR 4]);
    [|reflexivity].
  apply (reach_step sample_externs (OpReceiveData (RxNumber 0x41)) rx_irq_port filled_port
           [EvSetIRR 4 100]); [|reflexivity].
  apply (reach_step sample_externs (OpOut 1 IER_RBR_AVAIL) sample_port rx_irq_port []);
    [|reflexivity].
  apply (reach_step sample_externs (OpInitBus true) sample_powered sample_port []);
    [|reflexivity].
  apply (reach_powerUp sample_externs sample_parms sample_new sample_powered sample_world []);
    reflexivity.
Defined.

Lemma IIR_values_witness :
  reachable sample_externs drained_port /\ bIIR drained_port = JNum 5.
Proof.
  split; [exact drained_port_reachable|].
  destruct (IIR_values sample_externs drained_port drained_port_reachable)
    as [H | [H | [H | H]]]; try discriminate H. exact H.
Defined.

Lemma LSR_values_witness :
  reachable sample_externs drained_port /\ bLSR drained_port = JNum 0x60.
Proof.
  split; [exact drained_port_reachable|].
  destruct (LSR_values sample_externs drained_port drained_port_reachable)
    as [H | [H | [H | H]]]; try discriminate H. exact H.
Defined.

(** ** Control lines coming in *)

Opaque updateIRR.

(** X6: receiveStatus never fails; afterwards the CTS and DSR bits of MSR
    show the pins as delivered, a delta bit is on if it was on before or its
    line was delivered high (whether or not the line was high already), a
    line that drops raises no delta, and TERI, DRLSD, RI and RLSD are as
    before. *)
Theorem receiveStatus_levels_and_deltas (X : Externs) (pins : Z) (d : SerialPort) :
  exists d' evs,
    receiveStatus X pins d = Ok tt d' evs /\
    bit (bMSR d') 4 = truthy (pins .& RS232_CTS_MASK X) /\
    bit (bMSR d') 5 = truthy (pins .& RS232_DSR_MASK X) /\
    bit (bMSR d') 0 = bit (bMSR d) 0 || truthy (pins .& RS232_CTS_MASK X) /\
    bit (bMSR d') 1 = bit (bMSR d) 1 || truthy (pins .& RS232_DSR_MASK X) /\
    bit (bMSR d') 2 = bit (bMSR d) 2 /\ bit (bMSR d') 3 = bit (bMSR d) 3 /\
    bit (bMSR d') 6 = bit (bMSR d) 6 /\ bit (bMSR d') 7 = bit (bMSR d) 7.
Proof.
  assert (Hrun : exists d' evs, receiveStatus X pins d = Ok tt d' evs).
  { unfold receiveStatus. run_m. destruct (loose_neq _ _); cbn.
    - match goal with |- context [updateIRR ?s] =>
        destruct (updateIRR_sets_bIIR s) as (iir & evs & E); rewrite E end.
      do 2 eexists. reflexivity.
    - do 2 eexists. reflexivity. }
  destruct Hrun as (d' & evs & E). exists d', evs. split; [exact E|].
  pose proof (receiveStatus_bMSR X pins d d' evs E) as Hm. cbv zeta in Hm. rewrite Hm.
  destruct (truthy (pins .& RS232_CTS_MASK X)), (truthy (pins .& RS232_DSR_MASK X));
    repeat split; bits; try reflexivity; destruct (bit (bMSR d) _); reflexivity.
Qed.

Transparent updateIRR.

(** ** Port writes *)

Section EmitsOnly.

Context (P : event -> bool).

Lemma emits_ret {A} (a : A) : emits_only P (ret a).
Proof. intros d a' d' evs H. inversion H. reflexivity. Qed.

Lemma emits_get : emits_only P get.
Proof. intros d a' d' evs H. inversion H. reflexivity. Qed.

Lemma emits_modify (g : SerialPort -> SerialPort) : emits_only P (modify g).
Proof. intros d a' d' evs H. inversion H. reflexivity. Qed.

Lemma emits_throw {A} : emits_only P (@throw A).
Proof. intros d a' d' evs H. discriminate H. Qed.

Lemma emits_emit (e : event) : P e = true -> emits_only P (emit e).
Proof. intros He d a' d' evs H. inversion H. cbn. now rewrite He. Qed.

Lemma emits_bind {A B} (m : M A) (k : A -> M B) :
  emits_only P m -> (forall a, emits_only P (k a)) -> emits_only P (bind m k).
Proof.
  intros Hm Hk d b d' evs H.
  apply bind_Ok_inv in H. destruct H as (a & d1 & e1 & e2 & E1 & E2 & ->).
  rewrite forallb_app, (Hm _ _ _ _ E1), (Hk _ _ _ _ _ E2). reflexivity.
Qed.

Lemma emits_when (c : bool) (m : M unit) : emits_only P m -> emits_only P (when c m).
Proof. intros Hm. destruct c; [exact Hm | apply emits_ret]. Qed.

End EmitsOnly.

Ltac emits_step :=
  first
    [ progress cbv zeta
    | apply emits_ret | apply emits_get | apply emits_modify | apply emits_throw
    | apply emits_emit; reflexivity
    | apply emits_when
    | apply emits_bind; [|intros ?]
    | match goal with
      | |- emits_only _ (if ?c then _ else _) => destruct c
      | |- emits_only _ (match ?x with _ => _ end) => destruct x
      end ].

Ltac emits_auto := repeat emits_step.

Lemma portOut_keeps_bIIR (X : Externs) (off b : Z) : keeps bIIR (portOut X off b).
Proof.
  unfold portOut, aPortOutput.
  destruct off as [|[[|[]|]|[[]|[]|]|]|]; try apply keeps_ret;
    unfold outTHR, outIER, outLCR, outMCR, transmitByte; keeps_auto.
Qed.

Lemma portOut_no_irq_call (X : Externs) (off b : Z) :
  emits_only (fun e => negb (is_irq_call e)) (portOut X off b).
Proof.
  unfold portOut, aPortOutput.
  destruct off as [|[[|[]|]|[[]|[]|]|]|]; try apply emits_ret;
    unfold outTHR, outIER, outLCR, outMCR, transmitByte; emits_auto.
Qed.

(** X8: LCR and MCR, and IER while DLAB is clear, give back on the next read
    exactly what was written, no bit masked off (for the MCR whatever the
    peer's updateStatus did in between); reads of offsets 1 to 5 change
    nothing and call nobody, so reading IIR acknowledges no interrupt and
    reading LSR clears no flag. *)
Theorem registers_read_back (X : Externs) (d : SerialPort) (b : Z) :
  (portOut X 3 b ;; inLCR) d = Ok (JNum b) (set_bLCR (JNum b) d) [] /\
  (exists d' evs, (portOut X 4 b ;; inMCR) d = Ok (JNum b) d' evs /\ bMCR d' = JNum b) /\
  (if bit (bLCR d) 7 then True
   else (portOut X 1 b ;; inIER) d = Ok (JNum b) (set_bIER (JNum b) d) []) /\
  (forall off, 1 <= off <= 5 -> portIn off d = Ok tt d []) /\
  inIIR d = Ok (bIIR d) d [] /\ inLSR d = Ok (bLSR d) d [].
Proof.
  split; [reflexivity|]. split.
  { destruct (outMCR_runs X b d) as (d' & evs & E).
    assert (Hm : bMCR d' = JNum b).
    { revert E. unfold outMCR. run_m. destruct (truthy _); cbn.
      - destruct (updateStatus d); cbn; intros E; inversion E; reflexivity.
      - intros E; inversion E; reflexivity. }
    exists d', evs. split; [|exact Hm].
    unfold bind, portOut. cbn [aPortOutput]. rewrite E. unfold inMCR, bind, get, ret.
    rewrite Hm, app_nil_r. reflexivity. }
  split.
  { destruct (bit (bLCR d) 7) eqn:Hd; [exact I|].
    unfold bind, portOut. cbn [aPortOutput]. unfold outIER, inIER. run_m.
    rewrite truthy_DLAB, Hd. cbn.
    change (bLCR (set_bIER (JNum b) d)) with (bLCR d).
    rewrite truthy_DLAB, Hd. reflexivity. }
  split; [|split; reflexivity].
  intros off Hoff.
  assert (off = 1 \/ off = 2 \/ off = 3 \/ off = 4 \/ off = 5) as [-> | [-> | [-> | [-> | ->]]]]
    by lia; reflexivity.
Qed.

Lemma registers_read_back_witness :
  portIn 5 sample_port = Ok tt sample_port [] /\
  (portOut sample_externs 3 0x1B ;; inLCR) sample_port
    = Ok (JNum 0x1B) (set_bLCR (JNum 0x1B) sample_port) [].
Proof.
  destruct (registers_read_back sample_externs sample_port 0x1B) as (H1 & _ & _ & H4 & _).
  split; [apply H4; lia | exact H1].
Defined.

(** ** The divisor latch *)

Lemma bit_255 (i : Z) : 0 <= i -> bit (JNum 255) i = (i <? 8).
Proof. intros Hi. unfold bit. change (int32 (JNum 255)) with 255. now apply testbit_255. Qed.

Lemma low_byte_replaced (w : jsval) (b : Z) :
  0 <= b < 256 -> JNum ((w .& .~ 0xff) .| b) .& 0xff = b.
Proof.
  intros Hb. apply Z.bits_inj'. intros i Hi.
  rewrite testbit_band, bit_255 by lia.
  destruct (Z.ltb_spec i 8).
  - rewrite bit_bor, bit_band, bit_bnot, bit_255, bit_JNum by lia.
    destruct (Z.ltb_spec i 8); [|lia].
    now rewrite andb_false_r, andb_true_r.
  - rewrite andb_false_r. symmetry. now apply testbit_byte_high.
Qed.

Lemma shl_byte (b : Z) : 0 <= b < 256 -> shl (JNum b) 8 = 256 * b.
Proof.
  intros Hb. unfold shl. change (Z.land 8 31) with 8.
  rewrite int32_small by lia. rewrite Z.shiftl_mul_pow2 by lia.
  rewrite toInt32_small; lia.
Qed.

Lemma lor_bytes (b0 b1 : Z) :
  0 <= b0 < 256 -> 0 <= b1 < 256 -> Z.lor b0 (256 * b1) = b0 + 256 * b1.
Proof.
  intros H0 H1.
  assert (Hl : Z.land b0 (256 * b1) = 0).
  { apply Z.bits_inj'. intros i Hi. rewrite Z.land_spec, Z.bits_0.
    destruct (Z_lt_dec i 8).
    - replace (256 * b1) with (Z.shiftl b1 8) by (rewrite Z.shiftl_mul_pow2; lia).
      rewrite Z.shiftl_spec_low by lia. apply andb_false_r.
    - rewrite testbit_byte_high by lia. reflexivity. }
  rewrite <- Z.lxor_lor by exact Hl. symmetry. now apply Z.add_nocarry_lxor.
Qed.

(** X7: with DLAB set, writing a low byte to offset 0 and a high byte to
    offset 1 loads the divisor latch with exactly these two bytes, whatever it
    held; nothing else changes and nothing is transmitted; offset 1 then reads
    the high byte back and offset 0 the low byte. *)
Theorem divisor_latch_round_trip (X : Externs) (d : SerialPort) (b0 b1 : Z) :
  bit (bLCR d) 7 = true ->
  0 <= b0 < 256 ->
  0 <= b1 < 256 ->
  let d' := set_wDL (JNum (b0 + 256 * b1)) d in
  (portOut X 0 b0 ;; portOut X 1 b1) d = Ok tt d' [] /\
  inIER d' = Ok (JNum b1) d' [] /\
  (has_queue d -> exists d2 evs, inRBR d' = Ok (JNum b0) d2 evs).
Proof.
  intros Hd H0 H1. cbv zeta.
  assert (Hlow : JNum (b0 + 256 * b1) .& 0xff = b0).
  { unfold band. change (int32 (JNum 255)) with (Z.ones 8).
    rewrite int32_small by lia. rewrite Z.land_ones by lia.
    change (2 ^ 8) with 256. replace (b0 + 256 * b1) with (b0 + b1 * 256) by lia.
    rewrite Z_mod_plus_full. apply Z.mod_small. lia. }
  assert (Hhigh : sar (JNum (b0 + 256 * b1)) 8 = b1).
  { unfold sar. change (Z.land 8 31) with 8.
    rewrite int32_small by lia. rewrite Z.shiftr_div_pow2 by lia.
    change (2 ^ 8) with 256. replace (b0 + 256 * b1) with (b0 + b1 * 256) by lia.
    rewrite Z_div_plus_full by lia. rewrite Z.div_small by lia. reflexivity. }
  remember (b0 + 256 * b1) as dl eqn:Hv.
  split; [|split].
  - unfold bind, portOut. cbn [aPortOutput]. unfold outTHR, outIER. run_m.
    rewrite truthy_DLAB, Hd. cbn.
    change (bLCR (set_wDL (JNum ((wDL d .& .~ 255) .| b0)) d)) with (bLCR d).
    rewrite truthy_DLAB, Hd. cbn.
    change 255 with 0xff. rewrite (low_byte_replaced (wDL d) b0 H0).
    rewrite shl_byte by lia.
    rewrite bor_small by (change (2 ^ 31) with 2147483648; lia).
    rewrite lor_bytes, <- Hv by lia. reflexivity.
  - unfold inIER. run_m. rewrite truthy_DLAB, Hd, Hhigh. reflexivity.
  - intros Hq.
    destruct (inRBR_runs (set_wDL (JNum dl) d) Hq) as (v & d2 & evs & E & _).
    exists d2, evs. rewrite E. f_equal.
    destruct (inRBR_clears_then_stages (set_wDL (JNum dl) d)) as [_ E'].
    cbv zeta in E'. rewrite E' in E.
    destruct (advanceRBR _); [discriminate|].
    inversion E. change (bLCR (set_wDL (JNum dl) d)) with (bLCR d).
    rewrite Hd. cbn [wDL set_wDL]. now rewrite Hlow.
Qed.

Lemma divisor_latch_round_trip_witness :
  bit (bLCR dlab_ready_port) 7 = true /\
  (portOut sample_externs 0 0x0C ;; portOut sample_externs 1 0x00) dlab_ready_port
    = Ok tt (set_wDL (JNum 0x0C) dlab_ready_port) [] /\
  inIER (set_wDL (JNum 0x0C) dlab_ready_port)
    = Ok (JNum 0) (set_wDL (JNum 0x0C) dlab_ready_port) [] /\
  exists d2 evs, inRBR (set_wDL (JNum 0x0C) dlab_ready_port) = Ok (JNum 0x0C) d2 evs.
Proof.
  split; [reflexivity|].
  destruct (divisor_latch_round_trip sample_externs dlab_ready_port 0x0C 0x00
              eq_refl ltac:(lia) ltac:(lia)) as (E1 & E2 & E3).
  split; [exact E1|]. split; [exact E2|].
  apply E3. exists [0x20]. reflexivity.
Defined.

(** ** The console log *)

Lemma printed_app (e1 e2 : list event) : printed (e1 ++ e2) = printed e1 ++ printed e2.
Proof.
  induction e1 as [|e r IH]; [reflexivity|].
  destruct e; cbn; rewrite ?IH; reflexivity.
Qed.

Lemma transmitByte_console (X : Externs) (b : Z) (d : SerialPort) (out : jstring) :
  controlIOBuffer d = None ->
  consoleOutput d = Some out ->
  let flush := (b =? 0x0A) || (Z.of_nat (List.length out) >=? 1024) in
  exists d' evs,
    transmitByte X b d = Ok true d' evs /\
    controlIOBuffer d' = None /\
    consoleOutput d' =
      Some ((if flush then [] else out) ++ (if b =? 0x0A then [] else fromCharCode b)) /\
    printed evs = (if flush then [out] else []).
Proof.
  intros Hc Ho. cbv zeta. unfold transmitByte. run_m. rewrite Hc, Ho.
  destruct (sendData d) as [fn|]; cbn;
    destruct (b =? 10) eqn:Hb; cbn;
    try destruct (Z.of_nat (Datatypes.length out) >=? 1024); cbn;
    do 2 eexists; (split; [reflexivity|]); cbn; rewrite ?Hc, ?app_nil_r; auto.
Qed.

(** X10: on a console-bound port without control, no character sent is lost
    or reordered: the lines printed so far followed by the line buffer are
    the old buffer followed by every byte sent except the linefeeds; the
    buffer, and so every printed line, never exceeds 1024 characters. *)
Theorem console_log_keeps_every_character
  (X : Externs) (bs : list Z) (d : SerialPort) (out : jstring) :
  controlIOBuffer d = None ->
  consoleOutput d = Some out ->
  Z.of_nat (List.length out) <= 1024 ->
  exists d' evs out',
    transmit_all X bs d = Ok tt d' evs /\
    consoleOutput d' = Some out' /\
    Z.of_nat (List.length out') <= 1024 /\
    List.concat (printed evs) ++ out' =
      out ++ map (fun b => b mod 2 ^ 16) (filter (fun b => negb (b =? 0x0A)) bs) /\
    Forall (fun line => Z.of_nat (List.length line) <= 1024) (printed evs).
Proof.
  revert d out. induction bs as [|b rest IH]; intros d out Hc Ho Hlen.
  - exists d, [], out. cbn. rewrite app_nil_r. auto.
  - destruct (transmitByte_console X b d out Hc Ho) as (d1 & e1 & E1 & Hc1 & Ho1 & Hp1).
    cbv zeta in Ho1, Hp1.
    set (out1 := (if (b =? 10) || (Z.of_nat (List.length out) >=? 1024) then [] else out)
                 ++ (if b =? 10 then [] else fromCharCode b)) in *.
    assert (Hlen1 : Z.of_nat (List.length out1) <= 1024).
    { unfold out1. destruct (b =? 10); cbn.
      - lia.
      - destruct (Z.geb_spec (Z.of_nat (List.length out)) 1024); cbn; [lia|].
        rewrite length_app. cbn. lia. }
    destruct (IH d1 out1 Hc1 Ho1 Hlen1) as (d2 & e2 & out2 & E2 & Ho2 & Hlen2 & Hcat & Hall).
    exists d2, (e1 ++ e2), out2. cbn [transmit_all]. unfold bind. rewrite E1, E2.
    split; [reflexivity|]. split; [exact Ho2|]. split; [exact Hlen2|].
    rewrite printed_app, Hp1. split.
    + rewrite concat_app, <- app_assoc, Hcat. unfold out1. cbn [filter].
      destruct (b =? 10); cbn; rewrite ?app_nil_r; [reflexivity|].
      destruct (Z.of_nat (List.length out) >=? 1024); cbn;
        rewrite ?app_nil_r, <- ?app_assoc; reflexivity.
    + apply Forall_app. split; [|exact Hall].
      destruct ((b =? 10) || (Z.of_nat (List.length out) >=? 1024)); auto.
Qed.


Lemma console_log_keeps_every_character_witness :
  controlIOBuffer console_port = None /\
  consoleOutput console_port = Some [] /\
  exists d' evs,
    transmit_all sample_externs [0x48; 0x69; 0x0A; 0x21] console_port = Ok tt d' evs /\
    printed evs = [[0x48; 0x69]] /\ consoleOutput d' = Some [0x21].
Proof.
  assert (H1 : controlIOBuffer console_port = None) by (vm_compute; reflexivity).
  assert (H2 : consoleOutput console_port = Some []) by (vm_compute; reflexivity).
  split; [exact H1|]. split; [exact H2|].
  destruct (console_log_keeps_every_character sample_externs [0x48; 0x69; 0x0A; 0x21]
              console_port [] H1 H2 ltac:(cbn; lia))
    as (d' & evs & out' & E & _).
  exists d', evs. split; [exact E|].
  vm_compute in E. injection E as <- <-. split; vm_compute; reflexivity.
Defined.

(** ** The echo surface *)

Lemma tab_width_cases (d : SerialPort) :
  tab_width d = match tabSize d with Some 0 => 8 | Some t => t | None => 8 end.
Proof. reflexivity. Qed.

Lemma transmitByte_echo (X : Externs) (b : Z) (d : SerialPort) (value : jstring) :
  controlIOBuffer d = Some value ->
  0 <= iLogicalCol d ->
  0 < tab_width d ->
  exists d' evs value',
    transmitByte X b d = Ok true d' evs /\
    controlIOBuffer d' = Some value' /\
    0 <= iLogicalCol d' /\
    echo_config d' = echo_config d /\
    consoleOutput d' = consoleOutput d /\
    printed evs = [] /\
    (b = 0x09 ->
     iLogicalCol d' mod tab_width d = 0 /\
     iLogicalCol d < iLogicalCol d' <= iLogicalCol d + tab_width d).
Proof.
  intros Hc Hcol Htab. rewrite tab_width_cases in *.
  set (tab := match tabSize d with Some 0 => 8 | Some t => t | None => 8 end) in *.
  assert (Hrem : Z.rem (iLogicalCol d) tab = iLogicalCol d mod tab)
    by (apply Z.rem_mod_nonneg; lia).
  assert (Hmod := Z.mod_pos_bound (iLogicalCol d) tab Htab).
  assert (Hstop : (iLogicalCol d + (tab - iLogicalCol d mod tab)) mod tab = 0).
  { replace (iLogicalCol d + (tab - iLogicalCol d mod tab))
      with (iLogicalCol d - iLogicalCol d mod tab + 1 * tab) by lia.
    rewrite Z.mod_add by lia.
    rewrite Zminus_mod, Z.mod_mod, Z.sub_diag by lia. reflexivity. }
  unfold transmitByte. run_m. rewrite Hc. fold tab.
  destruct (sendData d) as [fn|]; cbn.
  all: destruct (b =? 13) eqn:Hcr; [|destruct (b =? 8) eqn:Hbs]; cbn.
  all: try (destruct (iLogicalCol d >? 0) eqn:Hpos; cbn).
  all: do 3 eexists; (split; [reflexivity|]); cbn; rewrite ?Hc.
  all: split; [reflexivity|].
  all: repeat match goal with
              | H : (_ =? _) = true |- _ => apply Z.eqb_eq in H
              | H : (_ =? _) = false |- _ => apply Z.eqb_neq in H
              end.
  all: try (rewrite Z.gtb_ltb in Hpos;
            first [apply Z.ltb_lt in Hpos | apply Z.ltb_ge in Hpos]).
  all: split;
    [ first
        [ lia
        | destruct (b =? 9);
          [ lia
          | destruct ((b <? 32) && (Z.of_nat (List.length (toASCIICode X b)) =? 1));
            lia ] ]
    | split; [reflexivity|]; split; [reflexivity|]; split; [reflexivity|];
      intros Hb9;
      first [ lia | subst b; cbn; rewrite Hrem; split; [exact Hstop | lia] ] ].
Qed.

(** X11: on an echo surface (a bound control) whose column is not negative
    and whose tab width is positive, every run of transmitted bytes is
    accepted; the control stays bound, the column never becomes negative
    (a backspace at column 0 leaves it at 0), the tab width and the
    beginning-of-line character are as configured, and the console log is
    neither written nor printed: the control shadows it. *)
Theorem echo_surface_column_stays_valid
  (X : Externs) (bs : list Z) (d : SerialPort) (value : jstring) :
  controlIOBuffer d = Some value ->
  0 <= iLogicalCol d ->
  0 < tab_width d ->
  exists d' evs value',
    transmit_all X bs d = Ok tt d' evs /\
    controlIOBuffer d' = Some value' /\
    0 <= iLogicalCol d' /\
    echo_config d' = echo_config d /\
    consoleOutput d' = consoleOutput d /\
    printed evs = [].
Proof.
  revert d value. induction bs as [|b rest IH]; intros d value Hc Hcol Htab.
  - exists d, [], value. repeat split; first [assumption | reflexivity].
  - destruct (transmitByte_echo X b d value Hc Hcol Htab)
      as (d1 & e1 & v1 & E1 & Hc1 & Hcol1 & Hcfg1 & Hout1 & Hp1 & _).
    assert (Htab1 : 0 < tab_width d1).
    { unfold tab_width. unfold echo_config in Hcfg1.
      injection Hcfg1 as -> _. exact Htab. }
    destruct (IH d1 v1 Hc1 Hcol1 Htab1) as (d2 & e2 & v2 & E2 & Hc2 & Hcol2 & Hcfg2 & Hout2 & Hp2).
    exists d2, (e1 ++ e2), v2. cbn [transmit_all]. unfold bind. rewrite E1, E2.
    split; [reflexivity|]. split; [exact Hc2|]. split; [exact Hcol2|].
    split; [congruence|]. split; [congruence|].
    rewrite printed_app, Hp1, Hp2. reflexivity.
Qed.

Lemma echo_surface_column_stays_valid_witness :
  exists d' evs value',
    transmit_all sample_externs [0x08; 0x08; 0x08; 0x08; 0x44; 0x09] tab8_echo_port
      = Ok tt d' evs /\
    controlIOBuffer d' = Some value' /\
    0 <= iLogicalCol d' /\
    echo_config d' = echo_config tab8_echo_port /\
    consoleOutput d' = consoleOutput tab8_echo_port /\
    printed evs = [].
Proof.
  apply (echo_surface_column_stays_valid sample_externs
           [0x08; 0x08; 0x08; 0x08; 0x44; 0x09] tab8_echo_port [0x41; 0x42; 0x43]).
  - vm_compute. reflexivity.
  - vm_compute. intros H. discriminate H.
  - vm_compute. reflexivity.
Defined.

(** X12: a tab sent to an echo surface moves the column to the next tab
    stop: the new column is a multiple of the tab width (8 when none is
    configured), strictly beyond the old one and at most one tab width
    away. *)
Theorem tab_reaches_next_tab_stop (X : Externs) (d : SerialPort) (value : jstring) :
  controlIOBuffer d = Some value ->
  0 <= iLogicalCol d ->
  0 < tab_width d ->
  exists d' evs,
    transmitByte X 0x09 d = Ok true d' evs /\
    iLogicalCol d' mod tab_width d = 0 /\
    iLogicalCol d < iLogicalCol d' <= iLogicalCol d + tab_width d.
Proof.
  intros Hc Hcol Htab.
  destruct (transmitByte_echo X 9 d value Hc Hcol Htab)
    as (d1 & e1 & v1 & E1 & _ & _ & _ & _ & _ & Hstop).
  exists d1, e1. split; [exact E1|]. exact (Hstop eq_refl).
Qed.

Lemma tab_reaches_next_tab_stop_witness :
  iLogicalCol tab8_echo_port = 3 /\
  exists d' evs,
    transmitByte sample_externs 0x09 tab8_echo_port = Ok true d' evs /\
    iLogicalCol d' mod tab_width tab8_echo_port = 0 /\
    iLogicalCol tab8_echo_port < iLogicalCol d'
      <= iLogicalCol tab8_echo_port + tab_width tab8_echo_port.
Proof.
  split; [vm_compute; reflexivity|].
  apply (tab_reaches_next_tab_stop sample_externs tab8_echo_port [0x41; 0x42; 0x43]).
  - vm_compute. reflexivity.
  - vm_compute. intros H. discriminate H.
  - vm_compute. reflexivity.
Defined.

(** ** Where a transmitted byte goes *)

(** X13: transmitByte never fails.  The peer, when one is connected, is
    offered the byte first and exactly once, on the connection, whatever
    else is bound.  The byte counts as sent when a control or a console log
    is bound, even if the peer refused it; with neither, the peer's answer
    decides, and with no sink at all the byte is not sent.  A bound control
    shadows the console log; without a control the column is not touched.
    When there is no peer function the only outside calls are printlns of
    the console log, and with no control and no console log either the port
    is left exactly as it was. *)
Theorem transmitByte_sinks (X : Externs) (b : Z) (d : SerialPort) :
  exists d' evs,
    transmitByte X b d =
      Ok (match controlIOBuffer d, consoleOutput d with
          | None, None =>
              match sendData d with
              | Some fn => fn_result fn b
              | None => false
              end
          | _, _ => true
          end) d' evs /\
    (forall fn, sendData d = Some fn ->
                exists rest, evs = EvSendData fn (connection d) b :: rest) /\
    peer_calls evs = match sendData d with
                     | Some _ => [connection d]
                     | None => []
                     end /\
    (controlIOBuffer d <> None ->
     consoleOutput d' = consoleOutput d /\ printed evs = []) /\
    (controlIOBuffer d = None ->
     controlIOBuffer d' = None /\ iLogicalCol d' = iLogicalCol d) /\
    (sendData d = None ->
     evs = map EvPrintln (printed evs) /\
     (controlIOBuffer d = None -> consoleOutput d = None -> d' = d)).
Proof.
  unfold transmitByte. run_m.
  destruct (controlIOBuffer d) as [value|] eqn:Hc.
  - destruct (sendData d) as [fn|]; cbn.
    all: destruct (b =? 13); [|destruct (b =? 8)]; cbn.
    all: try (destruct (iLogicalCol d >? 0); cbn).
    all: do 2 eexists; (split; [reflexivity|]); cbn.
    all: repeat split; try reflexivity; try discriminate.
    all: try (intros fn' Hfn; injection Hfn as <-; eexists; reflexivity).
  - destruct (consoleOutput d) as [out|] eqn:Ho.
    + destruct (sendData d) as [fn|]; cbn.
      all: destruct (b =? 10); cbn.
      all: try (destruct (Z.of_nat (List.length out) >=? 1024); cbn).
      all: do 2 eexists; (split; [reflexivity|]); cbn.
      all: repeat split; try reflexivity; try discriminate; try congruence.
      all: try (intros fn' Hfn; injection Hfn as <-; eexists; reflexivity).
    + destruct (sendData d) as [fn|]; cbn.
      all: do 2 eexists; (split; [reflexivity|]); cbn.
      all: repeat split; try reflexivity; try discriminate; try congruence.
      all: try (intros fn' Hfn; injection Hfn as <-; eexists; reflexivity).
Qed.

Lemma transmitByte_sinks_witness :
  exists d' evs,
    transmitByte sample_externs 0x41 plain_echo_port = Ok true d' evs /\
    consoleOutput d' = consoleOutput plain_echo_port /\ printed evs = [].
Proof.
  assert (Hv : controlIOBuffer plain_echo_port = Some []) by (vm_compute; reflexivity).
  destruct (transmitByte_sinks sample_externs 0x41 plain_echo_port)
    as (d' & evs & E & _ & _ & Hc & _).
  rewrite Hv in E, Hc. exists d', evs. split; [exact E|]. apply Hc. discriminate.
Defined.

(** ** A port with nowhere to send *)

Ltac keeps_bits :=
  repeat first
    [ keeps_step
    | apply keeps_modify; intros; unfold ready_bits; cbn; bits; reflexivity ].

Lemma push_all_keeps {T : Type} (f : SerialPort -> T) (s : list Z) :
  (forall v d, f (set_abReceive v d) = f d) -> keeps f (push_all s).
Proof.
  intros Hf. induction s as [|c rest IH]; cbn [push_all]; [apply keeps_ret|].
  apply keeps_bind; [|intros _; exact IH].
  unfold push. apply keeps_bind; [apply keeps_get|]. intros d0.
  destruct (abReceive d0); try apply keeps_throw.
  apply keeps_modify. intros. apply Hf.
Qed.

Lemma receive_paths_keep_sinks (X : Externs) (o : op) :
  is_traffic o = true -> (forall off b, o <> OpOut off b) -> keeps sink_cells (exec X o).
Proof.
  intros Ht Hout. destruct o; try discriminate Ht; cbn [exec].
  - unfold portIn, aPortInput.
    destruct off as [|[[|[]|]|[[]|[]|]|]|]; try apply keeps_ret;
      unfold inRBR, inIER, inIIR, inLCR, inMCR, inLSR, inMSR, advanceRBR,
        abReceive_nonempty, shift_into_RBR, updateIRR; keeps_auto.
  - exfalso. exact (Hout off bOut eq_refl).
  - apply keeps_bind; [|intros; apply keeps_ret].
    unfold receiveData. apply keeps_bind; [|intros _].
    + destruct data; [unfold push; keeps_auto | apply push_all_keeps; reflexivity
                      | keeps_auto].
    + unfold advanceRBR, abReceive_nonempty, shift_into_RBR, updateIRR; keeps_auto.
  - unfold receiveStatus, updateIRR. keeps_auto.
Qed.

Lemma receive_paths_keep_ready_bits (X : Externs) (o : op) :
  is_traffic o = true -> (forall off b, o <> OpOut off b) -> keeps ready_bits (exec X o).
Proof.
  intros Ht Hout. destruct o; try discriminate Ht; cbn [exec].
  - unfold portIn, aPortInput.
    destruct off as [|[[|[]|]|[[]|[]|]|]|]; try apply keeps_ret;
      unfold inRBR, inIER, inIIR, inLCR, inMCR, inLSR, inMSR, advanceRBR,
        abReceive_nonempty, shift_into_RBR, updateIRR; keeps_bits.
  - exfalso. exact (Hout off bOut eq_refl).
  - apply keeps_bind; [|intros; apply keeps_ret].
    unfold receiveData. apply keeps_bind; [|intros _].
    + destruct data; [unfold push; keeps_auto | apply push_all_keeps; reflexivity
                      | keeps_auto].
    + unfold advanceRBR, abReceive_nonempty, shift_into_RBR, updateIRR; keeps_bits.
  - unfold receiveStatus, updateIRR. keeps_auto.
Qed.

Lemma transmitByte_no_sink (X : Externs) (b : Z) (d : SerialPort) :
  no_sink d -> transmitByte X b d = Ok false d [].
Proof.
  unfold no_sink, sink_cells. intros H. injection H as Hs Hc Ho.
  unfold transmitByte. run_m. rewrite Hs, Hc, Ho. reflexivity.
Qed.

Lemma portOut_no_sink (X : Externs) (off b : Z) (d d' : SerialPort) (evs : list event) :
  no_sink d ->
  portOut X off b d = Ok tt d' evs ->
  no_sink d' /\
  (stalled d -> stalled d') /\
  (off = 0 -> bit (bLCR d) 7 = false -> stalled d' /\ evs = []).
Proof.
  intros Hn E.
  assert (Hother : forall m : M unit,
             keeps sink_cells m -> keeps ready_bits m -> m d = Ok tt d' evs ->
             no_sink d' /\ (stalled d -> stalled d')).
  { intros m K1 K2 Em. unfold no_sink, stalled.
    rewrite (K1 _ _ _ _ Em), (K2 _ _ _ _ Em). auto. }
  unfold portOut, aPortOutput in E.
  destruct off as [|[[|[]|]|[[]|[]|]|]|];
    try (destruct (Hother _ (keeps_ret _ tt) (keeps_ret _ tt) E) as [H1 H2];
         split; [exact H1|]; split; [exact H2|]; intros; lia).
  1: {
    unfold outTHR in E. unfold bind at 1, get in E. rewrite truthy_DLAB in E.
    destruct (bit (bLCR d) 7) eqn:Hd.
    + inversion E; subst. split; [exact Hn|]. split; [auto|]. intros _ Hf. discriminate Hf.
    + unfold bind, modify in E. rewrite transmitByte_no_sink in E by exact Hn.
      cbn in E. inversion E; subst.
      assert (Hst : stalled (set_bLSR (JNum (bLSR d .& .~ (LSR_THRE .| LSR_TSRE)))
                               (set_bTHR (JNum b) d))).
      { unfold stalled, ready_bits. cbn. bits. reflexivity. }
      split; [exact Hn|]. split; [intros _; exact Hst|]. intros _ _. auto.
  }
  all: match type of E with
       | ?m _ = _ =>
           assert (K1 : keeps sink_cells m) by (unfold outIER, outLCR, outMCR; keeps_auto);
           assert (K2 : keeps ready_bits m) by (unfold outIER, outLCR, outMCR; keeps_auto);
           destruct (Hother _ K1 K2 E) as [H1 H2];
           split; [exact H1|]; split; [exact H2|]; intros; lia
       end.
Qed.

Lemma traffic_keeps_stall (X : Externs) (o : op) (d : SerialPort) :
  is_traffic o = true ->
  no_sink d -> stalled d -> has_queue d ->
  exists d' evs, exec X o d = Ok tt d' evs /\ no_sink d' /\ stalled d' /\ has_queue d'.
Proof.
  intros Ht Hn Hs Hq.
  destruct (exec_runs X o d Hq) as (d' & evs & E & Hq').
  exists d', evs. split; [exact E|].
  assert (D : (exists off b, o = OpOut off b) \/ (forall off b, o <> OpOut off b)).
  { destruct o; try (right; intros; discriminate). left. eauto. }
  destruct D as [(off & b & ->) | Hout].
  - cbn [exec] in E. destruct (portOut_no_sink X off b d d' evs Hn E) as (H1 & H2 & _).
    auto.
  - unfold no_sink, stalled.
    rewrite (receive_paths_keep_sinks X o Ht Hout _ _ _ _ E).
    rewrite (receive_paths_keep_ready_bits X o Ht Hout _ _ _ _ E). auto.
Qed.

(** X14: a port with no peer function, no control and no console log has
    nowhere to send: a byte written to the transmit register (DLAB clear) is
    offered to nobody, the transmitter-empty bits THRE and TSRE of the LSR
    are cleared, and no later port read or write, data delivery or status
    delivery sets them again. *)
Theorem unconnected_transmitter_stalls
  (X : Externs) (d : SerialPort) (b : Z) (os : list op) :
  no_sink d ->
  has_queue d ->
  bit (bLCR d) 7 = false ->
  forallb is_traffic os = true ->
  exists d1 d2 evs,
    portOut X 0 b d = Ok tt d1 [] /\
    exec_all X os d1 = Ok tt d2 evs /\
    stalled d1 /\ stalled d2 /\ no_sink d2.
Proof.
  intros Hn Hq Hd Hos.
  destruct (exec_runs X (OpOut 0 b) d Hq) as (d1 & e1 & E1 & Hq1). cbn [exec] in E1.
  destruct (portOut_no_sink X 0 b d d1 e1 Hn E1) as (Hn1 & _ & H0).
  destruct (H0 eq_refl Hd) as [Hs1 ->].
  exists d1.
  assert (Hrun : exists d2 evs,
             exec_all X os d1 = Ok tt d2 evs /\ stalled d2 /\ no_sink d2).
  { clear E1 H0 Hd Hn Hq d. revert d1 Hn1 Hs1 Hq1.
    induction os as [|o rest IH]; intros d1 Hn1 Hs1 Hq1.
    - exists d1, []. auto.
    - cbn [forallb] in Hos. apply andb_true_iff in Hos. destruct Hos as [Ho Hrest].
      destruct (traffic_keeps_stall X o d1 Ho Hn1 Hs1 Hq1) as (d2 & e2 & E2 & Hn2 & Hs2 & Hq2).
      destruct (IH Hrest d2 Hn2 Hs2 Hq2) as (d3 & e3 & E3 & Hs3 & Hn3).
      exists d3, (e2 ++ e3). cbn [exec_all]. unfold bind. rewrite E2, E3. auto. }
  destruct Hrun as (d2 & evs & E2 & Hs2 & Hn2).
  exists d2, evs. auto.
Qed.

Lemma unconnected_transmitter_stalls_witness :
  bLSR sample_port = JNum 0x60 /\
  exists d1 d2 evs,
    portOut sample_externs 0 0x41 sample_port = Ok tt d1 [] /\
    exec_all sample_externs
      [OpReceiveData (RxNumber 0x10); OpIn 0; OpOut 0 0x42; OpIn 5] d1 = Ok tt d2 evs /\
    stalled d1 /\ stalled d2 /\ no_sink d2.
Proof.
  split; [vm_compute; reflexivity|].
  apply (unconnected_transmitter_stalls sample_externs sample_port 0x41
           [OpReceiveData (RxNumber 0x10); OpIn 0; OpOut 0 0x42; OpIn 5]).
  - vm_compute. reflexivity.
  - exists []. vm_compute. reflexivity.
  - vm_compute. reflexivity.
  - reflexivity.
Defined.

(** ** Calls to the peer *)

Lemma peer_calls_app (e1 e2 : list event) :
  peer_calls (e1 ++ e2) = peer_calls e1 ++ peer_calls e2.
Proof.
  induction e1 as [|e r IH]; [reflexivity|].
  destruct e; cbn; rewrite ?IH; reflexivity.
Qed.

Lemma no_peer_calls (evs : list event) :
  forallb (fun e => negb (is_peer_call e)) evs = true -> peer_calls evs = [].
Proof.
  induction evs as [|e r IH]; [reflexivity|].
  cbn [forallb]. intros H. apply andb_true_iff in H. destruct H as [He Hr].
  destruct e; cbn in *; try discriminate He; auto.
Qed.

Lemma push_all_emits (P : event -> bool) (s : list Z) : emits_only P (push_all s).
Proof.
  induction s as [|c rest IH]; cbn [push_all]; [apply emits_ret|].
  apply emits_bind; [|intros _; exact IH].
  unfold push. emits_auto.
Qed.

Lemma quiet_steps (X : Externs) (o : op) :
  (forall off b, o <> OpOut off b) ->
  emits_only (fun e => negb (is_peer_call e)) (exec X o).
Proof.
  intros Hout. destruct o; cbn [exec].
  - unfold portIn, aPortInput.
    destruct off as [|[[|[]|]|[[]|[]|]|]|]; try apply emits_ret;
      unfold inRBR, inIER, inIIR, inLCR, inMCR, inLSR, inMSR, advanceRBR,
        abReceive_nonempty, shift_into_RBR, updateIRR; emits_auto.
  - exfalso. exact (Hout off bOut eq_refl).
  - apply emits_bind; [|intros; apply emits_ret].
    unfold receiveData. apply emits_bind; [|intros _].
    + destruct data; [unfold push; emits_auto | apply push_all_emits | emits_auto].
    + unfold advanceRBR, abReceive_nonempty, shift_into_RBR, updateIRR; emits_auto.
  - unfold receiveStatus, updateIRR. emits_auto.
  - unfold initConnection, status_unable. emits_auto.
  - unfold attachMouse. emits_auto.
  - unfold setBinding. emits_auto.
  - unfold initBus. emits_auto.
  - unfold powerUp, initConnection, status_unable, reset, restore, initState. emits_auto.
  - unfold reset, initState. emits_auto.
Qed.

Lemma steady_steps (X : Externs) (o : op) :
  rewires o = false -> keeps link_cells (exec X o).
Proof.
  intros Hr. destruct o; try discriminate Hr; cbn [exec].
  - unfold portIn, aPortInput.
    destruct off as [|[[|[]|]|[[]|[]|]|]|]; try apply keeps_ret;
      unfold inRBR, inIER, inIIR, inLCR, inMCR, inLSR, inMSR, advanceRBR,
        abReceive_nonempty, shift_into_RBR, updateIRR; keeps_auto.
  - unfold portOut, aPortOutput.
    destruct off as [|[[|[]|]|[[]|[]|]|]|]; try apply keeps_ret;
      unfold outTHR, outIER, outLCR, outMCR, transmitByte; keeps_auto.
  - apply keeps_bind; [|intros; apply keeps_ret].
    unfold receiveData. apply keeps_bind; [|intros _].
    + destruct data; [unfold push; keeps_auto | apply push_all_keeps; reflexivity
                      | keeps_auto].
    + unfold advanceRBR, abReceive_nonempty, shift_into_RBR, updateIRR; keeps_auto.
  - unfold receiveStatus, updateIRR. keeps_auto.
  - unfold setBinding. keeps_auto.
  - unfold initBus. keeps_auto.
  - cbn in Hr. apply negb_false_iff in Hr. subst fRepower. unfold powerUp. cbn. keeps_auto.
  - unfold reset, initState. keeps_auto.
Qed.

Ltac split_cases E :=
  repeat match type of E with
         | context [match ?x with _ => _ end] =>
             lazymatch x with
             | context [match _ with _ => _ end] => fail
             | _ => let H := fresh "Hx" in destruct x eqn:H; cbn in E
             end
         end.

Lemma initConnection_linked (X : Externs) (w : World) (fNull : bool)
  (d d' : SerialPort) (evs : list event) :
  linked d -> initConnection X w fNull d = Ok tt d' evs -> linked d'.
Proof.
  intros Hl E. unfold initConnection, status_unable in E.
  unfold bind at 1, get in E.
  destruct (connection d) as [c|] eqn:Hc; [inversion E; subst; exact Hl|].
  destruct (Hl Hc) as [Hs Hu].
  destruct (connectionParm w) as [[|ch sConn]|]; try (inversion E; subst; exact Hl).
  destruct (split_arrow (String ch sConn)) as [|p0 [|p1 [|p2 rest]]];
    try (inversion E; subst; exact Hl).
  destruct (negb (String.eqb (trim X p0) (idComponent d)));
    [inversion E; subst; exact Hl|].
  unfold bind, modify, emit, ret in E.
  destruct (getComponentByID w (trim X p1)) as [target|].
  - assert (Hconn : connection d' = Some target).
    { destruct (comp_exports target) as [ex|]; [|inversion E; subst; reflexivity].
      destruct (exp_connect ex); destruct (exp_receiveData ex);
        inversion E; subst; reflexivity. }
    intros Hn. rewrite Hconn in Hn. discriminate Hn.
  - inversion E; subst. intros _. cbn. auto.
Qed.

Lemma exec_linked (X : Externs) (o : op) (d d' : SerialPort) (evs : list event) :
  linked d -> exec X o d = Ok tt d' evs -> linked d'.
Proof.
  intros Hl E. destruct (rewires o) eqn:Hr.
  - destruct o; try discriminate Hr; cbn [exec] in E.
    + exact (initConnection_linked X w fNull d d' evs Hl E).
    + unfold attachMouse, bind, get, modify, ret in E. cbn in E.
      destruct (connection d) as [c|] eqn:Hc; [inversion E; subst; exact Hl|].
      destruct (String.eqb id (idComponent d)); cbn in E; inversion E; subst; [|exact Hl].
      intros Hn. discriminate Hn.
    + cbn in Hr. apply negb_true_iff in Hr. subst fRepower.
      unfold powerUp in E. cbn [negb] in E.
      apply bind_Ok_inv in E. destruct E as (r & d1 & e1 & e2 & E1 & E2 & _).
      apply bind_Ok_inv in E1. destruct E1 as (d0 & d0' & e3 & e4 & Eg & Ei & _).
      inversion Eg; subst. inversion E2; subst.
      apply bind_Ok_inv in Ei. destruct Ei as ([] & d2 & e5 & e6 & Ei & Er & _).
      apply (initConnection_linked X w _ _ _ _ Hl) in Ei.
      assert (K : keeps link_cells (reset ;; ret true))
        by (unfold reset, initState; keeps_auto).
      apply K in Er. unfold link_cells in Er. injection Er as Ec Es Eu.
      unfold linked. rewrite Ec, Es, Eu. exact Ei.
  - apply (steady_steps X o Hr) in E. unfold link_cells in E. injection E as Ec Es Eu.
    unfold linked. rewrite Ec, Es, Eu. exact Hl.
Qed.

Lemma reachable_linked (X : Externs) (d : SerialPort) : reachable X d -> linked d.
Proof.
  induction 1 as [p d0 d w evs Hnew Hup | o d d' evs _ IH E].
  - assert (Hl0 : linked d0).
    { unfold SerialPort_new in Hnew.
      destruct (p_adapter p =? 1); [|destruct (p_adapter p =? 2)];
        inversion Hnew; subst; intros _; split; reflexivity. }
    apply (exec_linked X (OpPowerUp w false) d0 d evs Hl0).
    cbn [exec]. unfold bind, ret. rewrite Hup, app_nil_r. reflexivity.
  - exact (exec_linked X o d d' evs IH E).
Qed.

Lemma portOut_peer_calls (X : Externs) (off b : Z) (d d' : SerialPort) (evs : list event) :
  portOut X off b d = Ok tt d' evs ->
  forall p, In p (peer_calls evs) ->
  p = connection d /\ (sendData d <> None \/ updateStatus d <> None).
Proof.
  intros E p Hin. unfold portOut, aPortOutput in E.
  destruct off as [|[[|[]|]|[[]|[]|]|]|];
    try (inversion E; subst; destruct Hin).
  - unfold outTHR, transmitByte, bind, get, modify, emit, ret, when, throw in E. cbn in E.
    destruct (truthy (bLCR d .& LCR_DLAB)); cbn in E;
      [inversion E; subst; destruct Hin|].
    destruct (sendData d) as [fn|] eqn:Hs; cbn in E.
    + assert (Hev : peer_calls evs = [connection d]).
      { split_cases E; inversion E; subst; reflexivity. }
      rewrite Hev in Hin. destruct Hin as [<- | []].
      split; [reflexivity|]. left. discriminate.
    + assert (Hev : peer_calls evs = []).
      { split_cases E; inversion E; subst; reflexivity. }
      rewrite Hev in Hin. destruct Hin.
  - unfold outMCR, bind, get, modify, emit, ret, when, throw in E. cbn in E.
    destruct (truthy _); cbn in E; [|inversion E; subst; destruct Hin].
    destruct (updateStatus d) as [fn|] eqn:Hu; cbn in E;
      inversion E; subst; cbn in Hin; [|destruct Hin].
    destruct Hin as [<- | []]. split; [reflexivity|]. right. discriminate.
  - unfold outIER, bind, get, modify, emit, ret, when, throw in E. cbn in E.
    destruct (truthy _); inversion E; subst; destruct Hin.
Qed.

Lemma portOut_calls_no_peer (X : Externs) (off b : Z) (d d' : SerialPort) (evs : list event) :
  (off = 0 -> bit (bLCR d) 7 = true \/ sendData d = None) ->
  (off = 4 -> updateStatus d = None \/ lines_changed (bMCR d) b = false) ->
  portOut X off b d = Ok tt d' evs ->
  peer_calls evs = [].
Proof.
  intros H0 H4 E. unfold portOut, aPortOutput in E.
  destruct off as [|[[|[]|]|[[]|[]|]|]|]; try (inversion E; subst; reflexivity).
  - unfold outTHR, transmitByte, bind, get, modify, emit, ret, when, throw in E. cbn in E.
    rewrite truthy_DLAB in E.
    destruct (bit (bLCR d) 7); cbn in E; [inversion E; subst; reflexivity|].
    destruct (H0 eq_refl) as [Hd | Hs]; [discriminate Hd|].
    rewrite Hs in E. cbn in E.
    split_cases E; inversion E; subst; reflexivity.
  - unfold outMCR, bind, get, modify, emit, ret, when, throw in E. cbn in E.
    rewrite truthy_DTR_RTS, !bit_bxor, !bit_JNum in E by lia.
    change (xorb (Z.testbit b 0) (bit (bMCR d) 0) || xorb (Z.testbit b 1) (bit (bMCR d) 1))
      with (lines_changed (bMCR d) b) in E.
    destruct (lines_changed (bMCR d) b); cbn in E; [|inversion E; subst; reflexivity].
    destruct (H4 eq_refl) as [Hu | Hl]; [|discriminate Hl].
    rewrite Hu in E. cbn in E. inversion E; subst; reflexivity.
  - unfold outIER, bind, get, modify, emit, ret, when, throw in E. cbn in E.
    destruct (truthy _); inversion E; subst; reflexivity.
Qed.

(** X9: a port write that calls no peer function does not re-arbitrate
    interrupts: every write to offsets 1 and 3 (and to the offsets without a
    handler), a write to offset 0 with DLAB set or with no sendData, and a
    write to offset 4 that changes neither DTR nor RTS or finds no
    updateStatus, leaves IIR as it was and does not call the interrupt
    controller, even when it enables an interrupt whose condition already
    holds. *)
Theorem port_writes_leave_interrupts_alone (X : Externs) (off b : Z) (d : SerialPort) :
  (off = 0 -> bit (bLCR d) 7 = true \/ sendData d = None) ->
  (off = 4 -> updateStatus d = None \/ lines_changed (bMCR d) b = false) ->
  exists d' evs,
    portOut X off b d = Ok tt d' evs /\
    peer_calls evs = [] /\
    bIIR d' = bIIR d /\
    forallb (fun e => negb (is_irq_call e)) evs = true.
Proof.
  intros H0 H4.
  destruct (portOut_runs X off b d) as (d' & evs & E).
  exists d', evs. split; [exact E|]. split; [|split].
  - exact (portOut_calls_no_peer X off b d d' evs H0 H4 E).
  - exact (portOut_keeps_bIIR X off b _ _ _ _ E).
  - exact (portOut_no_irq_call X off b _ _ _ _ E).
Qed.

Lemma port_writes_leave_interrupts_alone_witness :
  bit (bLSR ready_port) 0 = true /\
  (exists d' evs,
     portOut sample_externs 1 IER_RBR_AVAIL ready_port = Ok tt d' evs /\
     bit (bIER d') 0 = true /\
     peer_calls evs = [] /\
     bIIR d' = bIIR ready_port /\
     forallb (fun e => negb (is_irq_call e)) evs = true) /\
  sendData ready_port = None /\
  (exists d' evs,
     portOut sample_externs 0 0x41 ready_port = Ok tt d' evs /\
     peer_calls evs = [] /\
     bIIR d' = bIIR ready_port /\
     forallb (fun e => negb (is_irq_call e)) evs = true).
Proof.
  assert (Hs : sendData ready_port = None) by (vm_compute; reflexivity).
  split; [vm_compute; reflexivity|]. split; [|split; [exact Hs|]].
  - destruct (port_writes_leave_interrupts_alone sample_externs 1 IER_RBR_AVAIL ready_port)
      as (d' & evs & E & Hp & Hi & Hq).
    + intros H. discriminate H.
    + intros H. discriminate H.
    + exists d', evs. split; [exact E|]. split; [|auto].
      vm_compute in E. injection E as <- _. vm_compute. reflexivity.
  - apply (port_writes_leave_interrupts_alone sample_externs 0 0x41 ready_port).
    + intros _. right. exact Hs.
    + intros H. discriminate H.
Defined.

Lemma sample_wired_port_reachable : reachable sample_externs sample_wired_port.
Proof.
  apply (reach_step sample_externs (OpInitConnection sample_wired_world true) sample_port
           sample_wired_port
           (events_of (initConnection sample_externs sample_wired_world true sample_port)));
    [|vm_compute; reflexivity].
  apply (reach_step sample_externs (OpInitBus true) sample_powered sample_port []);
    [|reflexivity].
  apply (reach_powerUp sample_externs sample_parms sample_new sample_powered sample_world []);
    reflexivity.
Defined.

(** X15: after a power-up the port holds a function of its peer only while
    it holds the peer, so no step ever calls a peer function without a
    receiver: every sendData and updateStatus call a step makes is made on
    the connected component, which the step leaves connected. *)
Theorem peer_calls_have_a_receiver (X : Externs) (o : op) (d : SerialPort) :
  reachable X d ->
  exists d' evs,
    exec X o d = Ok tt d' evs /\
    Forall (fun p => exists c, p = Some c /\ connection d = Some c /\ connection d' = Some c)
           (peer_calls evs).
Proof.
  intros Hr.
  destruct (exec_runs X o d (reachable_has_queue X d Hr)) as (d' & evs & E & _).
  exists d', evs. split; [exact E|].
  apply Forall_forall. intros p Hin.
  assert (D : (exists off b, o = OpOut off b) \/ (forall off b, o <> OpOut off b)).
  { destruct o; try (right; intros; discriminate). left. eauto. }
  destruct D as [(off & b & ->) | Hout].
  - assert (K := steady_steps X (OpOut off b) eq_refl _ _ _ _ E).
    unfold link_cells in K. injection K as Kc _ _.
    cbn [exec] in E. destruct (portOut_peer_calls X off b d d' evs E p Hin) as [-> Hfn].
    destruct (connection d) as [c|] eqn:Hc.
    + exists c. rewrite Kc. auto.
    + destruct (reachable_linked X d Hr Hc) as [Hs Hu]. destruct Hfn; contradiction.
  - rewrite (no_peer_calls evs (quiet_steps X o Hout _ _ _ _ E)) in Hin. destruct Hin.
Qed.

Lemma peer_calls_have_a_receiver_witness :
  reachable sample_externs sample_wired_port /\
  exists d' evs,
    exec sample_externs (OpOut 0 0x41) sample_wired_port = Ok tt d' evs /\
    peer_calls evs = [Some sample_peer] /\
    Forall (fun p => exists c, p = Some c /\ connection sample_wired_port = Some c /\
                               connection d' = Some c)
           (peer_calls evs).
Proof.
  split; [exact sample_wired_port_reachable|].
  destruct (peer_calls_have_a_receiver sample_externs (OpOut 0 0x41) sample_wired_port
              sample_wired_port_reachable) as (d' & evs & E & H).
  exists d', evs. split; [exact E|]. split; [|exact H].
  vm_compute in E. injection E as <- <-. vm_compute. reflexivity.
Defined.

(** ** Making the connection *)

Lemma split_arrow_nonempty (s p0 p1 : string) : split_arrow s = [p0; p1] -> s <> EmptyString.
Proof. intros H ->. discriminate H. Qed.

(** X16: a port without connection, given a connection parameter with
    exactly one arrow whose left side trims to the port's id and whose right
    side names a component that exports receiveData, connects: the peer's
    connect export (if any) is called first, with the port's null-modem
    setting of before; then the peer, its receiveData and its receiveStatus
    are recorded, the caller's null-modem setting is adopted, and the
    connection is reported; no register changes. *)
Theorem initConnection_connects
  (X : Externs) (w : World) (fNull : bool) (d : SerialPort)
  (s p0 p1 : string) (target : Component) (ex : Exports) (rd : fnref) :
  connection d = None ->
  connectionParm w = Some s ->
  split_arrow s = [p0; p1] ->
  trim X p0 = idComponent d ->
  getComponentByID w (trim X p1) = Some target ->
  comp_exports target = Some ex ->
  exp_receiveData ex = Some rd ->
  exists d',
    initConnection X w fNull d =
      Ok tt d'
         (match exp_connect ex with
          | Some fnConnect => [EvConnect fnConnect target (fNullModem d)]
          | None => []
          end ++
          [EvStatus (idMachine d ++ "." ++ idComponent d ++ " connected to " ++ trim X p1)]) /\
    connection d' = Some target /\
    sendData d' = Some rd /\
    updateStatus d' = exp_receiveStatus ex /\
    fNullModem d' = fNull /\
    saveRegisters d' = saveRegisters d.
Proof.
  intros Hc Hw Hs Hid Ht Hex Hrd.
  assert (Hne := split_arrow_nonempty s p0 p1 Hs).
  unfold initConnection. unfold bind at 1, get. rewrite Hc, Hw.
  destruct s as [|ch rest]; [contradiction|].
  rewrite Hs, Hid, String.eqb_refl. cbn [negb].
  run_m. rewrite Ht, Hex, Hrd. cbn.
  destruct (exp_connect ex) as [fnConnect|]; cbn;
    eexists; (split; [reflexivity|]); cbn; rewrite ?Hrd; auto.
Qed.

Lemma initConnection_connects_witness :
  exists d',
    initConnection sample_externs sample_wired_world false sample_port =
      Ok tt d'
         [EvConnect (sample_peer_fn "connect") sample_peer true;
          EvStatus "ibm5150.com1 connected to pdp11.dl11"] /\
    connection d' = Some sample_peer /\
    sendData d' = Some (sample_peer_fn "receiveData") /\
    updateStatus d' = Some (sample_peer_fn "receiveStatus") /\
    fNullModem d' = false /\
    saveRegisters d' = saveRegisters sample_port.
Proof.
  exact (initConnection_connects sample_externs sample_wired_world false sample_port
           "com1->pdp11.dl11" "com1" "pdp11.dl11" sample_peer
           (mkExports (Some (sample_peer_fn "connect"))
                      (Some (sample_peer_fn "receiveData"))
                      (Some (sample_peer_fn "receiveStatus")))
           (sample_peer_fn "receiveData")
           eq_refl eq_refl eq_refl eq_refl eq_refl eq_refl eq_refl).
Defined.

(** X17: when the named component is found but does not export receiveData
    (it exports nothing, or not that function), the attempt is reported as
    failed, yet the component has already been recorded as the connection.
    From then on initConnection does nothing, whatever the machine has become,
    and attachMouse refuses: the port stays without sendData. *)
Theorem failed_handshake_blocks_retries
  (X : Externs) (w : World) (fNull : bool) (d : SerialPort)
  (s p0 p1 : string) (target : Component) :
  connection d = None ->
  sendData d = None ->
  connectionParm w = Some s ->
  split_arrow s = [p0; p1] ->
  trim X p0 = idComponent d ->
  getComponentByID w (trim X p1) = Some target ->
  match comp_exports target with
  | Some ex => exp_receiveData ex = None
  | None => True
  end ->
  exists d' evs,
    initConnection X w fNull d =
      Ok tt d' (evs ++ [EvStatus ("Unable to establish connection: " ++ s)]) /\
    connection d' = Some target /\
    sendData d' = None /\
    (forall w2 fNull2, initConnection X w2 fNull2 d' = Ok tt d' []) /\
    (forall id mouse fnUpdate, attachMouse id mouse fnUpdate d' = Ok false d' []).
Proof.
  intros Hc Hsd Hw Hs Hid Ht Hex.
  assert (Hne := split_arrow_nonempty s p0 p1 Hs).
  assert (Hlater : forall d', connection d' = Some target ->
            (forall w2 fNull2, initConnection X w2 fNull2 d' = Ok tt d' []) /\
            (forall id mouse fnUpdate, attachMouse id mouse fnUpdate d' = Ok false d' [])).
  { intros d' Hc'. split; intros.
    - unfold initConnection. unfold bind at 1, get. rewrite Hc'. reflexivity.
    - unfold attachMouse. unfold bind at 1, get. rewrite Hc'. reflexivity. }
  unfold initConnection, status_unable. unfold bind at 1, get. rewrite Hc, Hw.
  destruct s as [|ch rest]; [contradiction|].
  rewrite Hs, Hid, String.eqb_refl. cbn [negb].
  run_m. rewrite Ht.
  destruct (comp_exports target) as [ex|]; cbn.
  - rewrite Hex. destruct (exp_connect ex) as [fnConnect|]; cbn.
    + eexists. exists [EvConnect fnConnect target (fNullModem d)].
      split; [reflexivity|]. split; [reflexivity|]. split; [reflexivity|].
      apply Hlater. reflexivity.
    + eexists. exists []. split; [reflexivity|]. split; [reflexivity|].
      split; [reflexivity|]. apply Hlater. reflexivity.
  - eexists. exists []. split; [reflexivity|]. split; [reflexivity|].
    split; [exact Hsd|]. apply Hlater. reflexivity.
Qed.

Lemma failed_handshake_blocks_retries_witness :
  exists d' evs,
    initConnection sample_externs sample_laggard_world true sample_port =
      Ok tt d'
         (evs ++ [EvStatus "Unable to establish connection: com1->pdp11.dl11"]) /\
    connection d' = Some sample_laggard /\
    sendData d' = None /\
    (forall w2 fNull2, initConnection sample_externs w2 fNull2 d' = Ok tt d' []) /\
    (forall id mouse fnUpdate, attachMouse id mouse fnUpdate d' = Ok false d' []).
Proof.
  exact (failed_handshake_blocks_retries sample_externs sample_laggard_world true
           sample_port "com1->pdp11.dl11" "com1" "pdp11.dl11" sample_laggard
           eq_refl eq_refl eq_refl eq_refl eq_refl eq_refl I).
Defined.

Lemma set_connection_same (d : SerialPort) : set_connection (connection d) d = d.
Proof. destruct d; reflexivity. Qed.

(** X18: an attempt that cannot go through because the connection parameter
    is not of the form a->b, or because no component has the target id,
    reports the failure and leaves the port exactly as it was, so a later
    attempt can still succeed; a parameter addressed to another port is
    passed over in silence. *)
Theorem unresolved_connection_leaves_port_free
  (X : Externs) (w : World) (fNull : bool) (d : SerialPort) (s : string) :
  connection d = None ->
  connectionParm w = Some s ->
  s <> EmptyString ->
  match split_arrow s with
  | [p0; p1] =>
      trim X p0 <> idComponent d \/ getComponentByID w (trim X p1) = None
  | _ => True
  end ->
  initConnection X w fNull d =
    Ok tt d
       (match split_arrow s with
        | [p0; p1] =>
            if String.eqb (trim X p0) (idComponent d)
            then [EvStatus ("Unable to establish connection: " ++ s)]
            else []
        | _ => [EvStatus ("Unable to establish connection: " ++ s)]
        end).
Proof.
  intros Hc Hw Hne Hparts.
  unfold initConnection, status_unable. unfold bind at 1, get. rewrite Hc, Hw.
  destruct s as [|ch rest]; [contradiction|].
  destruct (split_arrow (String ch rest)) as [|p0 [|p1 [|p2 more]]]; try reflexivity.
  destruct (String.eqb (trim X p0) (idComponent d)) eqn:Hid; cbn [negb]; [|reflexivity].
  destruct Hparts as [Hsrc | Hmiss].
  - apply String.eqb_eq in Hid. contradiction.
  - run_m. rewrite Hmiss. cbn. rewrite <- Hc at 1. rewrite set_connection_same. reflexivity.
Qed.

Lemma unresolved_connection_leaves_port_free_witness :
  initConnection sample_externs
    (mkWorld (Some "com1->pdp11.dl11"%string) (fun _ => None)) true sample_port =
    Ok tt sample_port [EvStatus "Unable to establish connection: com1->pdp11.dl11"].
Proof.
  refine (unresolved_connection_leaves_port_free sample_externs
            (mkWorld (Some "com1->pdp11.dl11"%string) (fun _ => None)) true sample_port
            "com1->pdp11.dl11" eq_refl eq_refl _ _).
  - discriminate.
  - right. reflexivity.
Defined.

(** ** The mouse *)

(** X19: a mouse can attach only under the port's own id and only while
    nothing is connected.  Once attached, the port is taken: another attach
    and every connection attempt are refused without effect; the port is
    not in null-modem mode, so a write to the MCR that changes DTR or RTS
    hands the mouse's update function the RTS and DTR pins as they are. *)
Theorem attached_mouse_sees_RTS_and_DTR
  (X : Externs) (d : SerialPort) (mouse : Component) (fnUpdate : fnref) :
  masks_ok X ->
  connection d = None ->
  exists d1,
    attachMouse (idComponent d) mouse fnUpdate d = Ok true d1 [] /\
    saveRegisters d1 = saveRegisters d /\
    (forall id, String.eqb id (idComponent d) = false ->
                attachMouse id mouse fnUpdate d = Ok false d []) /\
    (forall id2 mouse2 fn2, attachMouse id2 mouse2 fn2 d1 = Ok false d1 []) /\
    (forall w fNull, initConnection X w fNull d1 = Ok tt d1 []) /\
    (forall b,
       outMCR X b d1 =
         Ok tt (set_bMCR (JNum b) d1)
            (if lines_changed (bMCR d) b
             then [EvUpdateStatus fnUpdate (Some mouse) (straight_pins X b)]
             else [])).
Proof.
  intros Hm Hc.
  exists (set_fNullModem false (set_updateStatus (Some fnUpdate)
            (set_connection (Some mouse) d))).
  split.
  { unfold attachMouse. run_m. rewrite Hc, String.eqb_refl. reflexivity. }
  split; [reflexivity|]. split; [|split; [|split]].
  - intros id Hid. unfold attachMouse. run_m. rewrite Hc, Hid. reflexivity.
  - intros. unfold attachMouse. run_m. reflexivity.
  - intros. unfold initConnection. run_m. reflexivity.
  - intros b.
    rewrite (outMCR_notifies X
               (set_fNullModem false (set_updateStatus (Some fnUpdate)
                  (set_connection (Some mouse) d))) fnUpdate b Hm eq_refl).
    cbn. destruct (lines_changed (bMCR d) b); reflexivity.
Qed.

Lemma attached_mouse_sees_RTS_and_DTR_witness :
  exists d1,
    attachMouse "com1" sample_mouse (sample_peer_fn "update") sample_port = Ok true d1 [] /\
    outMCR sample_externs 0x03 d1 =
      Ok tt (set_bMCR (JNum 0x03) d1)
         [EvUpdateStatus (sample_peer_fn "update") (Some sample_mouse) 0x100010].
Proof.
  destruct (attached_mouse_sees_RTS_and_DTR sample_externs sample_port sample_mouse
              (sample_peer_fn "update"))
    as (d1 & E & _ & _ & _ & _ & Hmcr).
  - unfold masks_ok. cbn. lia.
  - reflexivity.
  - exists d1. split; [exact E|]. rewrite (Hmcr 0x03). reflexivity.
Defined.
